(** * The ledger state synchronizer (class [BlockchainState])

    A shallow embedding of [js/blockchain_state] and of the collaborators it
    drives, followed by the properties of the synchronizer that the
    specification states about it.

    Layout:
    - strings and values as the JavaScript code uses them;
    - the [Request] entity and its positional wire form;
    - the entity store (its class is not among the sources);
    - the world: the object's fields, the node it talks to, the installed
      event filters, and a journal of what happened;
    - two monads: [Sync] for code that runs to completion, [Async] for
      [async] functions, whose [await]s are explicit suspension points;
    - the methods of [BlockchainState], one definition per method;
    - the theorems. *)

From Stdlib Require Import String Ascii List Bool Arith Lia.
Import ListNotations.
Local Open Scope string_scope.
Local Open Scope list_scope.

Set Implicit Arguments.

(* ------------------------------------------------------------------ *)
(** * Strings and JavaScript values *)

Module JS.

(** [_.includes(s, needle)] on strings: [needle] occurs in [s]. *)
Fixpoint includes (s needle : string) : bool :=
  String.prefix needle s ||
  match s with
  | EmptyString => false
  | String _ rest => includes rest needle
  end.

(** [s[i]] followed by string concatenation: an index past the end reads
    [undefined], which concatenates as the text "undefined". *)
Definition charAt (s : string) (i : nat) : string :=
  match String.get i s with
  | Some c => String c EmptyString
  | None => "undefined"
  end.

(** [s.substr(from, len)] and [s.substr(from)]. *)
Definition substr (s : string) (from len : nat) : string :=
  String.substring from len s.

Definition substrFrom (s : string) (from : nat) : string :=
  String.substring from (String.length s - from) s.

Definition lowerAscii (c : ascii) : ascii :=
  let n := nat_of_ascii c in
  if ((65 <=? n)%nat && (n <=? 90)%nat)%bool then ascii_of_nat (n + 32) else c.

(** [s.toLowerCase()], on the ASCII range. *)
Fixpoint toLowerCase (s : string) : string :=
  match s with
  | EmptyString => EmptyString
  | String c rest => String (lowerAscii c) (toLowerCase rest)
  end.

(** Truthiness of a value that is [null]/[undefined] or a string:
    [if (err)] is taken for a non-empty string only. *)
Definition truthy (v : option string) : bool :=
  match v with
  | None => false
  | Some s => negb (s =? EmptyString)
  end.

(** [a !== b] on values that are [null] or a string. *)
Definition strictNeq (a b : option string) : bool :=
  match a, b with
  | None, None => false
  | Some x, Some y => negb (x =? y)
  | _, _ => true
  end.

End JS.

(** The outcome of a call that may throw, or of a promise that may reject.
    The payload of [Err] is the thrown value as [`${err}`] prints it. *)
Inductive Outcome (A : Type) : Type :=
| Ok (a : A)
| Err (e : string).
Arguments Ok {A} a.
Arguments Err {A} e.

(* ------------------------------------------------------------------ *)
(** * The entity *)

Definition NULL_ADDRESS : string := "0x0000000000000000000000000000000000000000".

Record Request : Type := mkRequest {
  requesterName : string;
  valentineName : string;
  customMessage : string;
  wasAccepted : bool;
  valentineAddress : string;
  requesterAddress : string;
}.

(** The positional wire form: what [getRequestByIndex] and
    [getRequestByRequesterAddress] resolve to, a six-element array typed by
    the contract interface. *)
Record RequestArr : Type := mkRequestArr {
  arr0 : string;
  arr1 : string;
  arr2 : string;
  arr3 : bool;
  arr4 : string;
  arr5 : string;
}.

Definition _convertRequestArrToObj (requestArr : RequestArr) : Request :=
  {| requesterName := arr0 requestArr;
     valentineName := arr1 requestArr;
     customMessage := arr2 requestArr;
     wasAccepted := arr3 requestArr;
     valentineAddress := arr4 requestArr;
     requesterAddress := arr5 requestArr |}.

(** [deepEqual] of two objects built by [_convertRequestArrToObj]: both have
    the same six keys, and on strings and booleans the comparison of the
    values is plain equality. *)
Definition deepEqual (a b : Request) : bool :=
  (requesterName a =? requesterName b) &&
  (valentineName a =? valentineName b) &&
  (customMessage a =? customMessage b) &&
  Bool.eqb (wasAccepted a) (wasAccepted b) &&
  (valentineAddress a =? valentineAddress b) &&
  (requesterAddress a =? requesterAddress b).

Definition emptyRequestArr : RequestArr :=
  mkRequestArr EmptyString EmptyString EmptyString false NULL_ADDRESS NULL_ADDRESS.

Definition _doesRequestExist (request : Request) : bool :=
  negb (deepEqual request (_convertRequestArrToObj emptyRequestArr)).

(** The "non-existent" placeholder of the data model: three empty texts,
    not accepted, both addresses the null sentinel. *)
Definition placeholder : Request :=
  mkRequest EmptyString EmptyString EmptyString false NULL_ADDRESS NULL_ADDRESS.

(** A value assigned to a field through the store's [update]. *)
Inductive FieldValue : Type :=
| VStr (s : string)
| VBool (b : bool).

(* ------------------------------------------------------------------ *)
(** * The entity store *)

Module ValentineRequests.

(** Modelled from the spec: the class [ValentineRequests]
    ([js/valentine_requests]) is missing from the sources. Its section
    4.1 describes a mapping from address to request that keeps insertion
    order for enumeration; an association list in insertion order. *)
Definition t : Type := list Request.

(** Modelled from the spec: the store of the missing class
    [ValentineRequests] right after construction, "created empty". *)
Definition empty : t := [].

(** Modelled from the spec: [has(address)] of the missing class
    [ValentineRequests], a pure lookup. *)
Definition has (address : string) (st : t) : bool :=
  existsb (fun r => requesterAddress r =? address) st.

(** Modelled from the spec: [add(request)] of the missing class
    [ValentineRequests]; fails with [DuplicateKey] when the requester
    address is present, else inserts at the end of the enumeration
    order. *)
Definition add (request : Request) (st : t) : Outcome t :=
  if has (requesterAddress request) st
  then Err "DuplicateKey"
  else Ok (st ++ [request]).

(** Modelled from the spec: the assignment that [update] of the missing
    class [ValentineRequests] performs on "the single named field"; a
    name or a value outside the entity's shape leaves the six fields as
    they are. *)
Definition setField (field : string) (value : FieldValue) (r : Request) : Request :=
  match value with
  | VStr s =>
      if field =? "requesterName" then
        mkRequest s (valentineName r) (customMessage r) (wasAccepted r)
                  (valentineAddress r) (requesterAddress r)
      else if field =? "valentineName" then
        mkRequest (requesterName r) s (customMessage r) (wasAccepted r)
                  (valentineAddress r) (requesterAddress r)
      else if field =? "customMessage" then
        mkRequest (requesterName r) (valentineName r) s (wasAccepted r)
                  (valentineAddress r) (requesterAddress r)
      else if field =? "valentineAddress" then
        mkRequest (requesterName r) (valentineName r) (customMessage r)
                  (wasAccepted r) s (requesterAddress r)
      else if field =? "requesterAddress" then
        mkRequest (requesterName r) (valentineName r) (customMessage r)
                  (wasAccepted r) (valentineAddress r) s
      else r
  | VBool b =>
      if field =? "wasAccepted" then
        mkRequest (requesterName r) (valentineName r) (customMessage r) b
                  (valentineAddress r) (requesterAddress r)
      else r
  end.

(** Modelled from the spec: [update(address, field, value)] of the
    missing class [ValentineRequests]; fails with [NotFound] when the
    address is absent, else mutates the named field of that entry. *)
Definition update (address field : string) (value : FieldValue) (st : t) : Outcome t :=
  if has address st
  then Ok (map (fun r => if requesterAddress r =? address
                         then setField field value r else r) st)
  else Err "NotFound".

(** Modelled from the spec: [getAll()] of the missing class
    [ValentineRequests], the entries in insertion order. *)
Definition getAll (st : t) : list Request := st.

(** Modelled from the spec: [clearAll()] of the missing class
    [ValentineRequests], which empties the mapping. *)
Definition clearAll (st : t) : t := [].

(** The unique-key invariant that the specification states for the store:
    no two entries with the same requester address. *)
Definition uniqueKeys (st : t) : Prop := NoDup (map requesterAddress st).

End ValentineRequests.

(* ------------------------------------------------------------------ *)
(** * The world *)

(** The module [utils]. An object with string keys is a list of pairs in
    the order in which the keys were first assigned. *)
Module utils.

(** The assignment [keywords[key] = value]. *)
Fixpoint assignKey (keywords : list (string * string)) (key value : string)
    : list (string * string) :=
  match keywords with
  | [] => [(key, value)]
  | (k, v) :: rest =>
      if k =? key then (k, value) :: rest else (k, v) :: assignKey rest key value
  end.

(** [keyWords(words)]: an object that maps every word to itself. *)
Definition keyWords (words : list string) : list (string * string) :=
  fold_left (fun keywords word => assignKey keywords word word) words [].

(** Property access [keywords[name]]; a missing key reads [undefined]. *)
Fixpoint lookup (keywords : list (string * string)) (name : string) : option string :=
  match keywords with
  | [] => None
  | (k, v) :: rest => if k =? name then Some v else lookup rest name
  end.

End utils.

(** The fields of a [BlockchainState] object. [_wrappedWeb3] is [false] for
    [null] and [true] for a wrapper; [_valentineRegistry] holds the
    deployed instance (by its address); the two [_log...] fields hold the
    filter objects, by number. *)
Record BlockchainState : Type := mkBlockchainState {
  _err : option string;
  _isLoaded : bool;
  _wrappedWeb3 : bool;
  _networkId : option string;
  _valentineRegistry : option string;
  _valentineRequests : ValentineRequests.t;
  _logValentineRequestCreated : option nat;
  _logRequestAccepted : option nat;
}.

Definition _eventNames : list (string * string) :=
  utils.keyWords ["valentineRequestsUpdated"].

(** The two event streams of the contract. *)
Inductive EventKind : Type :=
| LogValentineRequestCreated
| LogRequestAccepted.

(** The remote calls an [async] method awaits. *)
Inductive Call : Type :=
| PageLoad
| GetNetworkIdIfExists
| ContractAbstraction
| Deployed
| NumRequesters
| GetRequestByIndex (i : nat)
| GetRequestByRequesterAddress (address : string).

Definition Reply (c : Call) : Type :=
  match c with
  | PageLoad => unit
  | GetNetworkIdIfExists => option string
  | ContractAbstraction => unit
  | Deployed => string
  | NumRequesters => nat
  | GetRequestByIndex _ => RequestArr
  | GetRequestByRequesterAddress _ => RequestArr
  end.

(** What the node and the page answer: the collaborators the synchronizer
    does not own. *)
Record Node : Type := mkNode {
  windowWeb3 : bool;
  isAddress : string -> bool;
  getNetworkIdIfExists : Outcome (option string);
  contractAbstraction : Outcome unit;
  deployed : Outcome string;
  numRequesters : Outcome nat;
  getRequestByIndex : nat -> Outcome RequestArr;
  getRequestByRequesterAddress : string -> Outcome RequestArr;
}.

Definition answer (n : Node) (c : Call) : Outcome (Reply c) :=
  match c with
  | PageLoad => Ok tt
  | GetNetworkIdIfExists => getNetworkIdIfExists n
  | ContractAbstraction => contractAbstraction n
  | Deployed => deployed n
  | NumRequesters => numRequesters n
  | GetRequestByIndex i => getRequestByIndex n i
  | GetRequestByRequesterAddress a => getRequestByRequesterAddress n a
  end.

(** An event pushed by the node to the callback of one filter:
    [(err, result)] with [result.args] in the shape of a request. The node
    decodes every log it pushes into an object of its own, so the object a
    callback receives is held by no one else, and a callback that assigns
    to a field of it changes no entry of the store. *)
Record Delivery : Type := mkDelivery {
  target : nat;
  deliveredErr : option string;
  deliveredArgs : Request;
}.

(** The journal: everything observable that happened, oldest first. *)
Inductive Effect : Type :=
| EClearAll
| EAdd (address : string)
| EUpdate (address field : string)
| EEmit (eventName : option string)
| EOnUpdatedFn
| EConsoleLog (text : string)
| EListen (eventName : string)
| EWatch (kind : EventKind) (filter : nat)
| EStopWatching (filter : nat)
| ECallback (filter : nat)
| EAwait (c : Call).

(** The object together with its surroundings. [watching] lists the filters
    installed on the node; [entropy] feeds [Math.random]; [inbox] holds the
    batches of events the node will push, one batch per suspension. *)
Record World : Type := mkWorld {
  self : BlockchainState;
  node : Node;
  watching : list (nat * EventKind);
  nextFilter : nat;
  entropy : list nat;
  inbox : list (list Delivery);
  journal : list Effect;
}.

Definition withSelf (f : BlockchainState -> BlockchainState) (w : World) : World :=
  mkWorld (f (self w)) (node w) (watching w) (nextFilter w) (entropy w) (inbox w) (journal w).

Definition record (e : Effect) (w : World) : World :=
  mkWorld (self w) (node w) (watching w) (nextFilter w) (entropy w) (inbox w) (journal w ++ [e]).

Definition set_err (v : option string) (b : BlockchainState) : BlockchainState :=
  mkBlockchainState v (_isLoaded b) (_wrappedWeb3 b) (_networkId b) (_valentineRegistry b)
    (_valentineRequests b) (_logValentineRequestCreated b) (_logRequestAccepted b).

Definition set_isLoaded (v : bool) (b : BlockchainState) : BlockchainState :=
  mkBlockchainState (_err b) v (_wrappedWeb3 b) (_networkId b) (_valentineRegistry b)
    (_valentineRequests b) (_logValentineRequestCreated b) (_logRequestAccepted b).

Definition set_wrappedWeb3 (v : bool) (b : BlockchainState) : BlockchainState :=
  mkBlockchainState (_err b) (_isLoaded b) v (_networkId b) (_valentineRegistry b)
    (_valentineRequests b) (_logValentineRequestCreated b) (_logRequestAccepted b).

Definition set_networkId (v : option string) (b : BlockchainState) : BlockchainState :=
  mkBlockchainState (_err b) (_isLoaded b) (_wrappedWeb3 b) v (_valentineRegistry b)
    (_valentineRequests b) (_logValentineRequestCreated b) (_logRequestAccepted b).

Definition set_valentineRegistry (v : option string) (b : BlockchainState) : BlockchainState :=
  mkBlockchainState (_err b) (_isLoaded b) (_wrappedWeb3 b) (_networkId b) v
    (_valentineRequests b) (_logValentineRequestCreated b) (_logRequestAccepted b).

Definition set_valentineRequests (v : ValentineRequests.t) (b : BlockchainState) : BlockchainState :=
  mkBlockchainState (_err b) (_isLoaded b) (_wrappedWeb3 b) (_networkId b) (_valentineRegistry b)
    v (_logValentineRequestCreated b) (_logRequestAccepted b).

Definition set_logValentineRequestCreated (v : option nat) (b : BlockchainState) : BlockchainState :=
  mkBlockchainState (_err b) (_isLoaded b) (_wrappedWeb3 b) (_networkId b) (_valentineRegistry b)
    (_valentineRequests b) v (_logRequestAccepted b).

Definition set_logRequestAccepted (v : option nat) (b : BlockchainState) : BlockchainState :=
  mkBlockchainState (_err b) (_isLoaded b) (_wrappedWeb3 b) (_networkId b) (_valentineRegistry b)
    (_valentineRequests b) (_logValentineRequestCreated b) v.

(* ------------------------------------------------------------------ *)
(** * Code that runs to completion *)

(** A synchronous computation: it may throw, and the world it leaves is
    the world at the point where it returned or threw. *)
Definition Sync (A : Type) : Type := World -> Outcome A * World.

Class Monad (M : Type -> Type) : Type := {
  ret : forall A : Type, A -> M A;
  bind : forall A B : Type, M A -> (A -> M B) -> M B;
  throw : forall A : Type, string -> M A;
}.
Arguments ret {M _ A} _.
Arguments bind {M _ A B} _ _.
Arguments throw {M _ A} _.

Declare Scope js_scope.
Delimit Scope js_scope with js.
Notation "x <- m ;; k" := (bind m (fun x => k))
  (at level 61, m at next level, right associativity) : js_scope.
Notation "m ;; k" := (bind m (fun _ => k))
  (at level 61, right associativity) : js_scope.
Local Open Scope js_scope.

#[global] Instance Sync_Monad : Monad Sync := {|
  ret := fun A a w => (Ok a, w);
  bind := fun A B m f w =>
    match m w with
    | (Ok a, w') => f a w'
    | (Err e, w') => (Err e, w')
    end;
  throw := fun A e w => (Err e, w);
|}.

Definition read {A : Type} (f : BlockchainState -> A) : Sync A :=
  fun w => (Ok (f (self w)), w).

Definition assign (f : BlockchainState -> BlockchainState) : Sync unit :=
  fun w => (Ok tt, withSelf f w).

Definition note (e : Effect) : Sync unit :=
  fun w => (Ok tt, record e w).

(** [assert(cond, msg)]: [js/assert] is not among the sources; a failed
    assertion throws its message. *)
Definition assert (cond : bool) (msg : string) : Sync unit :=
  if cond then ret tt else throw msg.

(** [console.log(text, err)]. *)
Definition consoleLog (text : string) : Sync unit := note (EConsoleLog text).

(** The host's callback given to the constructor. *)
Definition _onUpdatedFn : Sync unit := note EOnUpdatedFn.

Definition _onValentineRequestsUpdated : Sync unit :=
  note (EEmit (utils.lookup _eventNames "valentineRequestsUpdated")).

(** ** The store as the object uses it

    The calls [this._valentineRequests.has/add/update/clearAll]. The
    constructor gives the store [_onValentineRequestsUpdated] as its change
    callback; following section 4.1 of the specification, every call that
    changes the store raises that notification once, and a call that fails
    changes nothing. *)

Definition requests_has (address : string) : Sync bool :=
  read (fun b => ValentineRequests.has address (_valentineRequests b)).

Definition requests_add (request : Request) : Sync unit :=
  st <- read _valentineRequests ;;
  match ValentineRequests.add request st with
  | Err e => throw e
  | Ok st' =>
      assign (set_valentineRequests st') ;;
      note (EAdd (requesterAddress request)) ;;
      _onValentineRequestsUpdated
  end.

Definition requests_update (address field : string) (value : FieldValue) : Sync unit :=
  st <- read _valentineRequests ;;
  match ValentineRequests.update address field value st with
  | Err e => throw e
  | Ok st' =>
      assign (set_valentineRequests st') ;;
      note (EUpdate address field) ;;
      _onValentineRequestsUpdated
  end.

Definition requests_clearAll : Sync unit :=
  st <- read _valentineRequests ;;
  assign (set_valentineRequests (ValentineRequests.clearAll st)) ;;
  note EClearAll ;;
  _onValentineRequestsUpdated.

(** ** Accessors *)

Definition hasError (b : BlockchainState) : bool :=
  JS.strictNeq (_err b) None.

Definition getError (b : BlockchainState) : option string := _err b.

Definition isLoaded (b : BlockchainState) : bool := _isLoaded b.

Definition getValentineRequests (b : BlockchainState) : list Request :=
  ValentineRequests.getAll (_valentineRequests b).

(** [isValidAddress]: a method call on [this._wrappedWeb3], which throws a
    [TypeError] while that field is [null]. *)
Definition isValidAddress (address : string) : Sync bool :=
  let lowercaseAddress := JS.toLowerCase address in
  wrapped <- read _wrappedWeb3 ;;
  if wrapped
  then fun w => (Ok (isAddress (node w) lowercaseAddress), w)
  else throw "TypeError: Cannot read property 'call' of null".

(** ** The demo generator *)

(** [Math.floor((Math.random() * k) + 1)]: a number from [1] to [k], drawn
    from the world's entropy. *)
Definition randomUpTo (k : nat) : Sync nat :=
  fun w =>
    match entropy w with
    | [] => (Ok 1, w)
    | r :: rest =>
        (Ok (1 + r mod k),
         mkWorld (self w) (node w) (watching w) (nextFilter w) rest (inbox w) (journal w))
    end.

Definition letters : string := "abcdefghijklmnopqrstuvwxyzABCDEFGHIJKLMNOPQRSTUVWXYZ".

Definition _getUniqueFakeAddress : Sync string :=
  r <- randomUpTo 39 ;;
  let index := 2 + r in
  letterIndex <- randomUpTo 51 ;;
  let letter := JS.charAt letters letterIndex in
  let address := NULL_ADDRESS in
  ret (String.append (JS.substr address 0 index)
         (String.append letter (JS.substrFrom address (index + 1)))).

(** [_.times(len, fn)] around [name += letters[letterIndex]]. *)
Fixpoint fakeNameFrom (name : string) (len : nat) : Sync string :=
  match len with
  | 0 => ret name
  | S len' =>
      letterIndex <- randomUpTo 51 ;;
      fakeNameFrom (String.append name (JS.charAt letters letterIndex)) len'
  end.

Definition getFakeName (len : nat) : Sync string := fakeNameFrom EmptyString len.

Definition _createFakeRequest : Sync unit :=
  fakeRequesterName <- getFakeName 10 ;;
  fakeValentineName <- getFakeName 12 ;;
  fakeCustomMessage <- getFakeName 20 ;;
  fakeRequesterAddress <- _getUniqueFakeAddress ;;
  requests_add
    {| requesterName := fakeRequesterName;
       valentineName := fakeValentineName;
       customMessage := fakeCustomMessage;
       wasAccepted := false;
       valentineAddress := NULL_ADDRESS;
       requesterAddress := fakeRequesterAddress |}.

Fixpoint _createFakeRequests (num : nat) : Sync unit :=
  match num with
  | 0 => ret tt
  | S num' => _createFakeRequest ;; _createFakeRequests num'
  end.

(** ** Live event subscription *)

(** The callback given to [this._logValentineRequestCreated.watch]. *)
Definition onValentineRequestCreated (err : option string) (args : Request) : Sync unit :=
  if JS.truthy err then
    consoleLog "Warning: An error occured while listening to LogValentineRequestCreated events:"
  else
    let request :=
      {| requesterName := requesterName args;
         valentineName := valentineName args;
         customMessage := customMessage args;
         wasAccepted := false;
         valentineAddress := valentineAddress args;
         requesterAddress := requesterAddress args |} in
    present <- requests_has (requesterAddress request) ;;
    if negb present then requests_add request else ret tt.

(** The callback given to [this._logRequestAccepted.watch]. *)
Definition onRequestAccepted (err : option string) (args : Request) : Sync unit :=
  if JS.truthy err then
    consoleLog "Warning: An error occured while listening to LogRequestAccepted events:"
  else
    let eventData := args in
    present <- requests_has (requesterAddress eventData) ;;
    if present
    then requests_update (requesterAddress eventData) "wasAccepted" (VBool true)
    else ret tt.

Definition callbackOf (kind : EventKind) : option string -> Request -> Sync unit :=
  match kind with
  | LogValentineRequestCreated => onValentineRequestCreated
  | LogRequestAccepted => onRequestAccepted
  end.

(** [filter.stopWatching()]: the node drops the filter. *)
Definition stopWatching (filter : nat) : Sync unit :=
  fun w =>
    (Ok tt,
     record (EStopWatching filter)
       (mkWorld (self w) (node w)
          (List.filter (fun f => negb (fst f =? filter)%nat) (watching w))
          (nextFilter w) (entropy w) (inbox w) (journal w))).

(** [this._valentineRegistry.LogX({}, 'latest')] followed by [.watch(cb)]:
    a new filter object, installed on the node with the callback of its
    kind. The property access throws while the registry is [null]. *)
Definition newFilter (kind : EventKind) : Sync nat :=
  registry <- read _valentineRegistry ;;
  match registry with
  | None => throw "TypeError: Cannot read property of null"
  | Some _ => fun w => (Ok (nextFilter w),
                mkWorld (self w) (node w) (watching w) (S (nextFilter w))
                  (entropy w) (inbox w) (journal w))
  end.

Definition watch (kind : EventKind) (filter : nat) : Sync unit :=
  fun w =>
    (Ok tt,
     record (EWatch kind filter)
       (mkWorld (self w) (node w) (watching w ++ [(filter, kind)])
          (nextFilter w) (entropy w) (inbox w) (journal w))).

Definition _startWatchingContractForEvents : Sync unit :=
  oldCreated <- read _logValentineRequestCreated ;;
  match oldCreated with
  | Some filter => stopWatching filter
  | None => ret tt
  end ;;
  oldAccepted <- read _logRequestAccepted ;;
  match oldAccepted with
  | Some filter => stopWatching filter
  | None => ret tt
  end ;;
  created <- newFilter LogValentineRequestCreated ;;
  assign (set_logValentineRequestCreated (Some created)) ;;
  watch LogValentineRequestCreated created ;;
  accepted <- newFilter LogRequestAccepted ;;
  assign (set_logRequestAccepted (Some accepted)) ;;
  watch LogRequestAccepted accepted.

(** The node pushes one event: the callback of the targeted filter runs if
    that filter is still installed, and nothing happens otherwise. What a
    callback throws is lost to the event loop. *)
Fixpoint kindOf (filter : nat) (installed : list (nat * EventKind)) : option EventKind :=
  match installed with
  | [] => None
  | (f, k) :: rest => if (f =? filter)%nat then Some k else kindOf filter rest
  end.

Definition deliver (d : Delivery) (w : World) : World :=
  match kindOf (target d) (watching w) with
  | None => w
  | Some kind =>
      snd (callbackOf kind (deliveredErr d) (deliveredArgs d)
             (record (ECallback (target d)) w))
  end.

Definition deliverAll (batch : list Delivery) (w : World) : World :=
  fold_left (fun w' d => deliver d w') batch w.

(* ------------------------------------------------------------------ *)
(** * [async] functions *)

(** An [async] function is a tree: synchronous stretches that read and
    write the world, separated by [Await] nodes where the function is
    suspended on a remote call and resumed with its outcome. *)
Inductive Async (A : Type) : Type :=
| Return (a : A)
| Throw (e : string)
| Get (k : World -> Async A)
| Put (w : World) (k : Async A)
| Await (c : Call) (k : Outcome (Reply c) -> Async A).
Arguments Return {A} a.
Arguments Throw {A} e.
Arguments Get {A} k.
Arguments Put {A} w k.
Arguments Await {A} c k.

Fixpoint Async_bind {A B : Type} (m : Async A) (f : A -> Async B) : Async B :=
  match m with
  | Return a => f a
  | Throw e => Throw e
  | Get k => Get (fun w => Async_bind (k w) f)
  | Put w k => Put w (Async_bind k f)
  | Await c k => Await c (fun o => Async_bind (k o) f)
  end.

#[global] Instance Async_Monad : Monad Async := {|
  ret := fun A a => Return a;
  bind := fun A B m f => Async_bind m f;
  throw := fun A e => Throw e;
|}.

(** [try { body } catch (err) { handler }]. *)
Fixpoint tryCatch {A : Type} (body : Async A) (handler : string -> Async A) : Async A :=
  match body with
  | Return a => Return a
  | Throw e => handler e
  | Get k => Get (fun w => tryCatch (k w) handler)
  | Put w k => Put w (tryCatch k handler)
  | Await c k => Await c (fun o => tryCatch (k o) handler)
  end.

(** A synchronous stretch inside an [async] function. *)
Definition lift {A : Type} (m : Sync A) : Async A :=
  Get (fun w =>
    match m w with
    | (Ok a, w') => Put w' (Return a)
    | (Err e, w') => Put w' (Throw e)
    end).

(** [await call]: a rejected promise is thrown at the [await]. *)
Definition await (c : Call) : Async (Reply c) :=
  Await c (fun o =>
    match o with
    | Ok r => Return r
    | Err e => Throw e
    end).

(** What happens while a function is suspended: the call is made, and the
    node pushes the next batch of events before the function resumes. *)
Definition suspend (c : Call) (w : World) : World :=
  let w1 := record (EAwait c) w in
  deliverAll (hd [] (inbox w1))
    (mkWorld (self w1) (node w1) (watching w1) (nextFilter w1) (entropy w1)
       (tl (inbox w1)) (journal w1)).

(** Running an [async] function to the end. *)
Fixpoint exec {A : Type} (m : Async A) (w : World) : Outcome A * World :=
  match m with
  | Return a => (Ok a, w)
  | Throw e => (Err e, w)
  | Get k => exec (k w) w
  | Put w' k => exec k w'
  | Await c k => exec (k (answer (node w) c)) (suspend c w)
  end.

(* ------------------------------------------------------------------ *)
(** * The methods of [BlockchainState] *)

(** The state the constructor leaves before [_onPageLoadInitFireAndForgetAsync]
    first resumes. *)
Definition constructed : BlockchainState :=
  {| _err := None;
     _isLoaded := false;
     _wrappedWeb3 := false;
     _networkId := None;
     _valentineRegistry := None;
     _valentineRequests := ValentineRequests.empty;
     _logValentineRequestCreated := None;
     _logRequestAccepted := None |}.

(** A method call on [this._valentineRegistry], which throws while the
    field is [null]. *)
Definition registryCall (c : Call) : Async (Reply c) :=
  registry <- lift (read _valentineRegistry) ;;
  match registry with
  | None => throw "TypeError: Cannot read property of null"
  | Some _ => await c
  end.

Definition getRequestIfExistsAsync (address : string) : Async (option Request) :=
  valid <- lift (isValidAddress address) ;;
  lift (assert valid "address must be valid ethereum address") ;;
  requestArr <- registryCall (GetRequestByRequesterAddress address) ;;
  let request := _convertRequestArrToObj requestArr in
  if negb (_doesRequestExist request)
  then ret None
  else ret (Some request).

(** The loop of [_getExistingRequestsAsync], from index [i] with
    [remaining] iterations to go. *)
Fixpoint loadFrom (i remaining : nat) : Async unit :=
  match remaining with
  | 0 => ret tt
  | S remaining' =>
      requestArr <- registryCall (GetRequestByIndex i) ;;
      let request := _convertRequestArrToObj requestArr in
      lift (requests_add request) ;;
      loadFrom (S i) remaining'
  end.

Definition _getExistingRequestsAsync : Async unit :=
  lift requests_clearAll ;;
  n <- registryCall NumRequesters ;;
  loadFrom 0 n.

(** The body of the [try] block of [_instantiateContractAsync]. *)
Definition tryBlock : Async unit :=
  registry <- await Deployed ;;
  lift (assign (set_valentineRegistry (Some registry))) ;;
  _getExistingRequestsAsync ;;
  lift (_createFakeRequests 10) ;;
  lift _startWatchingContractForEvents.

(** The [catch] block of [_instantiateContractAsync]. *)
Definition catchBlock (err : string) : Async unit :=
  let errMsg := err in
  if JS.includes errMsg "not been deployed to detected network"
  then lift (assign (set_err (Some "CONTRACT_NOT_DEPLOYED_ON_NETWORK")))
  else
    lift (consoleLog "Unhandled error encountered: ") ;;
    lift (assign (set_err (Some "UNHANDLED_ERROR"))).

Definition _instantiateContractAsync : Async unit :=
  wrapped <- lift (read _wrappedWeb3) ;;
  (if (wrapped : bool) then Return tt
   else Throw "TypeError: Cannot read property 'getNetworkIdIfExists' of null") ;;
  networkId <- await GetNetworkIdIfExists ;;
  lift (assign (set_networkId networkId)) ;;
  let doesNetworkExist :=
    match networkId with Some _ => true | None => false end in
  (if doesNetworkExist then
     await ContractAbstraction ;;
     tryCatch tryBlock catchBlock
   else
     lift (assign (set_err (Some "DISCONNECTED_FROM_ETHEREUM_NODE")))) ;;
  lift (assign (set_isLoaded true)) ;;
  lift _onUpdatedFn.

Definition _onPageLoadInitFireAndForgetAsync : Async unit :=
  await PageLoad ;;
  doesWeb3InstanceExist <- lift (fun w => (Ok (windowWeb3 (node w)), w)) ;;
  if negb doesWeb3InstanceExist then
    lift (assign (set_err (Some "NO_WEB3_INSTANCE_FOUND"))) ;;
    lift (assign (set_isLoaded true)) ;;
    lift _onUpdatedFn
  else
    lift (assign (set_wrappedWeb3 true)) ;;
    lift (note (EListen "networkConnection")) ;;
    _instantiateContractAsync.

Definition _networkConnectionChangedAsync (networkIdIfExists : option string) : Async unit :=
  let isConnected :=
    match networkIdIfExists with Some _ => true | None => false end in
  (if negb isConnected then
     lift (assign (set_err (Some "DISCONNECTED_FROM_ETHEREUM_NODE")))
   else
     current <- lift (read _networkId) ;;
     if JS.strictNeq current networkIdIfExists then
       lift (assign (set_err (Some EmptyString))) ;;
       _instantiateContractAsync
     else ret tt) ;;
  lift (assign (set_networkId networkIdIfExists)) ;;
  lift _onUpdatedFn.

(* ------------------------------------------------------------------ *)
(** * Notions used in the statements *)

(** [touched st seg w] is [w] with the store replaced by [st] and [seg]
    appended to the journal: all that a callback can change. *)
Definition touched (st : ValentineRequests.t) (seg : list Effect) (w : World) : World :=
  mkWorld (set_valentineRequests st (self w)) (node w) (watching w)
    (nextFilter w) (entropy w) (inbox w) (journal w ++ seg).

(** Effects a callback may leave in the journal, given the filters that
    were installed when it ran. *)
Definition callbackEffect (installed : list (nat * EventKind)) (e : Effect) : Prop :=
  match e with
  | EAdd _ | EUpdate _ _ | EEmit _ | EConsoleLog _ => True
  | ECallback f => kindOf f installed <> None
  | _ => False
  end.

(** The world in which the [try] block of [_instantiateContractAsync]
    starts, when the network [networkId] was detected from [w]. *)
Definition enteringTry (networkId : string) (w : World) : World :=
  suspend ContractAbstraction
    (withSelf (set_networkId (Some networkId)) (suspend GetNetworkIdIfExists w)).

(** What the [catch] block does to the world at the fault. *)
Definition caught (e : string) (wf : World) : World :=
  if JS.includes e "not been deployed to detected network"
  then withSelf (set_err (Some "CONTRACT_NOT_DEPLOYED_ON_NETWORK")) wf
  else withSelf (set_err (Some "UNHANDLED_ERROR"))
         (record (EConsoleLog "Unhandled error encountered: ") wf).

(** The last two statements of [_instantiateContractAsync]. *)
Definition loadedAndNotified (w : World) : World :=
  record EOnUpdatedFn (withSelf (set_isLoaded true) w).

(** The moment of the fault of a boot attempt started in [w], as the world
    [wf] at that moment: either no network was detected, or the [try]
    block threw. *)
Inductive faultAt (w : World) : World -> Prop :=
| fault_disconnected :
    getNetworkIdIfExists (node w) = Ok None ->
    faultAt w (suspend GetNetworkIdIfExists w)
| fault_in_try (networkId e : string) (wf : World) :
    getNetworkIdIfExists (node w) = Ok (Some networkId) ->
    contractAbstraction (node w) = Ok tt ->
    exec tryBlock (enteringTry networkId w) = (Err e, wf) ->
    faultAt w wf.

(** A relation [R] between worlds is kept by a computation when it holds
    from the world the computation starts in to the world it leaves. *)
Definition SyncKeeps (R : World -> World -> Prop) {A : Type} (m : Sync A) : Prop :=
  forall w, R w (snd (m w)).

Definition AsyncKeeps (R : World -> World -> Prop) {A : Type} (m : Async A) : Prop :=
  forall w, R w (snd (exec m w)).

(** Effects that can be journalled while a boot is loading, given the
    filters [installed] when the boot started: remote calls, store
    operations and their notifications, log lines, and callbacks of filters
    that were already installed. *)
Definition loadPhaseEffect (installed : list (nat * EventKind)) (e : Effect) : Prop :=
  match e with
  | EClearAll | EAdd _ | EUpdate _ _ | EEmit _ | EConsoleLog _ | EAwait _ => True
  | ECallback f => kindOf f installed <> None
  | EOnUpdatedFn | EListen _ | EWatch _ _ | EStopWatching _ => False
  end.

(** Effects of the end of a boot: old filters stopped, new ones installed,
    the host notified. *)
Definition subscribePhaseEffect (e : Effect) : Prop :=
  match e with
  | EStopWatching _ | EWatch _ _ | EOnUpdatedFn => True
  | _ => False
  end.

(** [loadPhase w w']: from [w] to [w'] no filter was installed or stopped
    and the filter fields were not assigned; the journal grew by load-phase
    effects only. *)
Record loadPhase (w w' : World) : Prop := mkLoadPhase {
  lp_node : node w' = node w;
  lp_watching : watching w' = watching w;
  lp_nextFilter : nextFilter w' = nextFilter w;
  lp_created : _logValentineRequestCreated (self w') = _logValentineRequestCreated (self w);
  lp_accepted : _logRequestAccepted (self w') = _logRequestAccepted (self w);
  lp_journal : exists seg,
      journal w' = journal w ++ seg /\ Forall (loadPhaseEffect (watching w)) seg;
}.

(** [scalarsKept w w']: the fields of the object other than the store and
    the two filters are the same in [w'] as in [w]. *)
Record scalarsKept (w w' : World) : Prop := mkScalarsKept {
  sk_err : _err (self w') = _err (self w);
  sk_isLoaded : _isLoaded (self w') = _isLoaded (self w);
  sk_wrappedWeb3 : _wrappedWeb3 (self w') = _wrappedWeb3 (self w);
  sk_networkId : _networkId (self w') = _networkId (self w);
  sk_registry : _valentineRegistry (self w') = _valentineRegistry (self w);
}.

(** The [stopWatching] calls at the start of
    [_startWatchingContractForEvents], as journalled. *)
Definition stopsOf (b : BlockchainState) : list Effect :=
  match _logValentineRequestCreated b with
  | Some filter => [EStopWatching filter]
  | None => []
  end ++
  match _logRequestAccepted b with
  | Some filter => [EStopWatching filter]
  | None => []
  end.

(** Installed filters carry numbers below the next number to be given out. *)
Definition filtersNumbered (w : World) : Prop :=
  forall f, kindOf f (watching w) <> None -> f < nextFilter w.

(** A journal segment that shows a completed bulk load from node [n]: the
    store was cleared, and every index below the reported count was
    fetched. *)
Definition bulkLoadCompleted (n : Node) (seg : list Effect) : Prop :=
  In EClearAll seg /\
  exists count,
    numRequesters n = Ok count /\
    forall i, i < count -> In (EAwait (GetRequestByIndex i)) seg.

(** How the journal of a boot attempt from [w] to [w'] splits: a loading
    part, then a subscribing part, such that every filter installed by the
    attempt is new, had no callback run while loading, and was installed
    after a completed bulk load. *)
Definition loadThenSubscribe (w w' : World) (o : Outcome unit) : Prop :=
  exists loading subscribing,
    journal w' = journal w ++ loading ++ subscribing /\
    Forall (loadPhaseEffect (watching w)) loading /\
    Forall subscribePhaseEffect subscribing /\
    (forall kind f,
        In (EWatch kind f) subscribing ->
        nextFilter w <= f /\
        ~ In (ECallback f) loading /\
        bulkLoadCompleted (node w) loading) /\
    (o = Ok tt -> hasError (self w') = false ->
     In (EWatch LogValentineRequestCreated (nextFilter w)) subscribing /\
     In (EWatch LogRequestAccepted (S (nextFilter w))) subscribing).

(** A request with its [wasAccepted] field set to [b]. *)
Definition withWasAccepted (b : bool) (r : Request) : Request :=
  mkRequest (requesterName r) (valentineName r) (customMessage r) b
    (valentineAddress r) (requesterAddress r).

(** The entry stored under [address], if any: the first entry of
    [getAll()] with that requester address. *)
Definition entryOf (address : string) (st : ValentineRequests.t) : option Request :=
  find (fun r => requesterAddress r =? address) (ValentineRequests.getAll st).

(** The store after the creation callback ran on a store [st]. *)
Definition afterCreated (err : option string) (args : Request)
    (st : ValentineRequests.t) : ValentineRequests.t :=
  if JS.truthy err then st
  else if ValentineRequests.has (requesterAddress args) st then st
  else st ++ [withWasAccepted false args].

(** The store after the acceptance callback ran on a store [st]. *)
Definition afterAccepted (err : option string) (args : Request)
    (st : ValentineRequests.t) : ValentineRequests.t :=
  if JS.truthy err then st
  else if ValentineRequests.has (requesterAddress args) st then
    map (fun r => if requesterAddress r =? requesterAddress args
                  then withWasAccepted true r else r) st
  else st.

Definition afterCallback (kind : EventKind) : option string -> Request ->
    ValentineRequests.t -> ValentineRequests.t :=
  match kind with
  | LogValentineRequestCreated => afterCreated
  | LogRequestAccepted => afterAccepted
  end.

(** No event pushed to [w] reaches an installed filter: every delivery in
    the inbox targets a filter that is not installed. This is the case on
    the first boot, when no filter is installed yet. *)
Definition quiet (w : World) : Prop :=
  Forall (Forall (fun d => kindOf (target d) (watching w) = None)) (inbox w).

(** The world after a suspension during which no callback ran. *)
Definition resumed (c : Call) (w : World) : World :=
  mkWorld (self w) (node w) (watching w) (nextFilter w) (entropy w)
    (tl (inbox w)) (journal w ++ [EAwait c]).

(** The journal of a loop of [_getExistingRequestsAsync] that fetched
    [arrs] from index [i] on, with no callback in between. *)
Fixpoint loadJournal (i : nat) (arrs : list RequestArr) : list Effect :=
  match arrs with
  | [] => []
  | arr :: rest =>
      [EAwait (GetRequestByIndex i); EAdd (arr5 arr);
       EEmit (Some "valentineRequestsUpdated")] ++ loadJournal (S i) rest
  end.

(** The claim of the specification about the bulk load, in its words: the
    store holds the reported entities that are not the placeholder. *)
Definition storeHoldsFilteredLedger (w w' : World) : Prop :=
  exists count arrs,
    numRequesters (node w) = Ok count /\
    map (getRequestByIndex (node w)) (seq 0 count) = map Ok arrs /\
    getValentineRequests (self w') =
      filter _doesRequestExist (map _convertRequestArrToObj arrs).

Module Sample.

Definition alice : RequestArr :=
  mkRequestArr "alice" "bob" "be mine" false NULL_ADDRESS "0x00000000000000000000000000000000000000a1".
Definition carol : RequestArr :=
  mkRequestArr "carol" "dave" "roses are red" true
    "0x00000000000000000000000000000000000000d4" "0x00000000000000000000000000000000000000c3".

Definition byIndex (entries : list RequestArr) (i : nat) : Outcome RequestArr :=
  match nth_error entries i with
  | Some arr => Ok arr
  | None => Err "Error: invalid opcode"
  end.

Definition byAddress (entries : list RequestArr) (address : string) : Outcome RequestArr :=
  match find (fun arr => arr5 arr =? address) entries with
  | Some arr => Ok arr
  | None => Ok emptyRequestArr
  end.

(** A node on network "3" whose ledger holds [entries]. *)
Definition ledger (entries : list RequestArr) : Node :=
  {| windowWeb3 := true;
     isAddress := fun a => (String.length a =? 42)%nat;
     getNetworkIdIfExists := Ok (Some "3");
     contractAbstraction := Ok tt;
     deployed := Ok "0x00000000000000000000000000000000000000ff";
     numRequesters := Ok (length entries);
     getRequestByIndex := byIndex entries;
     getRequestByRequesterAddress := byAddress entries |}.

(** The same node when the contract is not deployed on its network. *)
Definition undeployed : Node :=
  {| windowWeb3 := true;
     isAddress := fun a => (String.length a =? 42)%nat;
     getNetworkIdIfExists := Ok (Some "3");
     contractAbstraction := Ok tt;
     deployed := Err "Error: ValentineRegistry has not been deployed to detected network (network/artifact mismatch)";
     numRequesters := Err "Error: no contract";
     getRequestByIndex := fun _ => Err "Error: no contract";
     getRequestByRequesterAddress := fun _ => Err "Error: no contract" |}.

Definition dice : list nat := seq 0 880.

(** The page right after the constructor ran. *)
Definition fresh (n : Node) : World :=
  {| self := constructed; node := n; watching := []; nextFilter := 0;
     entropy := dice; inbox := []; journal := [] |}.

(** After the first boot on a ledger with two requests. *)
Definition ready : World :=
  snd (exec _onPageLoadInitFireAndForgetAsync (fresh (ledger [alice; carol]))).

(** [ready], after the node reported a disconnect. *)
Definition disconnected : World :=
  snd (exec (_networkConnectionChangedAsync None) ready).

(** The first boot at the point where the page has a wrapper. *)
Definition booting (n : Node) : World :=
  withSelf (set_wrappedWeb3 true) (fresh n).

(** The first boot at the point where the registry was resolved, with
    events in flight for a filter that is not installed. *)
Definition resolved (n : Node) : World :=
  {| self := set_valentineRegistry (Some "0x00000000000000000000000000000000000000ff")
               (set_wrappedWeb3 true constructed);
     node := n; watching := []; nextFilter := 0; entropy := dice;
     inbox := [[mkDelivery 7 None (_convertRequestArrToObj carol)]];
     journal := [] |}.

(** [ready], about to reload while the node pushes events to the two
    filters of the first boot. *)
Definition reloading : World :=
  {| self := self ready; node := node ready; watching := watching ready;
     nextFilter := nextFilter ready; entropy := entropy ready;
     inbox := [[mkDelivery 1 None (_convertRequestArrToObj alice)];
               [mkDelivery 0 None (_convertRequestArrToObj carol)]];
     journal := journal ready |}.

(** A request the ledger of the samples does not hold. *)
Definition eve : RequestArr :=
  mkRequestArr "eve" "frank" "violets are blue" false NULL_ADDRESS
    "0x00000000000000000000000000000000000000e5".

(** [ready], about to reload while the node pushes a creation event to the
    filter of the first boot at the fourth suspension, which is the call of
    [numRequesters], after the store was cleared. *)
Definition racing : World :=
  {| self := self ready; node := node ready; watching := watching ready;
     nextFilter := nextFilter ready; entropy := entropy ready;
     inbox := [[]; []; []; [mkDelivery 0 None (_convertRequestArrToObj eve)]];
     journal := journal ready |}.

End Sample.

(* ------------------------------------------------------------------ *)
(** * The demo requests *)

(** The letters [getFakeName] and [_getUniqueFakeAddress] can draw: the
    index is never 0, so the first letter of [letters] is never drawn. *)
Definition drawableLetters : list ascii :=
  list_ascii_of_string (JS.substrFrom letters 1).

(** The world after [n] draws from the entropy. *)
Definition afterDraws (n : nat) (w : World) : World :=
  mkWorld (self w) (node w) (watching w) (nextFilter w) (skipn n (entropy w))
    (inbox w) (journal w).

(** The number of positions at which two strings differ, plus the
    difference of their lengths. *)
Fixpoint differences (a b : string) : nat :=
  match a, b with
  | EmptyString, _ => String.length b
  | _, EmptyString => String.length a
  | String x a', String y b' =>
      (if Ascii.eqb x y then 0 else 1) + differences a' b'
  end.

(** A request as the demo generator makes them. *)
Definition isDemoRequest (r : Request) : Prop :=
  String.length (requesterName r) = 10 /\
  String.length (valentineName r) = 12 /\
  String.length (customMessage r) = 20 /\
  wasAccepted r = false /\
  valentineAddress r = NULL_ADDRESS /\
  differences (requesterAddress r) NULL_ADDRESS = 1.

(** The address [_getUniqueFakeAddress] builds from the two drawn numbers. *)
Definition fakeAddressOf (r letterIndex : nat) : string :=
  let index := 2 + r in
  String.append (JS.substr NULL_ADDRESS 0 index)
    (String.append (JS.charAt letters letterIndex) (JS.substrFrom NULL_ADDRESS (index + 1))).

Definition fakeAddressChecks (address : string) : bool :=
  (String.length address =? 42)%nat &&
  (JS.substr address 0 3 =? "0x0") &&
  (differences address NULL_ADDRESS =? 1)%nat.

(* ------------------------------------------------------------------ *)
(** * One set of filters *)

(** The filters the object holds in its two fields. *)
Definition fieldFilters (b : BlockchainState) : list (nat * EventKind) :=
  match _logValentineRequestCreated b with
  | Some filter => [(filter, LogValentineRequestCreated)]
  | None => []
  end ++
  match _logRequestAccepted b with
  | Some filter => [(filter, LogRequestAccepted)]
  | None => []
  end.

(** "Only ever listening to one set of events": the filters installed on
    the node are the ones held in the two fields, no others. *)
Definition oneSetOfFilters (w : World) : Prop :=
  watching w = fieldFilters (self w).

Definition keepsOneSet (w w' : World) : Prop :=
  oneSetOfFilters w -> oneSetOfFilters w'.

Definition keepsErrorSet (w w' : World) : Prop :=
  _err (self w) <> None -> _err (self w') <> None.

Definition keepsUniqueKeys (w w' : World) : Prop :=
  ValentineRequests.uniqueKeys (_valentineRequests (self w)) ->
  ValentineRequests.uniqueKeys (_valentineRequests (self w')).

(* ------------------------------------------------------------------ *)
(** * The methods that need an account *)

(** What the wrapped web3 instance answers to the two calls that need no
    node: [getFirstAccountIfExists()], the first account or [null], and
    [call('toWei', amount, unit)]. The class [Web3Wrapper] is not among the
    sources; its answers are parameters. *)
Record Web3 : Type := mkWeb3 {
  firstAccount : option string;
  toWei : string -> string -> string;
}.

(** A transaction handed to the registry: the method, its arguments, and
    the options [from] and [value]. *)
Inductive Transaction : Type :=
| CreateOpenValentineRequest
    (requesterName valentineName customMessage : string) (from value : string)
| CreateTargetedValentineRequest
    (requesterName valentineName customMessage valentineAddress : string)
    (from value : string)
| AcceptValentineRequest (requesterAddress : string) (from : string).

(** [_.isEmpty] of a string. *)
Definition isEmpty (s : string) : bool := s =? EmptyString.

(** [assert(!_.isNull(v), msg)], after which [v] is a string. *)
Definition assertNotNull (v : option string) (msg : string) : Sync string :=
  match v with
  | Some s => ret s
  | None => throw msg
  end.

Definition getFirstAccountIfExists (web3 : Web3) : Sync (option string) :=
  wrapped <- read _wrappedWeb3 ;;
  if (wrapped : bool) then ret (firstAccount web3)
  else throw "TypeError: Cannot read property 'getFirstAccountIfExists' of null".

Definition isRequestTargetedAtUser (web3 : Web3) (valentineAddress : string) : Sync bool :=
  account <- getFirstAccountIfExists web3 ;;
  ret (negb (JS.strictNeq (Some valentineAddress) account)
       || (valentineAddress =? NULL_ADDRESS)).

(** A method call on [this._valentineRegistry] that sends a transaction;
    the method awaits it and returns. The model returns the transaction
    that was handed over. *)
Definition sendTransaction (tx : Transaction) : Sync Transaction :=
  registry <- read _valentineRegistry ;;
  match registry with
  | None => throw "TypeError: Cannot read property of null"
  | Some _ => ret tx
  end.

Definition createValentineRequestFireAndForgetAsync (web3 : Web3)
    (requesterName valentineName customMessage valentineAddress : string)
    : Sync Transaction :=
  valid <- isValidAddress valentineAddress ;;
  assert (valid || isEmpty valentineAddress)
    "valentineAddress         must either be a valid ethereum address or an empty string" ;;
  account <- getFirstAccountIfExists web3 ;;
  requesterAddress <- assertNotNull account
    "requesterAddress must be available for a transaction to be sent." ;;
  let value := toWei web3 "0.1" "ether" in
  if isEmpty valentineAddress then
    sendTransaction
      (CreateOpenValentineRequest requesterName valentineName customMessage
         requesterAddress value)
  else
    sendTransaction
      (CreateTargetedValentineRequest requesterName valentineName customMessage
         valentineAddress requesterAddress value).

Definition acceptValentineRequestAsync (web3 : Web3) (requesterAddress : string)
    : Sync Transaction :=
  valid <- isValidAddress requesterAddress ;;
  assert valid "requesterAddress must be valid ethereum address" ;;
  account <- getFirstAccountIfExists web3 ;;
  valentineRequest <- assertNotNull account
    "valentineRequest must be available for a transaction to be sent." ;;
  sendTransaction (AcceptValentineRequest requesterAddress valentineRequest).

Definition didRequesterAlreadyRequestAsync (web3 : Web3) : Async bool :=
  account <- lift (getFirstAccountIfExists web3) ;;
  requesterAddress <- lift (assertNotNull account
    "requesterAddress must exist to check for existing requests.") ;;
  request <- getRequestIfExistsAsync requesterAddress ;;
  ret (match request with Some _ => true | None => false end).

(* ------------------------------------------------------------------ *)
(** * The accept dialog (class [AcceptRequestDialog]) *)

(** The object [acceptRequestFormErrMsgs] of [AcceptRequestDialog], with
    its keys [general] and [requesterAddress]. *)
Record ErrMsgs : Type := mkErrMsgs {
  msgGeneral : string;
  msgRequesterAddress : string;
}.

(** [this.state] of the dialog: the error messages and the form, whose
    only field is [requesterAddress]. *)
Record DialogState : Type := mkDialogState {
  acceptRequestFormErrMsgs : ErrMsgs;
  formRequesterAddress : string;
}.

(** What one click on "Accept" did: the state it left, the outcome of the
    call of [acceptValentineRequestAsync] if it was made, and the argument
    of [toggleDialogFn] if it was called. *)
Record Click : Type := mkClick {
  stateAfter : DialogState;
  submitted : option (Outcome Transaction);
  toggled : option bool;
}.

Definition _getEmptyAcceptRequestObj : string := EmptyString.

(** A call of an [async] method that is not awaited: its synchronous part
    runs, and what it throws rejects its promise instead of reaching the
    caller. *)
Definition started {A : Type} (m : Sync A) : Async (Outcome A) :=
  Get (fun w => Put (snd (m w)) (Return (fst (m w)))).

Definition noAccountMsg : string :=
  "Your ethereum address was not found. web3.eth.accounts             did not return any account addresses. If using Metamask, re-select an account and try             again.".

Definition _onAcceptRequestClickAsync (web3 : Web3) (state : DialogState) : Async Click :=
  let requesterAddress := formRequesterAddress state in
  senderAddress <- lift (getFirstAccountIfExists web3) ;;
  let isSenderAddressAvailable :=
    match senderAddress with Some _ => true | None => false end in
  let general0 := if negb isSenderAddressAvailable then noAccountMsg else EmptyString in
  msgs <-
    (if requesterAddress =? EmptyString then
       ret (mkErrMsgs general0 "requesterAddress is required")
     else
       valid <- lift (isValidAddress requesterAddress) ;;
       if negb valid then
         ret (mkErrMsgs general0
                "Must be a valid hex encoded ethereum address e.g 0xccd51...")
       else if isSenderAddressAvailable then
         request <- getRequestIfExistsAsync requesterAddress ;;
         match request with
         | None =>
             ret (mkErrMsgs "There is no request associated with this address" EmptyString)
         | Some r =>
             if wasAccepted r then
               ret (mkErrMsgs "Someone already accepted this valentine request" EmptyString)
             else
               targeted <- lift (isRequestTargetedAtUser web3 (valentineAddress r)) ;;
               if negb targeted then
                 ret (mkErrMsgs
                        (String.append "This request can only be accepted by: "
                           (valentineAddress r))
                        EmptyString)
               else ret (mkErrMsgs general0 EmptyString)
         end
       else ret (mkErrMsgs general0 EmptyString)) ;;
  let hasErrors :=
    negb (msgGeneral msgs =? EmptyString) || negb (msgRequesterAddress msgs =? EmptyString) in
  if hasErrors then
    ret {| stateAfter := mkDialogState msgs (formRequesterAddress state);
           submitted := None;
           toggled := None |}
  else
    sent <- started (acceptValentineRequestAsync web3 requesterAddress) ;;
    ret {| stateAfter :=
             mkDialogState (acceptRequestFormErrMsgs state) _getEmptyAcceptRequestObj;
           submitted := Some sent;
           toggled := Some false |}.

(** The conditions under which the dialog hands an acceptance over. *)
Definition acceptable (web3 : Web3) (w : World) (requesterAddress from : string)
    (requestArr : RequestArr) : Prop :=
  firstAccount web3 = Some from /\
  requesterAddress <> EmptyString /\
  isAddress (node w) (JS.toLowerCase requesterAddress) = true /\
  getRequestByRequesterAddress (node w) requesterAddress = Ok requestArr /\
  _convertRequestArrToObj requestArr <> placeholder /\
  arr3 requestArr = false /\
  (arr4 requestArr = from \/ arr4 requestArr = NULL_ADDRESS).

Module Visitor.

(** A node behind a page that has no [window.web3]. *)
Definition bare : Node :=
  {| windowWeb3 := false;
     isAddress := fun a => (String.length a =? 42)%nat;
     getNetworkIdIfExists := Ok None;
     contractAbstraction := Ok tt;
     deployed := Err "Error: no provider";
     numRequesters := Err "Error: no provider";
     getRequestByIndex := fun _ => Err "Error: no provider";
     getRequestByRequesterAddress := fun _ => Err "Error: no provider" |}.

(** The wrapper of a visitor whose first account is the address the
    request of [Sample.carol] is targeted at. *)
Definition dave : Web3 :=
  {| firstAccount := Some "0x00000000000000000000000000000000000000d4";
     toWei := fun amount unit => String.append amount (String.append " " unit) |}.

(** The dialog with the requester address of [Sample.alice] typed in. *)
Definition typed : DialogState :=
  {| acceptRequestFormErrMsgs :=
       {| msgGeneral := EmptyString; msgRequesterAddress := EmptyString |};
     formRequesterAddress := "0x00000000000000000000000000000000000000a1" |}.

End Visitor.

(* ------------------------------------------------------------------ *)
(** * Running: equations of [exec] *)

Lemma exec_bind {A B : Type} (m : Async A) (f : A -> Async B) (w : World) :
  exec (bind m f) w =
  match exec m w with
  | (Ok a, w') => exec (f a) w'
  | (Err e, w') => (Err e, w')
  end.
Proof.
  change (bind m f) with (Async_bind m f).
  revert w.
  induction m as [a | e | k IH | w0 k IH | c k IH]; intros w; simpl; auto.
Qed.

Lemma exec_tryCatch {A : Type} (body : Async A) (handler : string -> Async A) (w : World) :
  exec (tryCatch body handler) w =
  match exec body w with
  | (Ok a, w') => (Ok a, w')
  | (Err e, w') => exec (handler e) w'
  end.
Proof.
  revert w.
  induction body as [a | e | k IH | w0 k IH | c k IH]; intros w; simpl; auto.
Qed.

Lemma exec_lift {A : Type} (m : Sync A) (w : World) : exec (lift m) w = m w.
Proof.
  unfold lift; simpl.
  destruct (m w) as [[a | e] w']; reflexivity.
Qed.

Lemma exec_await (c : Call) (w : World) :
  exec (await c) w = (answer (node w) c, suspend c w).
Proof.
  unfold await; simpl.
  destruct (answer (node w) c); reflexivity.
Qed.

Lemma sync_bind {A B : Type} (m : Sync A) (f : A -> Sync B) (w : World) :
  bind m f w =
  match m w with
  | (Ok a, w') => f a w'
  | (Err e, w') => (Err e, w')
  end.
Proof. reflexivity. Qed.

(** ** What a suspension can change

    A callback only touches the store and the journal. *)

Lemma touched_same (w : World) : touched (_valentineRequests (self w)) [] w = w.
Proof.
  destruct w as [[] ? ? ? ? ? ?]; unfold touched; simpl.
  rewrite app_nil_r; reflexivity.
Qed.

Lemma touched_touched st1 seg1 st2 seg2 (w : World) :
  touched st2 seg2 (touched st1 seg1 w) = touched st2 (seg1 ++ seg2) w.
Proof.
  unfold touched; simpl. rewrite app_assoc; reflexivity.
Qed.

Lemma requests_add_shape (request : Request) (w : World) :
  (exists e, requests_add request w = (Err e, w)) \/
  (exists st, requests_add request w =
     (Ok tt, touched st [EAdd (requesterAddress request);
                         EEmit (utils.lookup _eventNames "valentineRequestsUpdated")] w)).
Proof.
  unfold requests_add. rewrite sync_bind. unfold read.
  destruct (ValentineRequests.add request (_valentineRequests (self w))) as [st | e].
  - right. exists st. cbn.
    unfold _onValentineRequestsUpdated, note, touched, record, withSelf; simpl.
    rewrite <- app_assoc. reflexivity.
  - left. exists e. reflexivity.
Qed.

Lemma requests_update_shape (address field : string) (value : FieldValue) (w : World) :
  (exists e, requests_update address field value w = (Err e, w)) \/
  (exists st, requests_update address field value w =
     (Ok tt, touched st [EUpdate address field;
                         EEmit (utils.lookup _eventNames "valentineRequestsUpdated")] w)).
Proof.
  unfold requests_update. rewrite sync_bind. unfold read.
  destruct (ValentineRequests.update address field value (_valentineRequests (self w)))
    as [st | e].
  - right. exists st. cbn.
    unfold _onValentineRequestsUpdated, note, touched, record, withSelf; simpl.
    rewrite <- app_assoc. reflexivity.
  - left. exists e. reflexivity.
Qed.

Lemma callback_shape (kind : EventKind) (err : option string) (args : Request) (w : World) :
  exists st seg,
    snd (callbackOf kind err args w) = touched st seg w /\
    Forall (callbackEffect (watching w)) seg.
Proof.
  destruct kind; simpl.
  - unfold onValentineRequestCreated.
    destruct (JS.truthy err).
    + exists (_valentineRequests (self w)), [EConsoleLog
        "Warning: An error occured while listening to LogValentineRequestCreated events:"].
      split; [destruct w as [[] ? ? ? ? ? ?]; reflexivity | repeat constructor].
    + rewrite sync_bind. unfold requests_has, read. cbn [negb].
      destruct (ValentineRequests.has _ _); cbn [negb].
      * exists (_valentineRequests (self w)), []. rewrite touched_same. split; [reflexivity | constructor].
      * match goal with |- context [requests_add ?r w] =>
          destruct (requests_add_shape r w) as [[e H] | [st H]]; rewrite H end.
        -- exists (_valentineRequests (self w)), []. rewrite touched_same. split; [reflexivity | constructor].
        -- eexists _, _. split; [reflexivity | repeat constructor].
  - unfold onRequestAccepted.
    destruct (JS.truthy err).
    + exists (_valentineRequests (self w)), [EConsoleLog
        "Warning: An error occured while listening to LogRequestAccepted events:"].
      split; [destruct w as [[] ? ? ? ? ? ?]; reflexivity | repeat constructor].
    + rewrite sync_bind. unfold requests_has, read.
      destruct (ValentineRequests.has _ _).
      * match goal with |- context [requests_update ?a ?f ?v w] =>
          destruct (requests_update_shape a f v w) as [[e H] | [st H]]; rewrite H end.
        -- exists (_valentineRequests (self w)), []. rewrite touched_same. split; [reflexivity | constructor].
        -- eexists _, _. split; [reflexivity | repeat constructor].
      * exists (_valentineRequests (self w)), []. rewrite touched_same. split; [reflexivity | constructor].
Qed.

Lemma deliver_shape (d : Delivery) (w : World) :
  exists st seg,
    deliver d w = touched st seg w /\ Forall (callbackEffect (watching w)) seg.
Proof.
  unfold deliver.
  destruct (kindOf (target d) (watching w)) as [kind |] eqn:K.
  - destruct (callback_shape kind (deliveredErr d) (deliveredArgs d)
                (record (ECallback (target d)) w)) as (st & seg & H & F).
    exists st, (ECallback (target d) :: seg). split.
    + rewrite H. unfold touched, record; simpl. rewrite <- app_assoc. reflexivity.
    + constructor; [simpl; congruence | exact F].
  - exists (_valentineRequests (self w)), []. rewrite touched_same. split; [reflexivity | constructor].
Qed.

Lemma deliverAll_shape (batch : list Delivery) (w : World) :
  exists st seg,
    deliverAll batch w = touched st seg w /\ Forall (callbackEffect (watching w)) seg.
Proof.
  unfold deliverAll. revert w.
  induction batch as [| d batch IH]; intros w; simpl.
  - exists (_valentineRequests (self w)), []. rewrite touched_same. split; [reflexivity | constructor].
  - destruct (deliver_shape d w) as (st1 & seg1 & H1 & F1).
    destruct (IH (deliver d w)) as (st2 & seg2 & H2 & F2).
    rewrite H2, H1, touched_touched. exists st2, (seg1 ++ seg2). split; [reflexivity |].
    apply Forall_app. split; [exact F1 |]. rewrite H1 in F2. exact F2.
Qed.

(** The world after a suspension: the call is journalled, one batch has
    left the inbox, and the callbacks that ran touched only the store and
    the journal. *)
Lemma suspend_shape (c : Call) (w : World) :
  exists st seg,
    suspend c w =
      mkWorld (set_valentineRequests st (self w)) (node w) (watching w)
        (nextFilter w) (entropy w) (tl (inbox w)) (journal w ++ EAwait c :: seg) /\
    Forall (callbackEffect (watching w)) seg.
Proof.
  unfold suspend.
  match goal with |- context [deliverAll ?b ?w1] =>
    destruct (deliverAll_shape b w1) as (st & seg & H & F) end.
  exists st, seg. split; [| exact F].
  rewrite H. unfold touched, record; simpl. rewrite <- app_assoc. reflexivity.
Qed.

Lemma node_suspend (c : Call) (w : World) : node (suspend c w) = node w.
Proof. destruct (suspend_shape c w) as (st & seg & H & _). rewrite H. reflexivity. Qed.

Lemma watching_suspend (c : Call) (w : World) : watching (suspend c w) = watching w.
Proof. destruct (suspend_shape c w) as (st & seg & H & _). rewrite H. reflexivity. Qed.

Lemma nextFilter_suspend (c : Call) (w : World) : nextFilter (suspend c w) = nextFilter w.
Proof. destruct (suspend_shape c w) as (st & seg & H & _). rewrite H. reflexivity. Qed.

Lemma wrappedWeb3_suspend (c : Call) (w : World) :
  _wrappedWeb3 (self (suspend c w)) = _wrappedWeb3 (self w).
Proof. destruct (suspend_shape c w) as (st & seg & H & _). rewrite H. reflexivity. Qed.

Lemma registry_suspend (c : Call) (w : World) :
  _valentineRegistry (self (suspend c w)) = _valentineRegistry (self w).
Proof. destruct (suspend_shape c w) as (st & seg & H & _). rewrite H. reflexivity. Qed.

Lemma err_suspend (c : Call) (w : World) : _err (self (suspend c w)) = _err (self w).
Proof. destruct (suspend_shape c w) as (st & seg & H & _). rewrite H. reflexivity. Qed.

Lemma exec_catchBlock (e : string) (wf : World) :
  exec (catchBlock e) wf = (Ok tt, caught e wf).
Proof.
  unfold catchBlock, caught.
  destruct (JS.includes e "not been deployed to detected network").
  - rewrite exec_lift. reflexivity.
  - rewrite exec_bind, exec_lift. cbn. reflexivity.
Qed.

Lemma exec_instantiateContractAsync (w : World) :
  exec _instantiateContractAsync w =
  if _wrappedWeb3 (self w) then
    match getNetworkIdIfExists (node w) with
    | Err e => (Err e, suspend GetNetworkIdIfExists w)
    | Ok None =>
        (Ok tt,
         loadedAndNotified
           (withSelf (set_err (Some "DISCONNECTED_FROM_ETHEREUM_NODE"))
              (withSelf (set_networkId None) (suspend GetNetworkIdIfExists w))))
    | Ok (Some networkId) =>
        match contractAbstraction (node w) with
        | Err e => (Err e, enteringTry networkId w)
        | Ok _ =>
            match exec tryBlock (enteringTry networkId w) with
            | (Ok _, w') => (Ok tt, loadedAndNotified w')
            | (Err e, wf) => (Ok tt, loadedAndNotified (caught e wf))
            end
        end
    end
  else (Err "TypeError: Cannot read property 'getNetworkIdIfExists' of null", w).
Proof.
  unfold _instantiateContractAsync.
  rewrite exec_bind, exec_lift. unfold read at 1. cbv beta iota.
  destruct (_wrappedWeb3 (self w)) eqn:W.
  2:{ rewrite exec_bind. reflexivity. }
  rewrite exec_bind. cbn [exec].
  rewrite exec_bind, (exec_await GetNetworkIdIfExists). cbn [answer].
  destruct (getNetworkIdIfExists (node w)) as [[networkId |] | e]; [| | reflexivity].
  - rewrite exec_bind, exec_lift. unfold assign at 1. cbv beta iota.
    rewrite exec_bind, exec_bind, (exec_await ContractAbstraction). cbn [answer].
    unfold withSelf at 1. cbn [node]. rewrite node_suspend.
    fold (enteringTry networkId w).
    destruct (contractAbstraction (node w)) as [[] | e]; [| reflexivity].
    rewrite exec_tryCatch.
    destruct (exec tryBlock (enteringTry networkId w)) as [[[] | e] w'].
    + rewrite exec_bind, exec_lift. cbn. reflexivity.
    + rewrite exec_catchBlock. rewrite exec_bind, exec_lift. cbn. reflexivity.
  - rewrite exec_bind, exec_lift. unfold assign at 1. cbv beta iota.
    rewrite exec_bind, exec_lift. unfold assign at 1. cbv beta iota.
    rewrite exec_bind, exec_lift. cbn. reflexivity.
Qed.

Lemma exec_networkConnectionChangedAsync (networkIdIfExists : option string) (w : World) :
  exec (_networkConnectionChangedAsync networkIdIfExists) w =
  match networkIdIfExists with
  | None =>
      (Ok tt,
       record EOnUpdatedFn
         (withSelf (set_networkId None)
            (withSelf (set_err (Some "DISCONNECTED_FROM_ETHEREUM_NODE")) w)))
  | Some token =>
      if JS.strictNeq (_networkId (self w)) (Some token) then
        match exec _instantiateContractAsync (withSelf (set_err (Some EmptyString)) w) with
        | (Ok _, w') =>
            (Ok tt, record EOnUpdatedFn (withSelf (set_networkId (Some token)) w'))
        | (Err e, w') => (Err e, w')
        end
      else (Ok tt, record EOnUpdatedFn (withSelf (set_networkId (Some token)) w))
  end.
Proof.
  unfold _networkConnectionChangedAsync.
  destruct networkIdIfExists as [token |]; cbn [negb].
  - rewrite exec_bind, exec_bind, exec_lift. unfold read at 1. cbv beta iota.
    destruct (JS.strictNeq (_networkId (self w)) (Some token)).
    + rewrite exec_bind, exec_lift. unfold assign at 1. cbv beta iota.
      destruct (exec _instantiateContractAsync (withSelf (set_err (Some EmptyString)) w))
        as [[[] | e] w']; [| reflexivity].
      rewrite exec_bind, exec_lift. cbn. reflexivity.
    + cbn. reflexivity.
  - cbn. reflexivity.
Qed.

Lemma withSelf_networkId_same (w : World) :
  withSelf (set_networkId (_networkId (self w))) w = w.
Proof. destruct w as [[] ? ? ? ? ? ?]. reflexivity. Qed.

(* ------------------------------------------------------------------ *)
(** * Network-change notifications *)

(** C10. A notification with a null token sets the error to
    DISCONNECTED_FROM_ETHEREUM_NODE, forgets the remembered network, and
    calls the host's updated callback once; that call is the only thing
    that happens: no remote call, no store operation, no filter is
    installed or stopped, and the store, the registry and the two filter
    fields are as before. *)
Theorem disconnect_notification (w : World) :
  exists w',
    exec (_networkConnectionChangedAsync None) w = (Ok tt, w') /\
    getError (self w') = Some "DISCONNECTED_FROM_ETHEREUM_NODE" /\
    hasError (self w') = true /\
    _networkId (self w') = None /\
    journal w' = journal w ++ [EOnUpdatedFn] /\
    getValentineRequests (self w') = getValentineRequests (self w) /\
    watching w' = watching w /\
    inbox w' = inbox w /\
    _valentineRegistry (self w') = _valentineRegistry (self w) /\
    _logValentineRequestCreated (self w') = _logValentineRequestCreated (self w) /\
    _logRequestAccepted (self w') = _logRequestAccepted (self w) /\
    isLoaded (self w') = isLoaded (self w).
Proof.
  rewrite exec_networkConnectionChangedAsync.
  eexists. split; [reflexivity |].
  repeat split.
Qed.

(** C6. A notification carrying the token that is already remembered
    changes nothing but for one call of the host's updated callback: the
    resulting world is the starting world with that call journalled. So
    no remote call is made, the store is neither cleared nor reloaded, no
    filter is installed or stopped, and the store contents, the installed
    filters, the filter fields and the error are exactly as before. *)
Theorem same_token_is_noop (w : World) (token : string) :
  _networkId (self w) = Some token ->
  exists w',
    exec (_networkConnectionChangedAsync (Some token)) w = (Ok tt, w') /\
    w' = record EOnUpdatedFn w /\
    journal w' = journal w ++ [EOnUpdatedFn] /\
    getValentineRequests (self w') = getValentineRequests (self w) /\
    watching w' = watching w /\
    self w' = self w.
Proof.
  intros H.
  exists (record EOnUpdatedFn w). split; [| repeat split].
  rewrite exec_networkConnectionChangedAsync, H. simpl.
  rewrite String.eqb_refl. simpl.
  rewrite <- H, withSelf_networkId_same. reflexivity.
Qed.

(* ------------------------------------------------------------------ *)
(** * Looking a request up by address *)

Lemma deepEqual_eq (a b : Request) : deepEqual a b = true <-> a = b.
Proof.
  unfold deepEqual. destruct a, b; simpl.
  rewrite !andb_true_iff, !String.eqb_eq, Bool.eqb_true_iff.
  split.
  - intros [[[[[-> ->] ->] ->] ->] ->]. reflexivity.
  - intros E. injection E as -> -> -> -> -> ->. repeat split.
Qed.

Lemma doesRequestExist_false_iff (request : Request) :
  _doesRequestExist request = false <-> request = placeholder.
Proof.
  unfold _doesRequestExist. rewrite negb_false_iff. apply deepEqual_eq.
Qed.

Lemma exec_getRequestIfExistsAsync (w : World) (address : string) (requestArr : RequestArr) :
  _wrappedWeb3 (self w) = true ->
  isAddress (node w) (JS.toLowerCase address) = true ->
  _valentineRegistry (self w) <> None ->
  getRequestByRequesterAddress (node w) address = Ok requestArr ->
  fst (exec (getRequestIfExistsAsync address) w) =
  Ok (if _doesRequestExist (_convertRequestArrToObj requestArr)
      then Some (_convertRequestArrToObj requestArr) else None).
Proof.
  intros W V R L.
  unfold getRequestIfExistsAsync.
  rewrite exec_bind, exec_lift.
  unfold isValidAddress. rewrite sync_bind. unfold read at 1. rewrite W, V.
  rewrite exec_bind, exec_lift. cbn [assert ret Sync_Monad].
  rewrite exec_bind. unfold registryCall.
  rewrite exec_bind, exec_lift. unfold read at 1.
  destruct (_valentineRegistry (self w)) as [registry |]; [| congruence].
  rewrite (exec_await (GetRequestByRequesterAddress address)). cbn [answer].
  rewrite L.
  destruct (_doesRequestExist (_convertRequestArrToObj requestArr)); reflexivity.
Qed.

(** C9. Once the address passes the validity assertion and the ledger
    answers the lookup, [getRequestIfExistsAsync] returns null exactly
    when the decoded reply is the non-existent placeholder, returns the
    decoded request otherwise, and never returns the placeholder as an
    entity. *)
Theorem getRequestIfExistsAsync_null_iff_placeholder
    (w : World) (address : string) (requestArr : RequestArr) :
  _wrappedWeb3 (self w) = true ->
  isAddress (node w) (JS.toLowerCase address) = true ->
  _valentineRegistry (self w) <> None ->
  getRequestByRequesterAddress (node w) address = Ok requestArr ->
  let request := _convertRequestArrToObj requestArr in
  let returned := fst (exec (getRequestIfExistsAsync address) w) in
  (returned = Ok None <-> request = placeholder) /\
  (request <> placeholder -> returned = Ok (Some request)) /\
  returned <> Ok (Some placeholder).
Proof.
  intros W V R L request returned.
  assert (E : returned = Ok (if _doesRequestExist request then Some request else None))
    by (apply exec_getRequestIfExistsAsync; assumption).
  pose proof (doesRequestExist_false_iff request) as P.
  destruct (_doesRequestExist request) eqn:D; rewrite E.
  - assert (N : request <> placeholder) by (intros Q; apply P in Q; discriminate).
    split; [split | split].
    + discriminate.
    + intros Q. contradiction.
    + reflexivity.
    + intros Q. apply N.
      exact (f_equal (fun o => match o with Ok (Some r) => r | _ => request end) Q).
  - assert (Q : request = placeholder) by (apply P; reflexivity).
    split; [split | split].
    + intros _. exact Q.
    + reflexivity.
    + intros N. contradiction.
    + discriminate.
Qed.

(* ------------------------------------------------------------------ *)
(** * Faults of a boot attempt *)

Lemma caught_store (e : string) (wf : World) :
  _valentineRequests (self (caught e wf)) = _valentineRequests (self wf).
Proof.
  unfold caught. destruct (JS.includes e _); reflexivity.
Qed.

Lemma caught_err (e : string) (wf : World) :
  _err (self (caught e wf)) =
  Some (if JS.includes e "not been deployed to detected network"
        then "CONTRACT_NOT_DEPLOYED_ON_NETWORK" else "UNHANDLED_ERROR").
Proof.
  unfold caught. destruct (JS.includes e _); reflexivity.
Qed.

(** C7. When the contract resolution or the load that follows it fails
    with message [e], the boot attempt still completes; the error is then
    CONTRACT_NOT_DEPLOYED_ON_NETWORK if [e] contains "not been deployed to
    detected network" and UNHANDLED_ERROR otherwise, so it is one of these
    two names whatever the message says, and [isLoaded()] is true. *)
Theorem resolution_failure_kinds (w : World) (networkId e : string) (wf : World) :
  _wrappedWeb3 (self w) = true ->
  getNetworkIdIfExists (node w) = Ok (Some networkId) ->
  contractAbstraction (node w) = Ok tt ->
  exec tryBlock (enteringTry networkId w) = (Err e, wf) ->
  exists w',
    exec _instantiateContractAsync w = (Ok tt, w') /\
    (JS.includes e "not been deployed to detected network" = true ->
     getError (self w') = Some "CONTRACT_NOT_DEPLOYED_ON_NETWORK") /\
    (JS.includes e "not been deployed to detected network" = false ->
     getError (self w') = Some "UNHANDLED_ERROR") /\
    (getError (self w') = Some "CONTRACT_NOT_DEPLOYED_ON_NETWORK" \/
     getError (self w') = Some "UNHANDLED_ERROR") /\
    hasError (self w') = true /\
    isLoaded (self w') = true.
Proof.
  intros W N C T.
  rewrite exec_instantiateContractAsync, W, N, C, T.
  eexists. split; [reflexivity |].
  unfold getError, hasError, isLoaded, loadedAndNotified. cbn [self record withSelf].
  unfold set_isLoaded at 1 2 3 4 5. cbn [_err _isLoaded].
  rewrite caught_err.
  destruct (JS.includes e "not been deployed to detected network");
    repeat split; try discriminate; auto.
Qed.

(** C8. A boot attempt that ends with an error keeps every entity that was
    in the store at the moment of the fault: the store after the attempt is
    the store of that moment, whether the fault was a missing network or a
    failure inside the [try] block. *)
Theorem error_keeps_loaded_entities (w wf : World) :
  _wrappedWeb3 (self w) = true ->
  faultAt w wf ->
  exists w',
    exec _instantiateContractAsync w = (Ok tt, w') /\
    hasError (self w') = true /\
    isLoaded (self w') = true /\
    getValentineRequests (self w') = getValentineRequests (self wf).
Proof.
  intros W F.
  rewrite exec_instantiateContractAsync, W.
  destruct F as [N | networkId e wf N C T].
  - rewrite N. eexists. split; [reflexivity |]. repeat split.
  - rewrite N, C, T. eexists. split; [reflexivity |].
    unfold getValentineRequests, hasError, isLoaded, loadedAndNotified.
    cbn [self record withSelf].
    unfold set_isLoaded at 1 2 3. cbn [_err _isLoaded _valentineRequests].
    rewrite caught_store, caught_err. repeat split.
Qed.

Lemma loadFrom_S (i remaining : nat) :
  loadFrom i (S remaining) =
  (requestArr <- registryCall (GetRequestByIndex i) ;;
   lift (requests_add (_convertRequestArrToObj requestArr)) ;;
   loadFrom (S i) remaining).
Proof. reflexivity. Qed.

(* ------------------------------------------------------------------ *)
(** * Relations kept by every step *)

Section Keeps.

Variable R : World -> World -> Prop.
Hypothesis R_refl : forall w, R w w.
Hypothesis R_trans : forall a b c, R a b -> R b c -> R a c.

Lemma SyncKeeps_ret {A : Type} (a : A) : SyncKeeps R (ret a).
Proof. intros w. apply R_refl. Qed.

Lemma SyncKeeps_throw {A : Type} (e : string) : SyncKeeps R (throw e : Sync A).
Proof. intros w. apply R_refl. Qed.

Lemma SyncKeeps_read {A : Type} (f : BlockchainState -> A) : SyncKeeps R (read f).
Proof. intros w. apply R_refl. Qed.

Lemma SyncKeeps_bind {A B : Type} (m : Sync A) (f : A -> Sync B) :
  SyncKeeps R m -> (forall a, SyncKeeps R (f a)) -> SyncKeeps R (bind m f).
Proof.
  intros Hm Hf w. rewrite sync_bind.
  specialize (Hm w). destruct (m w) as [[a | e] w1]; simpl in Hm.
  - eapply R_trans; [exact Hm | apply Hf].
  - exact Hm.
Qed.

Lemma AsyncKeeps_ret {A : Type} (a : A) : AsyncKeeps R (ret a).
Proof. intros w. apply R_refl. Qed.

Lemma AsyncKeeps_throw {A : Type} (e : string) : AsyncKeeps R (throw e : Async A).
Proof. intros w. apply R_refl. Qed.

Lemma AsyncKeeps_lift {A : Type} (m : Sync A) : SyncKeeps R m -> AsyncKeeps R (lift m).
Proof. intros Hm w. rewrite exec_lift. apply Hm. Qed.

Lemma AsyncKeeps_bind {A B : Type} (m : Async A) (f : A -> Async B) :
  AsyncKeeps R m -> (forall a, AsyncKeeps R (f a)) -> AsyncKeeps R (bind m f).
Proof.
  intros Hm Hf w. rewrite exec_bind.
  specialize (Hm w). destruct (exec m w) as [[a | e] w1]; simpl in Hm.
  - eapply R_trans; [exact Hm | apply Hf].
  - exact Hm.
Qed.

Lemma AsyncKeeps_tryCatch {A : Type} (body : Async A) (handler : string -> Async A) :
  AsyncKeeps R body -> (forall e, AsyncKeeps R (handler e)) ->
  AsyncKeeps R (tryCatch body handler).
Proof.
  intros Hb Hh w. rewrite exec_tryCatch.
  specialize (Hb w). destruct (exec body w) as [[a | e] w1]; simpl in Hb.
  - exact Hb.
  - eapply R_trans; [exact Hb | apply Hh].
Qed.

Hypothesis R_suspend : forall c w, R w (suspend c w).

Lemma AsyncKeeps_await (c : Call) : AsyncKeeps R (await c).
Proof. intros w. rewrite exec_await. apply R_suspend. Qed.

Lemma AsyncKeeps_registryCall (c : Call) : AsyncKeeps R (registryCall c).
Proof.
  unfold registryCall. apply AsyncKeeps_bind.
  - apply AsyncKeeps_lift, SyncKeeps_read.
  - intros [registry |]; [apply AsyncKeeps_await | apply AsyncKeeps_throw].
Qed.

(** Store operations and draws from the entropy, the other steps of the
    load and of the demo generator. *)
Hypothesis R_store :
  forall st w, R w (touched st [EClearAll; EEmit (Some "valentineRequestsUpdated")] w).
Hypothesis R_added :
  forall st address w,
    R w (touched st [EAdd address; EEmit (Some "valentineRequestsUpdated")] w).
Hypothesis R_entropy :
  forall rest w,
    R w (mkWorld (self w) (node w) (watching w) (nextFilter w) rest (inbox w) (journal w)).

Lemma SyncKeeps_requests_add (request : Request) : SyncKeeps R (requests_add request).
Proof.
  intros w. destruct (requests_add_shape request w) as [[e H] | [st H]]; rewrite H.
  - apply R_refl.
  - apply R_added.
Qed.

Lemma SyncKeeps_requests_clearAll : SyncKeeps R requests_clearAll.
Proof.
  intros w.
  replace (snd (requests_clearAll w))
    with (touched [] [EClearAll; EEmit (Some "valentineRequestsUpdated")] w).
  - apply R_store.
  - unfold requests_clearAll, touched. cbn. unfold record, withSelf. cbn.
    rewrite <- app_assoc. reflexivity.
Qed.

Lemma SyncKeeps_randomUpTo (k : nat) : SyncKeeps R (randomUpTo k).
Proof.
  intros w. unfold randomUpTo. destruct (entropy w) as [| r rest]; simpl.
  - apply R_refl.
  - apply R_entropy.
Qed.

Lemma SyncKeeps_fakeNameFrom (len : nat) : forall name, SyncKeeps R (fakeNameFrom name len).
Proof.
  induction len as [| len IH]; intros name; simpl.
  - apply SyncKeeps_ret.
  - apply SyncKeeps_bind; [apply SyncKeeps_randomUpTo | intros; apply IH].
Qed.

Lemma SyncKeeps_getUniqueFakeAddress : SyncKeeps R _getUniqueFakeAddress.
Proof.
  unfold _getUniqueFakeAddress.
  apply SyncKeeps_bind; [apply SyncKeeps_randomUpTo | intros].
  apply SyncKeeps_bind; [apply SyncKeeps_randomUpTo | intros].
  apply SyncKeeps_ret.
Qed.

Lemma SyncKeeps_createFakeRequest : SyncKeeps R _createFakeRequest.
Proof.
  unfold _createFakeRequest, getFakeName.
  repeat (apply SyncKeeps_bind; [apply SyncKeeps_fakeNameFrom | intros]).
  apply SyncKeeps_bind; [apply SyncKeeps_getUniqueFakeAddress | intros].
  apply SyncKeeps_requests_add.
Qed.

Lemma SyncKeeps_createFakeRequests (num : nat) : SyncKeeps R (_createFakeRequests num).
Proof.
  induction num as [| num IH]; simpl.
  - apply SyncKeeps_ret.
  - apply SyncKeeps_bind; [apply SyncKeeps_createFakeRequest | intros; exact IH].
Qed.

Lemma AsyncKeeps_loadFrom (remaining : nat) : forall i, AsyncKeeps R (loadFrom i remaining).
Proof.
  induction remaining as [| remaining IH]; intros i.
  - apply AsyncKeeps_ret.
  - rewrite loadFrom_S.
    apply AsyncKeeps_bind;
      [apply (AsyncKeeps_registryCall (GetRequestByIndex i)) | intros requestArr].
    apply AsyncKeeps_bind; [apply AsyncKeeps_lift, SyncKeeps_requests_add | intros].
    apply IH.
Qed.

Lemma AsyncKeeps_getExistingRequestsAsync : AsyncKeeps R _getExistingRequestsAsync.
Proof.
  unfold _getExistingRequestsAsync.
  apply AsyncKeeps_bind; [apply AsyncKeeps_lift, SyncKeeps_requests_clearAll | intros].
  apply AsyncKeeps_bind; [apply (AsyncKeeps_registryCall NumRequesters) | intros n].
  apply AsyncKeeps_loadFrom.
Qed.

End Keeps.

(* ------------------------------------------------------------------ *)
(** * The load phase of a boot *)

Lemma loadPhase_refl (w : World) : loadPhase w w.
Proof.
  constructor; try reflexivity.
  exists []. rewrite app_nil_r. split; [reflexivity | constructor].
Qed.

Lemma loadPhase_trans (a b c : World) : loadPhase a b -> loadPhase b c -> loadPhase a c.
Proof.
  intros [N1 W1 F1 C1 A1 (s1 & J1 & P1)] [N2 W2 F2 C2 A2 (s2 & J2 & P2)].
  constructor; try congruence.
  exists (s1 ++ s2). split.
  - rewrite J2, J1, app_assoc. reflexivity.
  - apply Forall_app. split; [exact P1 |]. rewrite <- W1. exact P2.
Qed.

Lemma callbackEffect_loadPhaseEffect installed (e : Effect) :
  callbackEffect installed e -> loadPhaseEffect installed e.
Proof. destruct e; simpl; auto. Qed.

Lemma loadPhase_suspend (c : Call) (w : World) : loadPhase w (suspend c w).
Proof.
  destruct (suspend_shape c w) as (st & seg & H & F). rewrite H.
  constructor; try reflexivity.
  exists (EAwait c :: seg). split; [reflexivity |].
  constructor; [exact I |].
  eapply Forall_impl; [| exact F]. apply callbackEffect_loadPhaseEffect.
Qed.

Lemma loadPhase_touched st (seg : list Effect) (w : World) :
  Forall (loadPhaseEffect (watching w)) seg -> loadPhase w (touched st seg w).
Proof.
  intros F. constructor; try reflexivity.
  exists seg. split; [reflexivity | exact F].
Qed.

Lemma loadPhase_entropy (rest : list nat) (w : World) :
  loadPhase w
    (mkWorld (self w) (node w) (watching w) (nextFilter w) rest (inbox w) (journal w)).
Proof.
  constructor; try reflexivity.
  exists []. simpl. rewrite app_nil_r. split; [reflexivity | constructor].
Qed.

Lemma scalarsKept_refl (w : World) : scalarsKept w w.
Proof. constructor; reflexivity. Qed.

Lemma scalarsKept_trans (a b c : World) :
  scalarsKept a b -> scalarsKept b c -> scalarsKept a c.
Proof. intros [] []. constructor; congruence. Qed.

Lemma scalarsKept_suspend (c : Call) (w : World) : scalarsKept w (suspend c w).
Proof.
  destruct (suspend_shape c w) as (st & seg & H & _). rewrite H.
  constructor; reflexivity.
Qed.

Lemma scalarsKept_touched st (seg : list Effect) (w : World) :
  scalarsKept w (touched st seg w).
Proof. constructor; reflexivity. Qed.

Lemma scalarsKept_entropy (rest : list nat) (w : World) :
  scalarsKept w
    (mkWorld (self w) (node w) (watching w) (nextFilter w) rest (inbox w) (journal w)).
Proof. constructor; reflexivity. Qed.

Lemma loadPhase_getExistingRequestsAsync (w : World) :
  loadPhase w (snd (exec _getExistingRequestsAsync w)).
Proof.
  apply (AsyncKeeps_getExistingRequestsAsync loadPhase loadPhase_refl loadPhase_trans
           loadPhase_suspend).
  - intros st w0. apply loadPhase_touched. repeat constructor.
  - intros st address w0. apply loadPhase_touched. repeat constructor.
Qed.

Lemma loadPhase_createFakeRequests (num : nat) (w : World) :
  loadPhase w (snd (_createFakeRequests num w)).
Proof.
  apply (SyncKeeps_createFakeRequests loadPhase loadPhase_refl loadPhase_trans).
  - intros st address w0. apply loadPhase_touched. repeat constructor.
  - apply loadPhase_entropy.
Qed.

Lemma scalarsKept_getExistingRequestsAsync (w : World) :
  scalarsKept w (snd (exec _getExistingRequestsAsync w)).
Proof.
  apply (AsyncKeeps_getExistingRequestsAsync scalarsKept scalarsKept_refl scalarsKept_trans
           scalarsKept_suspend).
  - intros st w0. apply scalarsKept_touched.
  - intros st address w0. apply scalarsKept_touched.
Qed.

Lemma scalarsKept_createFakeRequests (num : nat) (w : World) :
  scalarsKept w (snd (_createFakeRequests num w)).
Proof.
  apply (SyncKeeps_createFakeRequests scalarsKept scalarsKept_refl scalarsKept_trans).
  - intros st address w0. apply scalarsKept_touched.
  - apply scalarsKept_entropy.
Qed.

Lemma exec_tryBlock (w : World) :
  exec tryBlock w =
  match deployed (node w) with
  | Err e => (Err e, suspend Deployed w)
  | Ok registry =>
      match exec _getExistingRequestsAsync
              (withSelf (set_valentineRegistry (Some registry)) (suspend Deployed w)) with
      | (Err e, wf) => (Err e, wf)
      | (Ok _, w2) =>
          match _createFakeRequests 10 w2 with
          | (Err e, wf) => (Err e, wf)
          | (Ok _, w3) => _startWatchingContractForEvents w3
          end
      end
  end.
Proof.
  unfold tryBlock.
  rewrite exec_bind, (exec_await Deployed). cbn [answer].
  destruct (deployed (node w)) as [registry | e]; [| reflexivity].
  rewrite exec_bind, exec_lift. unfold assign at 1. cbv beta iota.
  rewrite exec_bind.
  destruct (exec _getExistingRequestsAsync _) as [[[] | e] w2]; [| reflexivity].
  rewrite exec_bind, exec_lift.
  destruct (_createFakeRequests 10 w2) as [[[] | e] w3]; [| reflexivity].
  rewrite exec_lift. reflexivity.
Qed.

Lemma kindOf_app (f : nat) (l1 l2 : list (nat * EventKind)) :
  kindOf f (l1 ++ l2) =
  match kindOf f l1 with
  | Some k => Some k
  | None => kindOf f l2
  end.
Proof.
  induction l1 as [| [g k] l1 IH]; simpl; [reflexivity |].
  destruct (g =? f)%nat; [reflexivity | exact IH].
Qed.

Lemma kindOf_app_r (f : nat) (l1 l2 : list (nat * EventKind)) :
  kindOf f l2 <> None -> kindOf f (l1 ++ l2) <> None.
Proof.
  intros H. rewrite kindOf_app. destruct (kindOf f l1); [discriminate | exact H].
Qed.

Lemma startWatching_result (w : World) :
  _valentineRegistry (self w) <> None ->
  exists w',
    _startWatchingContractForEvents w = (Ok tt, w') /\
    journal w' =
      journal w ++ stopsOf (self w) ++
      [EWatch LogValentineRequestCreated (nextFilter w);
       EWatch LogRequestAccepted (S (nextFilter w))] /\
    _logValentineRequestCreated (self w') = Some (nextFilter w) /\
    _logRequestAccepted (self w') = Some (S (nextFilter w)) /\
    kindOf (nextFilter w) (watching w') <> None /\
    kindOf (S (nextFilter w)) (watching w') <> None /\
    nextFilter w' = S (S (nextFilter w)) /\
    _valentineRequests (self w') = _valentineRequests (self w) /\
    scalarsKept w w'.
Proof.
  intros Hreg.
  destruct w as [[err loaded wrapped net registry store created accepted]
                   nd installed nf ent ib jr].
  cbn [self _valentineRegistry] in Hreg.
  destruct registry as [registry |]; [clear Hreg | congruence].
  exists (snd (_startWatchingContractForEvents
                 (mkWorld (mkBlockchainState err loaded wrapped net (Some registry)
                             store created accepted) nd installed nf ent ib jr))).
  unfold stopsOf.
  destruct created as [c |], accepted as [a |]; (split; [cbv; reflexivity |]); simpl.
  all: repeat rewrite <- app_assoc; simpl.
  all: repeat (split; [reflexivity |]).
  all: split; [apply kindOf_app_r; simpl; rewrite Nat.eqb_refl; discriminate |].
  all: split; [apply kindOf_app_r; simpl; destruct (nf =? S nf)%nat;
                [discriminate | rewrite Nat.eqb_refl; discriminate] |].
  all: repeat split.
Qed.

Lemma loadPhase_assign (f : BlockchainState -> BlockchainState) (w : World) :
  _logValentineRequestCreated (f (self w)) = _logValentineRequestCreated (self w) ->
  _logRequestAccepted (f (self w)) = _logRequestAccepted (self w) ->
  loadPhase w (withSelf f w).
Proof.
  intros C A. constructor; try assumption; try reflexivity.
  exists []. simpl. rewrite app_nil_r. split; [reflexivity | constructor].
Qed.

Lemma loadPhase_record (e : Effect) (w : World) :
  loadPhaseEffect (watching w) e -> loadPhase w (record e w).
Proof.
  intros P. constructor; try reflexivity.
  exists [e]. split; [reflexivity | constructor; [exact P | constructor]].
Qed.

Lemma loadPhase_caught (e : string) (w : World) : loadPhase w (caught e w).
Proof.
  unfold caught. destruct (JS.includes e _).
  - apply loadPhase_assign; reflexivity.
  - eapply loadPhase_trans.
    + apply (loadPhase_record (EConsoleLog "Unhandled error encountered: ")). exact I.
    + apply loadPhase_assign; reflexivity.
Qed.

Lemma loadPhase_enteringTry (networkId : string) (w : World) :
  loadPhase w (enteringTry networkId w).
Proof.
  unfold enteringTry.
  eapply loadPhase_trans; [apply loadPhase_suspend |].
  eapply loadPhase_trans;
    [apply (loadPhase_assign (set_networkId (Some networkId))); reflexivity |].
  apply loadPhase_suspend.
Qed.

Lemma exec_registryCall (c : Call) (w : World) :
  exec (registryCall c) w =
  match _valentineRegistry (self w) with
  | Some _ => (answer (node w) c, suspend c w)
  | None => (Err "TypeError: Cannot read property of null", w)
  end.
Proof.
  unfold registryCall. rewrite exec_bind, exec_lift. unfold read. cbv beta iota.
  destruct (_valentineRegistry (self w)); [apply exec_await | reflexivity].
Qed.

Lemma loadPhase_requests_add (request : Request) (w : World) :
  loadPhase w (snd (requests_add request w)).
Proof.
  apply (SyncKeeps_requests_add loadPhase loadPhase_refl).
  intros st address w0. apply loadPhase_touched. repeat constructor.
Qed.

Lemma loadFrom_awaits (remaining : nat) :
  forall (i : nat) (w w' : World),
    exec (loadFrom i remaining) w = (Ok tt, w') ->
    exists seg,
      journal w' = journal w ++ seg /\
      forall j, i <= j < i + remaining -> In (EAwait (GetRequestByIndex j)) seg.
Proof.
  induction remaining as [| remaining IH]; intros i w w' E.
  - simpl in E. injection E as <-. exists []. rewrite app_nil_r.
    split; [reflexivity | intros j Hj; lia].
  - rewrite loadFrom_S, exec_bind, (exec_registryCall (GetRequestByIndex i)) in E.
    destruct (_valentineRegistry (self w)); [| discriminate].
    cbn [answer] in E.
    destruct (getRequestByIndex (node w) i) as [requestArr | e]; [| discriminate].
    destruct (suspend_shape (GetRequestByIndex i) w) as (st & seg0 & S0 & _).
    rewrite exec_bind, exec_lift in E.
    pose proof (loadPhase_requests_add (_convertRequestArrToObj requestArr)
                  (suspend (GetRequestByIndex i) w)) as A.
    destruct (requests_add _ _) as [[[] | e] w2]; [| discriminate].
    simpl in A. destruct A as [_ _ _ _ _ (s2 & J2 & _)].
    destruct (IH (S i) w2 w' E) as (s3 & J3 & In3).
    exists ((EAwait (GetRequestByIndex i) :: seg0) ++ s2 ++ s3). split.
    + rewrite J3, J2, S0. cbn [journal]. rewrite <- !app_assoc. reflexivity.
    + intros j Hj. destruct (Nat.eq_dec j i) as [-> | Hne].
      * left. reflexivity.
      * apply in_or_app. right. apply in_or_app. right. apply In3. lia.
Qed.

Lemma requests_clearAll_eq (w : World) :
  requests_clearAll w =
  (Ok tt, touched [] [EClearAll; EEmit (Some "valentineRequestsUpdated")] w).
Proof.
  unfold requests_clearAll, touched. cbn.
  unfold _onValentineRequestsUpdated, note, record, withSelf. cbn.
  rewrite <- app_assoc. reflexivity.
Qed.

Lemma getExistingRequestsAsync_completed (w w' : World) :
  exec _getExistingRequestsAsync w = (Ok tt, w') ->
  exists seg,
    journal w' = journal w ++ seg /\ bulkLoadCompleted (node w) seg.
Proof.
  intros E. unfold _getExistingRequestsAsync in E.
  rewrite exec_bind, exec_lift, requests_clearAll_eq in E. cbv beta iota in E.
  set (w1 := touched [] [EClearAll; EEmit (Some "valentineRequestsUpdated")] w) in E.
  rewrite exec_bind, (exec_registryCall NumRequesters) in E.
  destruct (_valentineRegistry (self w1)); [| discriminate].
  cbn [answer] in E. change (node w1) with (node w) in E.
  destruct (numRequesters (node w)) as [count | e] eqn:NR; [| discriminate].
  destruct (suspend_shape NumRequesters w1) as (st & seg0 & S0 & _).
  destruct (loadFrom_awaits _ _ _ E) as (s3 & J3 & In3).
  exists ([EClearAll; EEmit (Some "valentineRequestsUpdated")]
            ++ (EAwait NumRequesters :: seg0) ++ s3). split.
  - rewrite J3, S0. cbn [journal]. subst w1. unfold touched. cbn [journal].
    rewrite <- !app_assoc. reflexivity.
  - split; [left; reflexivity |].
    exists count. split; [exact NR |].
    intros i Hi. apply in_or_app. right. apply in_or_app. right. apply In3. lia.
Qed.

Lemma bulkLoadCompleted_app (n : Node) (before seg after : list Effect) :
  bulkLoadCompleted n seg -> bulkLoadCompleted n (before ++ seg ++ after).
Proof.
  intros [C (count & NR & A)]. split.
  - apply in_or_app. right. apply in_or_app. left. exact C.
  - exists count. split; [exact NR |].
    intros i Hi. apply in_or_app. right. apply in_or_app. left. apply A, Hi.
Qed.

(** The [try] block, up to the call of [_startWatchingContractForEvents]:
    a fault leaves a world reached by load-phase steps only; without a
    fault the world [w3] in which the subscriptions start was reached by
    load-phase steps that include a completed bulk load. *)
Lemma tryBlock_phases (w0 : World) :
  match exec tryBlock w0 with
  | (Err e, wf) => loadPhase w0 wf
  | (Ok _, w4) =>
      exists w3 seg,
        _startWatchingContractForEvents w3 = (Ok tt, w4) /\
        loadPhase w0 w3 /\
        journal w3 = journal w0 ++ seg /\
        Forall (loadPhaseEffect (watching w0)) seg /\
        bulkLoadCompleted (node w0) seg /\
        _valentineRegistry (self w3) <> None /\
        _err (self w3) = _err (self w0)
  end.
Proof.
  rewrite exec_tryBlock.
  destruct (deployed (node w0)) as [registry | e]; [| apply loadPhase_suspend].
  set (w1 := withSelf (set_valentineRegistry (Some registry)) (suspend Deployed w0)).
  assert (P01 : loadPhase w0 w1).
  { eapply loadPhase_trans; [apply loadPhase_suspend |].
    apply (loadPhase_assign (set_valentineRegistry (Some registry))); reflexivity. }
  pose proof (loadPhase_getExistingRequestsAsync w1) as P12.
  pose proof (scalarsKept_getExistingRequestsAsync w1) as K12.
  pose proof (@getExistingRequestsAsync_completed w1) as C12.
  destruct (exec _getExistingRequestsAsync w1) as [[[] | e] w2]; simpl in P12, K12;
    [| eapply loadPhase_trans; eassumption].
  pose proof (loadPhase_createFakeRequests 10 w2) as P23.
  pose proof (scalarsKept_createFakeRequests 10 w2) as K23.
  destruct (_createFakeRequests 10 w2) as [[[] | e] w3]; simpl in P23, K23;
    [| eapply loadPhase_trans; [eassumption | eapply loadPhase_trans; eassumption]].
  assert (R3 : _valentineRegistry (self w3) <> None).
  { rewrite (sk_registry K23), (sk_registry K12). subst w1. simpl. discriminate. }
  destruct (startWatching_result w3 R3) as (w4 & E4 & _).
  rewrite E4.
  destruct (C12 w2 eq_refl) as (sl & Jl & Cl).
  destruct (lp_journal P01) as (sA & JA & FA).
  destruct (lp_journal P12) as (sl' & Jl' & Fl).
  destruct (lp_journal P23) as (sf & Jf & Ff).
  assert (sl' = sl) by (apply (app_inv_head (journal w1)); congruence). subst sl'.
  exists w3, (sA ++ sl ++ sf). split; [exact E4 |]. split.
  - eapply loadPhase_trans; [exact P01 | eapply loadPhase_trans; eassumption].
  - split; [rewrite Jf, Jl, JA, <- !app_assoc; reflexivity |]. split.
    + apply Forall_app. split; [exact FA |]. apply Forall_app. split.
      * rewrite <- (lp_watching P01). exact Fl.
      * rewrite <- (lp_watching P01), <- (lp_watching P12). exact Ff.
    + split; [| split; [exact R3 |]].
      * apply bulkLoadCompleted_app.
        replace (node w0) with (node w1) by (apply (lp_node P01)). exact Cl.
      * rewrite (sk_err K23), (sk_err K12). subst w1. simpl. apply err_suspend.
Qed.

Lemma loadThenSubscribe_loadOnly (w wl w' : World) (o : Outcome unit) (tail : list Effect) :
  loadPhase w wl ->
  journal w' = journal wl ++ tail ->
  tail = [] \/ tail = [EOnUpdatedFn] ->
  (o = Ok tt -> hasError (self w') = true) ->
  loadThenSubscribe w w' o.
Proof.
  intros P J T H.
  destruct (lp_journal P) as (seg & Jl & F).
  exists seg, tail. split; [rewrite J, Jl, <- app_assoc; reflexivity |].
  split; [exact F |]. split; [| split].
  - destruct T as [-> | ->]; repeat constructor.
  - intros kind f I0. destruct T as [-> | ->]; simpl in I0.
    + contradiction.
    + destruct I0 as [I0 | []]. discriminate.
  - intros O N. rewrite (H O) in N. discriminate.
Qed.

Lemma hasError_loadedAndNotified (w : World) :
  hasError (self (loadedAndNotified w)) = hasError (self w).
Proof. reflexivity. Qed.

Lemma journal_loadedAndNotified (w : World) :
  journal (loadedAndNotified w) = journal w ++ [EOnUpdatedFn].
Proof. reflexivity. Qed.

Lemma hasError_caught (e : string) (w : World) : hasError (self (caught e w)) = true.
Proof. unfold hasError. rewrite caught_err. reflexivity. Qed.

Lemma callback_while_loading_is_old (w : World) (seg : list Effect) (f : nat) :
  filtersNumbered w ->
  Forall (loadPhaseEffect (watching w)) seg ->
  In (ECallback f) seg -> f < nextFilter w.
Proof.
  intros N F I0. rewrite Forall_forall in F. apply N. exact (F _ I0).
Qed.

(** C3. In every boot attempt the journal splits into a loading part
    followed by a subscribing part. While loading, no filter is installed
    or stopped, and a callback that runs belongs to a filter installed
    before this attempt. The subscribing part holds nothing but the stops
    of old filters, the installation of the two new ones and the host
    notification. Every filter installed by the attempt is new, none of
    its callbacks ran while loading, and at its installation the bulk
    load, store clear included, had completed. An attempt that ends
    without an error installs both filters. *)
Theorem subscriptions_follow_bulk_load (w w' : World) (o : Outcome unit) :
  filtersNumbered w ->
  exec _instantiateContractAsync w = (o, w') ->
  exists loading subscribing,
    journal w' = journal w ++ loading ++ subscribing /\
    Forall (loadPhaseEffect (watching w)) loading /\
    Forall subscribePhaseEffect subscribing /\
    (forall kind f,
        In (EWatch kind f) subscribing ->
        nextFilter w <= f /\
        ~ In (ECallback f) loading /\
        bulkLoadCompleted (node w) loading) /\
    (o = Ok tt -> hasError (self w') = false ->
     In (EWatch LogValentineRequestCreated (nextFilter w)) subscribing /\
     In (EWatch LogRequestAccepted (S (nextFilter w))) subscribing).
Proof.
  intros Numbered E.
  change (loadThenSubscribe w w' o).
  rewrite exec_instantiateContractAsync in E.
  destruct (_wrappedWeb3 (self w)).
  2:{ injection E as <- <-.
      apply (@loadThenSubscribe_loadOnly _ (w) _ _ []);
        [apply loadPhase_refl | rewrite app_nil_r; reflexivity | left; reflexivity
        | discriminate]. }
  destruct (getNetworkIdIfExists (node w)) as [[networkId |] | e].
  - destruct (contractAbstraction (node w)) as [[] | e].
    + pose proof (tryBlock_phases (enteringTry networkId w)) as T.
      pose proof (loadPhase_enteringTry networkId w) as P0.
      destruct (exec tryBlock (enteringTry networkId w)) as [[[] | e] w4].
      * (* the try block completed: subscriptions were started *)
        injection E as <- <-.
        destruct T as (w3 & seg & E4 & P3 & J3 & F3 & C3 & R3 & Err3).
        destruct (startWatching_result w3 R3)
          as (w4' & E4' & J4 & _ & _ & _ & _ & _ & _ & _).
        assert (w4' = w4) by congruence. subst w4'.
        destruct (lp_journal P0) as (s0 & J0 & F0).
        exists (s0 ++ seg),
          (stopsOf (self w3) ++
           [EWatch LogValentineRequestCreated (nextFilter w3);
            EWatch LogRequestAccepted (S (nextFilter w3)); EOnUpdatedFn]).
        assert (NF : nextFilter w3 = nextFilter w).
        { rewrite (lp_nextFilter P3). apply (lp_nextFilter P0). }
        assert (FL : Forall (loadPhaseEffect (watching w)) (s0 ++ seg)).
        { apply Forall_app. split; [exact F0 |].
          rewrite <- (lp_watching P0). exact F3. }
        split.
        { rewrite journal_loadedAndNotified, J4, J3, J0, <- !app_assoc.
          reflexivity. }
        split; [exact FL |]. split; [| split].
        { apply Forall_app. split.
          - unfold stopsOf.
            destruct (_logValentineRequestCreated (self w3)),
                     (_logRequestAccepted (self w3)); repeat constructor.
          - repeat constructor. }
        { intros kind f I0.
          assert (Hf : nextFilter w <= f).
          { apply in_app_or in I0. destruct I0 as [I0 | I0].
            - unfold stopsOf in I0.
              destruct (_logValentineRequestCreated (self w3)),
                       (_logRequestAccepted (self w3)); simpl in I0;
                repeat (destruct I0 as [I0 | I0]; [discriminate |]);
                contradiction.
            - rewrite NF in I0. simpl in I0.
              destruct I0 as [I0 | [I0 | [I0 | []]]];
                [injection I0 as _ <- | injection I0 as _ <- | discriminate]; lia. }
          split; [exact Hf |]. split.
          - intros I1.
            pose proof (callback_while_loading_is_old _ Numbered FL I1). lia.
          - replace (s0 ++ seg) with (s0 ++ seg ++ []) by (rewrite app_nil_r; reflexivity).
            apply bulkLoadCompleted_app.
            replace (node w) with (node (enteringTry networkId w))
              by (apply (lp_node P0)).
            exact C3. }
        { intros _ _. rewrite NF. split; apply in_or_app; right; simpl; auto. }
      * (* the try block threw: the catch block ran *)
        injection E as <- <-.
        apply (@loadThenSubscribe_loadOnly _ (caught e w4) _ _ [EOnUpdatedFn]).
        -- eapply loadPhase_trans; [exact P0 |].
           eapply loadPhase_trans; [exact T | apply loadPhase_caught].
        -- apply journal_loadedAndNotified.
        -- right. reflexivity.
        -- intros _. rewrite hasError_loadedAndNotified. apply hasError_caught.
    + injection E as <- <-.
      apply (@loadThenSubscribe_loadOnly _ (enteringTry networkId w) _ _ []);
        [apply loadPhase_enteringTry | rewrite app_nil_r; reflexivity | left; reflexivity
        | discriminate].
  - injection E as <- <-.
    match goal with |- loadThenSubscribe _ (loadedAndNotified ?x) _ =>
      apply (@loadThenSubscribe_loadOnly _ (x) _ _ [EOnUpdatedFn]) end.
    + eapply loadPhase_trans; [apply loadPhase_suspend |].
      eapply loadPhase_trans;
        [apply (loadPhase_assign (set_networkId None)); reflexivity |].
      apply (loadPhase_assign (set_err (Some "DISCONNECTED_FROM_ETHEREUM_NODE")));
        reflexivity.
    + apply journal_loadedAndNotified.
    + right. reflexivity.
    + intros _. reflexivity.
  - injection E as <- <-.
    apply (@loadThenSubscribe_loadOnly _ (suspend GetNetworkIdIfExists w) _ _ []);
      [apply loadPhase_suspend | rewrite app_nil_r; reflexivity | left; reflexivity
      | discriminate].
Qed.

(* ------------------------------------------------------------------ *)
(** * Recovery through a network change *)

Lemma strictNeq_true (a b : option string) : a <> b -> JS.strictNeq a b = true.
Proof.
  destruct a as [x |], b as [y |]; simpl; intros H; try reflexivity.
  - destruct (String.eqb_spec x y) as [-> | _]; [congruence | reflexivity].
  - congruence.
Qed.

Lemma err_enteringTry (networkId : string) (w : World) :
  _err (self (enteringTry networkId w)) = _err (self w).
Proof.
  unfold enteringTry. rewrite err_suspend. cbn [withSelf self set_networkId _err].
  apply err_suspend.
Qed.

(** C2, as the code behaves. A notification with a new token first
    assigns the empty string to the error, not null. When the detection and
    load sequence that follows succeeds, nothing assigns the error again:
    the attempt ends loaded, with [getError()] the empty string and
    [hasError()] true. *)
Theorem reload_success_reports_error
    (w : World) (token networkId : string) (w4 : World) :
  _wrappedWeb3 (self w) = true ->
  _networkId (self w) <> Some token ->
  getNetworkIdIfExists (node w) = Ok (Some networkId) ->
  contractAbstraction (node w) = Ok tt ->
  exec tryBlock (enteringTry networkId (withSelf (set_err (Some EmptyString)) w)) = (Ok tt, w4) ->
  exists w',
    exec (_networkConnectionChangedAsync (Some token)) w = (Ok tt, w') /\
    getError (self w') = Some EmptyString /\
    hasError (self w') = true /\
    isLoaded (self w') = true.
Proof.
  intros W N G C T.
  rewrite exec_networkConnectionChangedAsync, (strictNeq_true N).
  set (w1 := withSelf (set_err (Some EmptyString)) w) in *.
  assert (W1 : _wrappedWeb3 (self w1) = true) by exact W.
  assert (G1 : getNetworkIdIfExists (node w1) = Ok (Some networkId)) by exact G.
  assert (C1 : contractAbstraction (node w1) = Ok tt) by exact C.
  rewrite exec_instantiateContractAsync, W1, G1, C1.
  pose proof (tryBlock_phases (enteringTry networkId w1)) as P.
  rewrite T in P. rewrite T.
  destruct P as (w3 & seg & E4 & _ & _ & _ & _ & R3 & Err3).
  destruct (startWatching_result w3 R3) as (w4' & E4' & _ & _ & _ & _ & _ & _ & _ & K).
  assert (w4' = w4) by congruence. subst w4'.
  eexists. split; [reflexivity |].
  assert (Err4 : _err (self w4) = Some EmptyString).
  { rewrite (sk_err K), Err3, err_enteringTry. reflexivity. }
  unfold getError, hasError, isLoaded.
  cbn [record withSelf self loadedAndNotified set_networkId set_isLoaded _err _isLoaded].
  rewrite Err4. repeat split.
Qed.

(* ------------------------------------------------------------------ *)
(** * Event callbacks and the store *)

Lemma onValentineRequestCreated_spec (err : option string) (args : Request) (w : World) :
  fst (onValentineRequestCreated err args w) = Ok tt /\
  _valentineRequests (self (snd (onValentineRequestCreated err args w))) =
    afterCreated err args (_valentineRequests (self w)) /\
  scalarsKept w (snd (onValentineRequestCreated err args w)).
Proof.
  unfold onValentineRequestCreated, afterCreated.
  destruct (JS.truthy err); [repeat split |].
  rewrite sync_bind. unfold requests_has, read. cbv beta iota. cbn [requesterAddress].
  destruct (ValentineRequests.has (requesterAddress args) (_valentineRequests (self w)))
    eqn:H; cbn [negb]; [repeat split |].
  unfold requests_add. rewrite sync_bind. unfold read. cbv beta iota.
  unfold ValentineRequests.add. cbn [requesterAddress]. rewrite H.
  repeat split.
Qed.

Lemma onRequestAccepted_spec (err : option string) (args : Request) (w : World) :
  fst (onRequestAccepted err args w) = Ok tt /\
  _valentineRequests (self (snd (onRequestAccepted err args w))) =
    afterAccepted err args (_valentineRequests (self w)) /\
  scalarsKept w (snd (onRequestAccepted err args w)) /\
  (JS.truthy err = false ->
   ValentineRequests.has (requesterAddress args) (_valentineRequests (self w)) = false ->
   snd (onRequestAccepted err args w) = w).
Proof.
  unfold onRequestAccepted, afterAccepted.
  destruct (JS.truthy err); [repeat split; discriminate |].
  rewrite sync_bind. unfold requests_has, read. cbv beta iota.
  destruct (ValentineRequests.has (requesterAddress args) (_valentineRequests (self w)))
    eqn:H; [| repeat split].
  unfold requests_update. rewrite sync_bind. unfold read. cbv beta iota.
  unfold ValentineRequests.update. rewrite H.
  repeat split. discriminate.
Qed.

Lemma callback_store (kind : EventKind) (err : option string) (args : Request) (w : World) :
  _valentineRequests (self (snd (callbackOf kind err args w))) =
  afterCallback kind err args (_valentineRequests (self w)).
Proof.
  destruct kind; simpl.
  - apply onValentineRequestCreated_spec.
  - apply onRequestAccepted_spec.
Qed.

Lemma deliver_store (d : Delivery) (w : World) :
  _valentineRequests (self (deliver d w)) =
  match kindOf (target d) (watching w) with
  | Some kind =>
      afterCallback kind (deliveredErr d) (deliveredArgs d) (_valentineRequests (self w))
  | None => _valentineRequests (self w)
  end.
Proof.
  unfold deliver. destruct (kindOf (target d) (watching w)) as [kind |]; [| reflexivity].
  rewrite callback_store. reflexivity.
Qed.

(** ** Keys *)

Lemma has_false_iff (address : string) (st : ValentineRequests.t) :
  ValentineRequests.has address st = false <-> ~ In address (map requesterAddress st).
Proof.
  unfold ValentineRequests.has. induction st as [| r st IH]; simpl.
  - split; [intros _ [] | reflexivity].
  - rewrite orb_false_iff, IH. split.
    + intros [E N] [H | H]; [| contradiction].
      rewrite H, String.eqb_refl in E. discriminate.
    + intros N. split.
      * destruct (String.eqb_spec (requesterAddress r) address) as [Heq | _];
          [exfalso; apply N; left; exact Heq | reflexivity].
      * intros H. apply N. right. exact H.
Qed.

Lemma uniqueKeys_add (request : Request) (st : ValentineRequests.t) :
  ValentineRequests.has (requesterAddress request) st = false ->
  ValentineRequests.uniqueKeys st ->
  ValentineRequests.uniqueKeys (st ++ [request]).
Proof.
  unfold ValentineRequests.uniqueKeys. intros H U.
  rewrite map_app. simpl.
  apply NoDup_app; [exact U | repeat constructor; intros [] |].
  intros a Ha [<- | []]. apply has_false_iff in H. contradiction.
Qed.

Lemma keys_afterAccepted (err : option string) (args : Request) (st : ValentineRequests.t) :
  map requesterAddress (afterAccepted err args st) = map requesterAddress st.
Proof.
  unfold afterAccepted.
  destruct (JS.truthy err); [reflexivity |].
  destruct (ValentineRequests.has _ _); [| reflexivity].
  rewrite map_map. apply map_ext. intros r.
  destruct (requesterAddress r =? requesterAddress args); reflexivity.
Qed.

Lemma uniqueKeys_afterCallback (kind : EventKind) (err : option string) (args : Request)
    (st : ValentineRequests.t) :
  ValentineRequests.uniqueKeys st ->
  ValentineRequests.uniqueKeys (afterCallback kind err args st).
Proof.
  intros U. destruct kind; simpl.
  - unfold afterCreated. destruct (JS.truthy err); [exact U |].
    destruct (ValentineRequests.has (requesterAddress args) st) eqn:H; [exact U |].
    apply uniqueKeys_add; [exact H | exact U].
  - unfold ValentineRequests.uniqueKeys. rewrite keys_afterAccepted. exact U.
Qed.

Lemma uniqueKeys_deliverAll (batch : list Delivery) :
  forall w,
    ValentineRequests.uniqueKeys (_valentineRequests (self w)) ->
    ValentineRequests.uniqueKeys (_valentineRequests (self (deliverAll batch w))).
Proof.
  unfold deliverAll.
  induction batch as [| d batch IH]; intros w U; simpl; [exact U |].
  apply IH. rewrite deliver_store.
  destruct (kindOf (target d) (watching w)); [apply uniqueKeys_afterCallback |]; exact U.
Qed.

(** ** Entries over time *)

Lemma withWasAccepted_true_id (r : Request) :
  wasAccepted r = true -> withWasAccepted true r = r.
Proof. destruct r; simpl; intros ->; reflexivity. Qed.

Lemma entryOf_app (address : string) (st extra : ValentineRequests.t) (r : Request) :
  entryOf address st = Some r -> entryOf address (st ++ extra) = Some r.
Proof.
  unfold entryOf, ValentineRequests.getAll.
  induction st as [| x st IH]; simpl; [discriminate |].
  destruct (requesterAddress x =? address); [auto | exact IH].
Qed.

Lemma entryOf_marked (address marked : string) (st : ValentineRequests.t) (r : Request) :
  entryOf address st = Some r ->
  entryOf address
    (map (fun x => if requesterAddress x =? marked then withWasAccepted true x else x) st) =
  Some (if requesterAddress r =? marked then withWasAccepted true r else r).
Proof.
  unfold entryOf, ValentineRequests.getAll.
  induction st as [| x st IH]; simpl; [discriminate |].
  assert (K : requesterAddress
                (if requesterAddress x =? marked then withWasAccepted true x else x) =
              requesterAddress x)
    by (destruct (requesterAddress x =? marked); reflexivity).
  rewrite K.
  destruct (requesterAddress x =? address); [| exact IH].
  intros E. injection E as <-. reflexivity.
Qed.

(** One callback leaves an existing entry as it is, or sets its
    [wasAccepted] to true; nothing else about it changes. *)
Lemma entryOf_afterCallback (kind : EventKind) (err : option string) (args : Request)
    (st : ValentineRequests.t) (address : string) (r : Request) :
  entryOf address st = Some r ->
  entryOf address (afterCallback kind err args st) = Some r \/
  entryOf address (afterCallback kind err args st) = Some (withWasAccepted true r).
Proof.
  intros E. destruct kind; simpl.
  - left. unfold afterCreated.
    destruct (JS.truthy err); [exact E |].
    destruct (ValentineRequests.has _ _); [exact E |].
    apply entryOf_app, E.
  - unfold afterAccepted.
    destruct (JS.truthy err); [left; exact E |].
    destruct (ValentineRequests.has _ _); [| left; exact E].
    rewrite (@entryOf_marked address (requesterAddress args) st r E).
    destruct (requesterAddress r =? requesterAddress args); [right | left]; reflexivity.
Qed.

Lemma entryOf_deliverAll (batch : list Delivery) :
  forall (w : World) (address : string) (r : Request),
    entryOf address (_valentineRequests (self w)) = Some r ->
    entryOf address (_valentineRequests (self (deliverAll batch w))) = Some r \/
    entryOf address (_valentineRequests (self (deliverAll batch w))) =
      Some (withWasAccepted true r).
Proof.
  unfold deliverAll.
  induction batch as [| d batch IH]; intros w address r E; simpl; [left; exact E |].
  assert (S1 : entryOf address (_valentineRequests (self (deliver d w))) = Some r \/
               entryOf address (_valentineRequests (self (deliver d w))) =
                 Some (withWasAccepted true r)).
  { rewrite deliver_store. destruct (kindOf (target d) (watching w)) as [kind |].
    - apply entryOf_afterCallback, E.
    - left. exact E. }
  destruct S1 as [S1 | S1].
  - apply IH, S1.
  - destruct (IH (deliver d w) address (withWasAccepted true r) S1) as [S2 | S2].
    + right. exact S2.
    + right. rewrite S2. reflexivity.
Qed.

Lemma err_deliverAll (batch : list Delivery) (w : World) :
  _err (self (deliverAll batch w)) = _err (self w).
Proof.
  destruct (deliverAll_shape batch w) as (st & seg & H & _). rewrite H. reflexivity.
Qed.

(** C4. The acceptance callback never throws. When no delivery error is
    passed and the store has an entry for the event's requester address,
    that entry's [wasAccepted] becomes true and no other entry changes;
    when the store has no such entry, the world is left exactly as it was:
    same store, same error. Over any sequence of pushed events, of either
    kind and in any order, an entry that is accepted stays as it is, so
    [wasAccepted] never goes back to false, and the error of the
    synchronizer is not touched. *)
Theorem acceptance_only_sets_true (w : World) (err : option string) (args : Request) :
  let address := requesterAddress args in
  let st := _valentineRequests (self w) in
  let after := snd (onRequestAccepted err args w) in
  fst (onRequestAccepted err args w) = Ok tt /\
  (JS.truthy err = false -> ValentineRequests.has address st = true ->
   _valentineRequests (self after) =
     map (fun r => if requesterAddress r =? address then withWasAccepted true r else r) st /\
   forall r, entryOf address st = Some r ->
             entryOf address (_valentineRequests (self after)) = Some (withWasAccepted true r)) /\
  (JS.truthy err = false -> ValentineRequests.has address st = false -> after = w) /\
  getError (self after) = getError (self w) /\
  (forall (batch : list Delivery) (a : string) (r : Request),
      entryOf a st = Some r -> wasAccepted r = true ->
      entryOf a (_valentineRequests (self (deliverAll batch w))) = Some r) /\
  (forall batch : list Delivery,
      getError (self (deliverAll batch w)) = getError (self w)).
Proof.
  intros address st after.
  destruct (onRequestAccepted_spec err args w) as (O & S & K & U).
  split; [exact O |]. split; [| split; [exact U | split; [apply (sk_err K) | split]]].
  - intros T H. subst after. rewrite S. unfold afterAccepted. rewrite T.
    fold address. fold st. rewrite H. split; [reflexivity |].
    intros r E. rewrite (@entryOf_marked address address st r E).
    assert (A : requesterAddress r = address).
    { unfold entryOf, ValentineRequests.getAll in E.
      apply find_some in E. destruct E as [_ E]. apply String.eqb_eq, E. }
    rewrite A, String.eqb_refl. reflexivity.
  - intros batch a r E A.
    destruct (@entryOf_deliverAll batch w a r E) as [D | D]; rewrite D; [reflexivity |].
    rewrite (@withWasAccepted_true_id r A). reflexivity.
  - intros batch. apply err_deliverAll.
Qed.

(** C5. The creation callback never throws. It appends the event's
    request, with [wasAccepted] false, exactly when no delivery error is
    passed and the store has no entry for its requester address, and it
    leaves the store alone otherwise; so delivering the same event a second
    time changes nothing. A store whose requester addresses are pairwise
    distinct keeps them distinct, through this callback and through any
    sequence of pushed events. *)
Theorem creation_event_idempotent (w : World) (err : option string) (args : Request) :
  let st := _valentineRequests (self w) in
  let once := snd (onValentineRequestCreated err args w) in
  let twice := snd (onValentineRequestCreated err args once) in
  fst (onValentineRequestCreated err args w) = Ok tt /\
  getValentineRequests (self once) =
    (if JS.truthy err || ValentineRequests.has (requesterAddress args) st
     then st else st ++ [withWasAccepted false args]) /\
  getValentineRequests (self twice) = getValentineRequests (self once) /\
  (ValentineRequests.uniqueKeys st ->
   ValentineRequests.uniqueKeys (_valentineRequests (self once)) /\
   forall batch : list Delivery,
     ValentineRequests.uniqueKeys (_valentineRequests (self (deliverAll batch w)))).
Proof.
  intros st once twice.
  destruct (onValentineRequestCreated_spec err args w) as (O & S & _).
  destruct (onValentineRequestCreated_spec err args once) as (_ & S2 & _).
  unfold getValentineRequests, ValentineRequests.getAll.
  split; [exact O |]. split; [| split].
  - subst once. rewrite S. unfold afterCreated. fold st.
    destruct (JS.truthy err); [reflexivity |].
    destruct (ValentineRequests.has (requesterAddress args) st); reflexivity.
  - subst twice. rewrite S2. fold once in S. rewrite S. fold st.
    unfold afterCreated.
    destruct (JS.truthy err); [reflexivity |].
    destruct (ValentineRequests.has (requesterAddress args) st) eqn:H.
    + rewrite H. reflexivity.
    + assert (H2 : ValentineRequests.has (requesterAddress args)
                     (st ++ [withWasAccepted false args]) = true).
      { unfold ValentineRequests.has. rewrite existsb_app. simpl.
        rewrite String.eqb_refl. apply orb_true_iff. right. reflexivity. }
      rewrite H2. reflexivity.
  - intros U. split.
    + subst once. rewrite S.
      apply (uniqueKeys_afterCallback LogValentineRequestCreated), U.
    + intros batch. apply uniqueKeys_deliverAll, U.
Qed.

(* ------------------------------------------------------------------ *)
(** * The bulk load *)

Lemma deliverAll_missed (batch : list Delivery) (w : World) :
  Forall (fun d => kindOf (target d) (watching w) = None) batch ->
  deliverAll batch w = w.
Proof.
  unfold deliverAll. induction 1 as [| d batch Hd _ IH]; simpl; [reflexivity |].
  replace (deliver d w) with w; [exact IH |].
  unfold deliver. rewrite Hd. reflexivity.
Qed.

Lemma quiet_suspend (c : Call) (w : World) : quiet w -> suspend c w = resumed c w.
Proof.
  unfold quiet, suspend, resumed. intros Q.
  cbn [record inbox self node watching nextFilter entropy journal].
  apply deliverAll_missed. cbn [watching].
  destruct Q as [| batch rest Hb _]; [constructor | exact Hb].
Qed.

Lemma quiet_resumed (c : Call) (w : World) : quiet w -> quiet (resumed c w).
Proof.
  unfold quiet, resumed. cbn [inbox watching].
  intros Q. destruct Q as [| batch rest _ Hr]; [constructor | exact Hr].
Qed.

Lemma quiet_touched st (seg : list Effect) (w : World) : quiet w -> quiet (touched st seg w).
Proof. intros Q. exact Q. Qed.

Lemma requests_add_eq (request : Request) (w : World) :
  requests_add request w =
  if ValentineRequests.has (requesterAddress request) (_valentineRequests (self w))
  then (Err "DuplicateKey", w)
  else (Ok tt,
        touched (_valentineRequests (self w) ++ [request])
          [EAdd (requesterAddress request); EEmit (Some "valentineRequestsUpdated")] w).
Proof.
  unfold requests_add. rewrite sync_bind. unfold read. cbv beta iota.
  unfold ValentineRequests.add.
  destruct (ValentineRequests.has _ _); [reflexivity |].
  cbn. unfold _onValentineRequestsUpdated, note, touched, record, withSelf; simpl.
  rewrite <- app_assoc. reflexivity.
Qed.

Lemma loadFrom_quiet (remaining : nat) :
  forall (i : nat) (w w' : World),
    quiet w ->
    exec (loadFrom i remaining) w = (Ok tt, w') ->
    exists arrs,
      map (getRequestByIndex (node w)) (seq i remaining) = map Ok arrs /\
      _valentineRequests (self w') =
        _valentineRequests (self w) ++ map _convertRequestArrToObj arrs /\
      journal w' = journal w ++ loadJournal i arrs /\
      (ValentineRequests.uniqueKeys (_valentineRequests (self w)) ->
       ValentineRequests.uniqueKeys (_valentineRequests (self w'))).
Proof.
  induction remaining as [| remaining IH]; intros i w w' Q E.
  - simpl in E. injection E as <-. exists []. simpl. rewrite !app_nil_r. auto.
  - rewrite loadFrom_S, exec_bind, (exec_registryCall (GetRequestByIndex i)) in E.
    destruct (_valentineRegistry (self w)); [| discriminate].
    cbn [answer] in E.
    destruct (getRequestByIndex (node w) i) as [requestArr | e] eqn:G; [| discriminate].
    rewrite (quiet_suspend _ Q), exec_bind, exec_lift, requests_add_eq in E.
    cbn [resumed self] in E.
    destruct (ValentineRequests.has _ _) eqn:H; [discriminate |].
    apply IH in E; [| apply quiet_touched, quiet_resumed, Q].
    destruct E as (arrs & M & S & J & U).
    exists (requestArr :: arrs). cbn [seq map]. split; [| split; [| split]].
    + rewrite G. f_equal. exact M.
    + rewrite S. cbn [touched self set_valentineRequests _valentineRequests].
      rewrite <- app_assoc. reflexivity.
    + rewrite J. cbn [touched journal resumed loadJournal].
      rewrite <- !app_assoc. reflexivity.
    + intros U0. apply U. cbn [touched self set_valentineRequests _valentineRequests].
      apply uniqueKeys_add; assumption.
Qed.

Lemma loadFrom_succeeds (remaining : nat) :
  forall (i : nat) (w : World) (arrs : list RequestArr),
    quiet w ->
    _valentineRegistry (self w) <> None ->
    map (getRequestByIndex (node w)) (seq i remaining) = map Ok arrs ->
    NoDup (map requesterAddress (_valentineRequests (self w)) ++ map arr5 arrs) ->
    exists w', exec (loadFrom i remaining) w = (Ok tt, w').
Proof.
  induction remaining as [| remaining IH]; intros i w arrs Q R M U.
  - exists w. reflexivity.
  - destruct arrs as [| requestArr arrs]; [discriminate |].
    cbn [seq map] in M. injection M as G M.
    rewrite loadFrom_S, exec_bind, (exec_registryCall (GetRequestByIndex i)).
    destruct (_valentineRegistry (self w)) as [registry |] eqn:Reg; [| congruence].
    cbn [answer]. rewrite G, (quiet_suspend _ Q), exec_bind, exec_lift, requests_add_eq.
    cbn [resumed self].
    assert (H : ValentineRequests.has
                  (requesterAddress (_convertRequestArrToObj requestArr))
                  (_valentineRequests (self w)) = false).
    { apply has_false_iff. cbn [map] in U. apply NoDup_remove_2 in U.
      intros I0. apply U. apply in_or_app. left. exact I0. }
    rewrite H.
    apply (IH (S i) _ arrs).
    + apply quiet_touched, quiet_resumed, Q.
    + change (_valentineRegistry (self w) <> None). rewrite Reg. discriminate.
    + exact M.
    + cbn [touched self set_valentineRequests _valentineRequests].
      rewrite map_app, <- app_assoc. exact U.
Qed.

(** Every well-behaved ledger is loaded: with a registry at hand, no
    callback running, a count, a reply for every index below it and
    pairwise distinct requester addresses, the bulk load returns. *)
Lemma bulk_load_succeeds (w : World) (count : nat) (arrs : list RequestArr) :
  quiet w ->
  _valentineRegistry (self w) <> None ->
  numRequesters (node w) = Ok count ->
  map (getRequestByIndex (node w)) (seq 0 count) = map Ok arrs ->
  NoDup (map arr5 arrs) ->
  exists w', exec _getExistingRequestsAsync w = (Ok tt, w').
Proof.
  intros Q R N M U.
  unfold _getExistingRequestsAsync.
  rewrite exec_bind, exec_lift, requests_clearAll_eq. cbv beta iota.
  set (w1 := touched [] [EClearAll; EEmit (Some "valentineRequestsUpdated")] w).
  rewrite exec_bind, (exec_registryCall NumRequesters).
  change (_valentineRegistry (self w1)) with (_valentineRegistry (self w)).
  destruct (_valentineRegistry (self w)) as [registry |] eqn:Reg; [| congruence].
  cbn [answer]. change (node w1) with (node w). rewrite N.
  assert (Q1 : quiet w1) by (apply quiet_touched, Q).
  rewrite (quiet_suspend _ Q1).
  apply (@loadFrom_succeeds count 0 _ arrs).
  - apply quiet_resumed, Q1.
  - change (_valentineRegistry (self w) <> None). rewrite Reg. discriminate.
  - exact M.
  - exact U.
Qed.

(** C1, as the code behaves. After a bulk load that returned, and during
    which no callback of an earlier subscription ran, [getAll()] is the
    list of all entities the ledger reported through [numRequesters] and
    [getRequestByIndex], each decoded from its positional form, in index
    order, placeholders included: nothing is filtered out. Their requester
    addresses are pairwise distinct. The store was cleared first: the
    journal of the load starts with the clear, and the adds follow, one
    after each fetch. *)
Theorem bulk_load_mirrors_ledger (w w' : World) :
  quiet w ->
  exec _getExistingRequestsAsync w = (Ok tt, w') ->
  exists count arrs,
    numRequesters (node w) = Ok count /\
    map (getRequestByIndex (node w)) (seq 0 count) = map Ok arrs /\
    getValentineRequests (self w') = map _convertRequestArrToObj arrs /\
    NoDup (map requesterAddress (getValentineRequests (self w'))) /\
    journal w' =
      journal w ++
      [EClearAll; EEmit (Some "valentineRequestsUpdated"); EAwait NumRequesters] ++
      loadJournal 0 arrs.
Proof.
  intros Q E. unfold _getExistingRequestsAsync in E.
  rewrite exec_bind, exec_lift, requests_clearAll_eq in E. cbv beta iota in E.
  set (w1 := touched [] [EClearAll; EEmit (Some "valentineRequestsUpdated")] w) in E.
  rewrite exec_bind, (exec_registryCall NumRequesters) in E.
  destruct (_valentineRegistry (self w1)); [| discriminate].
  cbn [answer] in E. change (node w1) with (node w) in E.
  destruct (numRequesters (node w)) as [count | e]; [| discriminate].
  assert (Q1 : quiet w1) by (apply quiet_touched, Q).
  rewrite (quiet_suspend _ Q1) in E.
  apply loadFrom_quiet in E; [| apply quiet_resumed, Q1].
  destruct E as (arrs & M & S & J & U).
  exists count, arrs. split; [reflexivity |]. split; [exact M |].
  unfold getValentineRequests, ValentineRequests.getAll. split; [exact S |]. split.
  - apply U. constructor.
  - rewrite J. cbn [resumed journal]. subst w1. cbn [touched journal].
    rewrite <- !app_assoc. reflexivity.
Qed.

(** During a reload the filters of the previous boot are still installed:
    a creation event pushed to one of them after the clear puts into the
    store an entity that the ledger did not report. *)
Remark earlier_filter_adds_during_reload :
  let w' := snd (exec _instantiateContractAsync Sample.racing) in
  fst (exec _instantiateContractAsync Sample.racing) = Ok tt /\
  hd_error (getValentineRequests (self w')) = Some (_convertRequestArrToObj Sample.eve) /\
  numRequesters (node Sample.racing) = Ok 2 /\
  getRequestByIndex (node Sample.racing) 0 = Ok Sample.alice /\
  getRequestByIndex (node Sample.racing) 1 = Ok Sample.carol.
Proof. vm_compute. repeat split. Qed.

(** A page without [window.web3] ends its boot before anything is
    resolved: the error is NO_WEB3_INSTANCE_FOUND, the attempt counts as
    loaded, and the store is the store of the moment the page had loaded. *)
Lemma exec_onPageLoadInit_noTransport (w : World) :
  windowWeb3 (node w) = false ->
  exec _onPageLoadInitFireAndForgetAsync w =
  (Ok tt,
   loadedAndNotified
     (withSelf (set_err (Some "NO_WEB3_INSTANCE_FOUND")) (suspend PageLoad w))).
Proof.
  intros H. unfold _onPageLoadInitFireAndForgetAsync.
  rewrite exec_bind, (exec_await PageLoad). cbn [answer].
  rewrite exec_bind, exec_lift. cbv beta iota.
  rewrite node_suspend, H. cbn [negb].
  rewrite exec_bind, exec_lift. unfold assign at 1. cbv beta iota.
  rewrite exec_bind, exec_lift. cbn. reflexivity.
Qed.

(* ------------------------------------------------------------------ *)
(** * Sample worlds and instances *)

Lemma bulk_load_mirrors_ledger_witness :
  let w := Sample.resolved (Sample.ledger [Sample.alice; Sample.carol]) in
  let w' := snd (exec _getExistingRequestsAsync w) in
  quiet w /\
  exec _getExistingRequestsAsync w = (Ok tt, w') /\
  exists count arrs,
    numRequesters (node w) = Ok count /\
    map (getRequestByIndex (node w)) (seq 0 count) = map Ok arrs /\
    getValentineRequests (self w') = map _convertRequestArrToObj arrs /\
    NoDup (map requesterAddress (getValentineRequests (self w'))) /\
    journal w' =
      journal w ++
      [EClearAll; EEmit (Some "valentineRequestsUpdated"); EAwait NumRequesters] ++
      loadJournal 0 arrs.
Proof.
  intros w w'.
  assert (Q : quiet w) by (repeat constructor).
  assert (E : exec _getExistingRequestsAsync w = (Ok tt, w')) by (vm_compute; reflexivity).
  split; [exact Q |]. split; [exact E |].
  exact (@bulk_load_mirrors_ledger w w' Q E).
Defined.

Lemma bulk_load_keeps_placeholder :
  let w := Sample.resolved (Sample.ledger [Sample.alice; emptyRequestArr]) in
  let w' := snd (exec _getExistingRequestsAsync w) in
  quiet w /\
  exec _getExistingRequestsAsync w = (Ok tt, w') /\
  getValentineRequests (self w') = [_convertRequestArrToObj Sample.alice; placeholder] /\
  ~ storeHoldsFilteredLedger w w'.
Proof.
  intros w w'.
  split; [repeat constructor |]. split; [vm_compute; reflexivity |].
  split; [vm_compute; reflexivity |].
  intros (count & arrs & N & M & G).
  vm_compute in N. injection N as <-.
  destruct arrs as [| a [| b [| c arrs]]]; try discriminate M.
  vm_compute in M. injection M as <- <-.
  vm_compute in G. discriminate G.
Qed.

Lemma reload_success_reports_error_witness :
  let w := Sample.disconnected in
  let w4 := snd (exec tryBlock (enteringTry "3" (withSelf (set_err (Some EmptyString)) w))) in
  _wrappedWeb3 (self w) = true /\
  _networkId (self w) <> Some "3" /\
  getNetworkIdIfExists (node w) = Ok (Some "3") /\
  contractAbstraction (node w) = Ok tt /\
  exec tryBlock (enteringTry "3" (withSelf (set_err (Some EmptyString)) w)) = (Ok tt, w4) /\
  exists w',
    exec (_networkConnectionChangedAsync (Some "3")) w = (Ok tt, w') /\
    getError (self w') = Some EmptyString /\
    hasError (self w') = true /\
    isLoaded (self w') = true.
Proof.
  intros w w4.
  assert (W : _wrappedWeb3 (self w) = true) by (vm_compute; reflexivity).
  assert (N : _networkId (self w) <> Some "3") by (vm_compute; discriminate).
  assert (G : getNetworkIdIfExists (node w) = Ok (Some "3")) by (vm_compute; reflexivity).
  assert (C : contractAbstraction (node w) = Ok tt) by (vm_compute; reflexivity).
  assert (T : exec tryBlock (enteringTry "3" (withSelf (set_err (Some EmptyString)) w)) = (Ok tt, w4))
    by (vm_compute; reflexivity).
  repeat (split; [assumption |]).
  exact (@reload_success_reports_error w "3" "3" w4 W N G C T).
Defined.

Lemma subscriptions_follow_bulk_load_witness :
  let w := Sample.reloading in
  let o := fst (exec _instantiateContractAsync w) in
  let w' := snd (exec _instantiateContractAsync w) in
  filtersNumbered w /\
  exec _instantiateContractAsync w = (o, w') /\
  exists loading subscribing,
    journal w' = journal w ++ loading ++ subscribing /\
    Forall (loadPhaseEffect (watching w)) loading /\
    Forall subscribePhaseEffect subscribing /\
    (forall kind f,
        In (EWatch kind f) subscribing ->
        nextFilter w <= f /\
        ~ In (ECallback f) loading /\
        bulkLoadCompleted (node w) loading) /\
    (o = Ok tt -> hasError (self w') = false ->
     In (EWatch LogValentineRequestCreated (nextFilter w)) subscribing /\
     In (EWatch LogRequestAccepted (S (nextFilter w))) subscribing).
Proof.
  intros w o w'.
  assert (F : filtersNumbered w).
  { intros f H. vm_compute in H. change (f < 2).
    destruct f as [| [| f]]; [lia | lia | contradiction]. }
  assert (E : exec _instantiateContractAsync w = (o, w')) by (vm_compute; reflexivity).
  split; [exact F |]. split; [exact E |].
  exact (@subscriptions_follow_bulk_load w w' o F E).
Defined.

Lemma acceptance_only_sets_true_witness :
  let w := Sample.ready in
  let args := _convertRequestArrToObj Sample.alice in
  let after := snd (onRequestAccepted None args w) in
  JS.truthy None = false /\
  ValentineRequests.has (requesterAddress args) (_valentineRequests (self w)) = true /\
  entryOf (requesterAddress args) (_valentineRequests (self w)) = Some args /\
  entryOf (requesterAddress args) (_valentineRequests (self after)) =
    Some (withWasAccepted true args).
Proof.
  intros w args after.
  assert (T : JS.truthy None = false) by reflexivity.
  assert (H : ValentineRequests.has (requesterAddress args) (_valentineRequests (self w)) = true)
    by (vm_compute; reflexivity).
  assert (E : entryOf (requesterAddress args) (_valentineRequests (self w)) = Some args)
    by (vm_compute; reflexivity).
  repeat (split; [assumption |]).
  destruct (@acceptance_only_sets_true w None args) as (_ & A & _).
  destruct (A T H) as (_ & B).
  exact (B args E).
Defined.

Lemma creation_event_idempotent_witness :
  let w := snd (exec _getExistingRequestsAsync
                  (Sample.resolved (Sample.ledger [Sample.alice; Sample.carol]))) in
  let args := _convertRequestArrToObj Sample.alice in
  ValentineRequests.uniqueKeys (_valentineRequests (self w)) /\
  getValentineRequests (self (snd (onValentineRequestCreated None args w))) =
    getValentineRequests (self w) /\
  ValentineRequests.uniqueKeys
    (_valentineRequests (self (snd (onValentineRequestCreated None args w)))).
Proof.
  intros w args.
  assert (U : ValentineRequests.uniqueKeys (_valentineRequests (self w))).
  { vm_compute. repeat constructor; simpl; intuition discriminate. }
  destruct (@creation_event_idempotent w None args) as (_ & S & _ & K).
  split; [exact U |]. split.
  - rewrite S. vm_compute. reflexivity.
  - exact (proj1 (K U)).
Defined.

Lemma same_token_is_noop_witness :
  _networkId (self Sample.ready) = Some "3" /\
  exists w',
    exec (_networkConnectionChangedAsync (Some "3")) Sample.ready = (Ok tt, w') /\
    w' = record EOnUpdatedFn Sample.ready /\
    journal w' = journal Sample.ready ++ [EOnUpdatedFn] /\
    getValentineRequests (self w') = getValentineRequests (self Sample.ready) /\
    watching w' = watching Sample.ready /\
    self w' = self Sample.ready.
Proof.
  assert (N : _networkId (self Sample.ready) = Some "3") by (vm_compute; reflexivity).
  split; [exact N |].
  exact (@same_token_is_noop Sample.ready "3" N).
Defined.

Lemma resolution_failure_kinds_witness :
  let w := Sample.booting Sample.undeployed in
  let e := "Error: ValentineRegistry has not been deployed to detected network (network/artifact mismatch)" in
  let wf := snd (exec tryBlock (enteringTry "3" w)) in
  _wrappedWeb3 (self w) = true /\
  getNetworkIdIfExists (node w) = Ok (Some "3") /\
  contractAbstraction (node w) = Ok tt /\
  exec tryBlock (enteringTry "3" w) = (Err e, wf) /\
  exists w',
    exec _instantiateContractAsync w = (Ok tt, w') /\
    getError (self w') = Some "CONTRACT_NOT_DEPLOYED_ON_NETWORK" /\
    hasError (self w') = true /\
    isLoaded (self w') = true.
Proof.
  intros w e wf.
  assert (W : _wrappedWeb3 (self w) = true) by reflexivity.
  assert (G : getNetworkIdIfExists (node w) = Ok (Some "3")) by reflexivity.
  assert (C : contractAbstraction (node w) = Ok tt) by reflexivity.
  assert (T : exec tryBlock (enteringTry "3" w) = (Err e, wf)) by (vm_compute; reflexivity).
  repeat (split; [assumption |]).
  destruct (@resolution_failure_kinds w "3" e wf W G C T) as (w' & E & D & _ & _ & H & L).
  exists w'. split; [exact E |]. split; [| split; assumption].
  apply D. vm_compute. reflexivity.
Defined.

Lemma error_keeps_loaded_entities_witness :
  let w := Sample.booting (Sample.ledger [Sample.alice; Sample.carol; Sample.alice]) in
  let wf := snd (exec tryBlock (enteringTry "3" w)) in
  _wrappedWeb3 (self w) = true /\
  faultAt w wf /\
  getValentineRequests (self wf) =
    [_convertRequestArrToObj Sample.alice; _convertRequestArrToObj Sample.carol] /\
  exists w',
    exec _instantiateContractAsync w = (Ok tt, w') /\
    hasError (self w') = true /\
    isLoaded (self w') = true /\
    getValentineRequests (self w') = getValentineRequests (self wf).
Proof.
  intros w wf.
  assert (W : _wrappedWeb3 (self w) = true) by reflexivity.
  assert (F : faultAt w wf).
  { apply (@fault_in_try w "3" "DuplicateKey" wf); vm_compute; reflexivity. }
  split; [exact W |]. split; [exact F |]. split; [vm_compute; reflexivity |].
  exact (@error_keeps_loaded_entities w wf W F).
Defined.

Lemma getRequestIfExistsAsync_null_iff_placeholder_witness :
  let w := Sample.ready in
  let address := "0x00000000000000000000000000000000000000B2" in
  _wrappedWeb3 (self w) = true /\
  isAddress (node w) (JS.toLowerCase address) = true /\
  _valentineRegistry (self w) <> None /\
  getRequestByRequesterAddress (node w) address = Ok emptyRequestArr /\
  fst (exec (getRequestIfExistsAsync address) w) = Ok None.
Proof.
  intros w address.
  assert (W : _wrappedWeb3 (self w) = true) by (vm_compute; reflexivity).
  assert (V : isAddress (node w) (JS.toLowerCase address) = true) by (vm_compute; reflexivity).
  assert (R : _valentineRegistry (self w) <> None) by (vm_compute; discriminate).
  assert (L : getRequestByRequesterAddress (node w) address = Ok emptyRequestArr)
    by (vm_compute; reflexivity).
  repeat (split; [assumption |]).
  destruct (@getRequestIfExistsAsync_null_iff_placeholder w address emptyRequestArr W V R L)
    as (I & _).
  apply I. reflexivity.
Defined.

(* ------------------------------------------------------------------ *)
(** * The key object of [utils.keyWords] *)

Lemma lookup_assignKey (keywords : list (string * string)) (key value name : string) :
  utils.lookup (utils.assignKey keywords key value) name =
  if key =? name then Some value else utils.lookup keywords name.
Proof.
  induction keywords as [| [k v] rest IH]; simpl.
  - reflexivity.
  - destruct (String.eqb_spec k key) as [-> | Hk]; simpl.
    + destruct (key =? name); reflexivity.
    + rewrite IH. destruct (String.eqb_spec key name) as [-> | Hn].
      * destruct (String.eqb_spec k name) as [-> | _]; [contradiction | reflexivity].
      * reflexivity.
Qed.

Lemma lookup_keyWords_from (words : list string) :
  forall (acc : list (string * string)) (name : string),
    utils.lookup (fold_left (fun keywords word => utils.assignKey keywords word word) words acc)
      name =
    if existsb (fun word => word =? name) words then Some name
    else utils.lookup acc name.
Proof.
  induction words as [| word words IH]; intros acc name; simpl; [reflexivity |].
  rewrite IH, lookup_assignKey.
  destruct (existsb (fun w => w =? name) words).
  - rewrite orb_true_r. reflexivity.
  - rewrite orb_false_r. destruct (String.eqb_spec word name) as [-> | _]; reflexivity.
Qed.


Lemma keys_assignKey (keywords : list (string * string)) (key value : string) :
  map fst (utils.assignKey keywords key value) =
  if existsb (fun k => k =? key) (map fst keywords)
  then map fst keywords else map fst keywords ++ [key].
Proof.
  induction keywords as [| [k v] rest IH]; simpl; [reflexivity |].
  destruct (k =? key) eqn:E; simpl; [reflexivity |].
  rewrite IH. destruct (existsb _ _); reflexivity.
Qed.

Lemma pairs_assignKey (keywords : list (string * string)) (key : string) :
  Forall (fun p => snd p = fst p) keywords ->
  Forall (fun p => snd p = fst p) (utils.assignKey keywords key key).
Proof.
  induction 1 as [| [k v] rest H F IH]; simpl.
  - repeat constructor.
  - destruct (String.eqb_spec k key) as [-> | _]; constructor; auto.
Qed.

Lemma keyWords_from_keys (words : list string) :
  forall acc : list (string * string),
    NoDup (map fst acc) ->
    Forall (fun p => snd p = fst p) acc ->
    let result := fold_left (fun keywords word => utils.assignKey keywords word word) words acc in
    NoDup (map fst result) /\
    Forall (fun p => snd p = fst p) result /\
    (forall k, In k (map fst result) <-> In k (map fst acc) \/ In k words).
Proof.
  induction words as [| word words IH]; intros acc U P; simpl.
  - repeat split; auto. intros [H | []]; exact H.
  - assert (U1 : NoDup (map fst (utils.assignKey acc word word))).
    { rewrite keys_assignKey.
      destruct (existsb (fun k => k =? word) (map fst acc)) eqn:E; [exact U |].
      apply NoDup_app; [exact U | repeat constructor; intros [] |].
      intros a Ha [<- | []].
      assert (existsb (fun k => k =? word) (map fst acc) = true)
        by (apply existsb_exists; exists word; split; [exact Ha | apply String.eqb_refl]).
      congruence. }
    destruct (IH _ U1 (pairs_assignKey word P)) as (A & B & C).
    repeat split; auto.
    + intros H. apply C in H. rewrite keys_assignKey in H.
      destruct (existsb (fun k => k =? word) (map fst acc)); destruct H as [H | H]; auto.
      apply in_app_or in H. destruct H as [H | [<- | []]]; auto.
    + intros H. apply C. rewrite keys_assignKey.
      destruct (existsb (fun k => k =? word) (map fst acc)) eqn:E.
      * destruct H as [H | [<- | H]]; auto.
        left. apply existsb_exists in E. destruct E as (k & I0 & Q).
        apply String.eqb_eq in Q. subst. exact I0.
      * destruct H as [H | [<- | H]]; auto.
        -- left. apply in_or_app. left. exact H.
        -- left. apply in_or_app. right. left. reflexivity.
Qed.


(* ------------------------------------------------------------------ *)
(** * The demo generator, filters and errors over the life of the object *)

Lemma afterDraws_0 (w : World) : afterDraws 0 w = w.
Proof. destruct w; reflexivity. Qed.

Lemma afterDraws_S (n : nat) (w : World) :
  afterDraws n (afterDraws 1 w) = afterDraws (S n) w.
Proof.
  unfold afterDraws; simpl. f_equal.
  destruct (entropy w); [destruct n |]; reflexivity.
Qed.

Lemma afterDraws_add (n m : nat) (w : World) :
  afterDraws m (afterDraws n w) = afterDraws (n + m) w.
Proof.
  unfold afterDraws; simpl. f_equal. rewrite skipn_skipn. f_equal. lia.
Qed.

Lemma randomUpTo_spec (k : nat) (w : World) :
  0 < k ->
  exists i, randomUpTo k w = (Ok i, afterDraws 1 w) /\ 1 <= i <= k.
Proof.
  intros K. unfold randomUpTo, afterDraws.
  destruct w as [s n wt nf ent ib jr]; simpl.
  destruct ent as [| r rest]; simpl.
  - exists 1. split; [reflexivity | lia].
  - exists (S (r mod k)). split; [reflexivity |].
    pose proof (Nat.mod_upper_bound r k). lia.
Qed.

Lemma drawn_letter (i : nat) :
  1 <= i <= 51 ->
  exists c, JS.charAt letters i = String c EmptyString /\ In c drawableLetters.
Proof.
  intros [L U].
  destruct i as [| i]; [lia |].
  do 51 (destruct i as [| i];
         [eexists; split; [reflexivity | unfold drawableLetters; vm_compute; tauto] |]).
  lia.
Qed.

Lemma length_append (a b : string) :
  String.length (String.append a b) = String.length a + String.length b.
Proof. induction a as [| c a IH]; simpl; [reflexivity | rewrite IH; reflexivity]. Qed.

Lemma chars_append (a b : string) :
  list_ascii_of_string (String.append a b) =
  list_ascii_of_string a ++ list_ascii_of_string b.
Proof. induction a as [| c a IH]; simpl; [reflexivity | rewrite IH; reflexivity]. Qed.

Lemma fakeNameFrom_spec (len : nat) :
  forall (name : string) (w : World),
    exists suffix,
      fakeNameFrom name len w = (Ok (String.append name suffix), afterDraws len w) /\
      String.length suffix = len /\
      Forall (fun c => In c drawableLetters) (list_ascii_of_string suffix).
Proof.
  induction len as [| len IH]; intros name w.
  - exists EmptyString. simpl. rewrite afterDraws_0.
    replace (String.append name EmptyString) with name.
    + repeat split. constructor.
    + induction name as [| c name IHn]; simpl; [reflexivity | rewrite <- IHn; reflexivity].
  - cbn [fakeNameFrom]. rewrite sync_bind.
    destruct (@randomUpTo_spec 51 w) as (i & R & B); [lia |]. rewrite R.
    destruct (drawn_letter B) as (c & C & I0). rewrite C.
    destruct (IH (String.append name (String c EmptyString)) (afterDraws 1 w))
      as (suffix & E & L & F).
    exists (String c suffix). rewrite E, afterDraws_S. split; [| split].
    + f_equal. f_equal.
      clear. induction name as [| d name IHn]; simpl; [reflexivity | rewrite IHn; reflexivity].
    + simpl. rewrite L. reflexivity.
    + simpl. constructor; assumption.
Qed.

Lemma getFakeName_run (len : nat) (w : World) :
  exists name,
    getFakeName len w = (Ok name, afterDraws len w) /\
    String.length name = len /\
    Forall (fun c => In c drawableLetters) (list_ascii_of_string name).
Proof.
  unfold getFakeName.
  destruct (fakeNameFrom_spec len EmptyString w) as (suffix & E & L & F).
  exists suffix. simpl in E. repeat split; auto.
Qed.

(** X3. [getFakeName(len)] returns, after exactly [len] draws and with
    nothing else changed, a name of [len] characters, all of them letters
    of the alphabet string and none of them its first letter 'a' (the
    index drawn is never 0). *)
Theorem getFakeName_spec (len : nat) (w : World) :
  exists name,
    getFakeName len w = (Ok name, afterDraws len w) /\
    String.length name = len /\
    Forall (fun c => In c (list_ascii_of_string letters)) (list_ascii_of_string name) /\
    ~ In "a"%char (list_ascii_of_string name).
Proof.
  destruct (getFakeName_run len w) as (name & E & L & F).
  exists name. split; [exact E |]. split; [exact L |].
  rewrite Forall_forall in F. split.
  - apply Forall_forall. intros c I0. right. apply F in I0. exact I0.
  - intros I0. apply F in I0. unfold drawableLetters in I0. vm_compute in I0.
    repeat (destruct I0 as [I0 | I0]; [discriminate |]). exact I0.
Qed.

Lemma fakeAddressOf_checks (r letterIndex : nat) :
  1 <= r <= 39 -> 1 <= letterIndex <= 51 ->
  fakeAddressChecks (fakeAddressOf r letterIndex) = true.
Proof.
  intros R L.
  assert (A : forallb (fun r0 =>
                forallb (fun l0 => fakeAddressChecks (fakeAddressOf r0 l0)) (seq 1 51))
              (seq 1 39) = true) by (vm_compute; reflexivity).
  rewrite forallb_forall in A.
  specialize (A r). rewrite in_seq in A.
  assert (A1 := A ltac:(lia)). rewrite forallb_forall in A1.
  apply A1. rewrite in_seq. lia.
Qed.

Lemma differences_same (a : string) : differences a a = 0.
Proof.
  induction a as [| c a IH]; simpl; [reflexivity |].
  rewrite Ascii.eqb_refl. exact IH.
Qed.

Lemma getUniqueFakeAddress_run (w : World) :
  exists address,
    _getUniqueFakeAddress w = (Ok address, afterDraws 2 w) /\
    String.length address = 42 /\
    JS.substr address 0 3 = "0x0" /\
    differences address NULL_ADDRESS = 1.
Proof.
  unfold _getUniqueFakeAddress. rewrite sync_bind.
  destruct (@randomUpTo_spec 39 w) as (r & R & Br); [lia |]. rewrite R.
  rewrite sync_bind.
  destruct (@randomUpTo_spec 51 (afterDraws 1 w)) as (l & L & Bl); [lia |]. rewrite L.
  rewrite (afterDraws_S 1).
  exists (fakeAddressOf r l). split; [reflexivity |].
  pose proof (fakeAddressOf_checks Br Bl) as C.
  unfold fakeAddressChecks in C.
  apply andb_true_iff in C. destruct C as [C C3].
  apply andb_true_iff in C. destruct C as [C1 C2].
  apply Nat.eqb_eq in C1, C3. apply String.eqb_eq in C2.
  repeat split; auto.
Qed.

(** X4. [_getUniqueFakeAddress()] makes two draws and returns a string of
    42 characters that keeps the prefix "0x0" and differs from
    [NULL_ADDRESS] at exactly one position; it is never [NULL_ADDRESS]. *)
Theorem getUniqueFakeAddress_spec (w : World) :
  exists address,
    _getUniqueFakeAddress w = (Ok address, afterDraws 2 w) /\
    String.length address = 42 /\
    JS.substr address 0 3 = "0x0" /\
    differences address NULL_ADDRESS = 1 /\
    address <> NULL_ADDRESS.
Proof.
  destruct (getUniqueFakeAddress_run w) as (address & E & L & P & D).
  exists address. repeat (split; [assumption |]).
  intros Q. rewrite Q, differences_same in D. discriminate.
Qed.

Lemma createFakeRequest_spec (w : World) :
  exists r,
    isDemoRequest r /\
    _createFakeRequest w = requests_add r (afterDraws 44 w).
Proof.
  unfold _createFakeRequest.
  destruct (getFakeName_run 10 w) as (n1 & E1 & L1 & _).
  destruct (getFakeName_run 12 (afterDraws 10 w)) as (n2 & E2 & L2 & _).
  destruct (getFakeName_run 20 (afterDraws 12 (afterDraws 10 w))) as (n3 & E3 & L3 & _).
  destruct (getUniqueFakeAddress_run (afterDraws 20 (afterDraws 12 (afterDraws 10 w))))
    as (a & E4 & _ & _ & D).
  rewrite !afterDraws_add in *. cbn [Nat.add] in *.
  eexists. split; [| rewrite sync_bind, E1, sync_bind, E2, sync_bind, E3, sync_bind, E4;
                     reflexivity].
  repeat split; assumption.
Qed.

Lemma self_afterDraws (n : nat) (w : World) : self (afterDraws n w) = self w.
Proof. reflexivity. Qed.

Lemma set_valentineRequests_same (b : BlockchainState) :
  set_valentineRequests (_valentineRequests b) b = b.
Proof. destruct b; reflexivity. Qed.

Lemma set_valentineRequests_twice (s1 s2 : ValentineRequests.t) (b : BlockchainState) :
  set_valentineRequests s2 (set_valentineRequests s1 b) = set_valentineRequests s2 b.
Proof. reflexivity. Qed.

Lemma createFakeRequests_outcome (num : nat) :
  forall (w w' : World) (o : Outcome unit),
    _createFakeRequests num w = (o, w') ->
    exists fakes,
      self w' = set_valentineRequests (_valentineRequests (self w) ++ fakes) (self w) /\
      Forall isDemoRequest fakes /\
      match o with
      | Ok _ => length fakes = num
      | Err e => e = "DuplicateKey" /\ length fakes < num
      end /\
      watching w' = watching w /\ nextFilter w' = nextFilter w /\
      node w' = node w /\ inbox w' = inbox w.
Proof.
  induction num as [| num IH]; intros w w' o E.
  - simpl in E. injection E as <- <-. exists []. rewrite app_nil_r, set_valentineRequests_same.
    split; [reflexivity |]. split; [constructor |]. repeat split.
  - cbn [_createFakeRequests] in E. rewrite sync_bind in E.
    destruct (createFakeRequest_spec w) as (r & D & C). rewrite C, requests_add_eq in E.
    rewrite self_afterDraws in E.
    destruct (ValentineRequests.has (requesterAddress r) (_valentineRequests (self w))).
    + injection E as <- <-. exists []. rewrite app_nil_r, self_afterDraws,
        set_valentineRequests_same.
      split; [reflexivity |]. split; [constructor |].
      split; [split; [reflexivity | simpl; lia] |]. repeat split.
    + apply IH in E. destruct E as (fakes & S & F & O & W & N & Nd & Ib).
      exists (r :: fakes). cbn [touched self] in S. rewrite self_afterDraws in S.
      cbn [set_valentineRequests _valentineRequests] in S.
      split; [| split; [| split; [| repeat split; assumption]]].
      * rewrite S. rewrite <- app_assoc. reflexivity.
      * constructor; assumption.
      * destruct o as [[] | e]; simpl; [lia | destruct O; split; [assumption | lia]].
Qed.

(** X5. [_createFakeRequests(num)] only appends to the store, and what it
    appends are demo requests: names of 10, 12 and 20 letters, not
    accepted, addressed to [NULL_ADDRESS], from an address one character
    away from [NULL_ADDRESS]. When it returns it appended [num] of them;
    it can throw only the store's [DuplicateKey], having appended fewer.
    Filters, node and pending events are as before. *)
Theorem createFakeRequests_spec (num : nat) (w : World) :
  exists fakes,
    self (snd (_createFakeRequests num w)) =
      set_valentineRequests (_valentineRequests (self w) ++ fakes) (self w) /\
    Forall isDemoRequest fakes /\
    match fst (_createFakeRequests num w) with
    | Ok _ => length fakes = num
    | Err e => e = "DuplicateKey" /\ length fakes < num
    end /\
    watching (snd (_createFakeRequests num w)) = watching w /\
    nextFilter (snd (_createFakeRequests num w)) = nextFilter w /\
    node (snd (_createFakeRequests num w)) = node w /\
    inbox (snd (_createFakeRequests num w)) = inbox w.
Proof.
  destruct (_createFakeRequests num w) as [o w'] eqn:E.
  destruct (createFakeRequests_outcome num w E) as (fakes & S & F & O & W & N & Nd & Ib).
  exists fakes. cbn [fst snd]. repeat (split; [assumption |]). exact Ib.
Qed.

Lemma keepsOneSet_refl (w : World) : keepsOneSet w w.
Proof. intros H; exact H. Qed.

Lemma keepsOneSet_trans (a b c : World) : keepsOneSet a b -> keepsOneSet b c -> keepsOneSet a c.
Proof. unfold keepsOneSet. auto. Qed.

Lemma loadPhase_keepsOneSet (w w' : World) : loadPhase w w' -> keepsOneSet w w'.
Proof.
  intros P H. unfold oneSetOfFilters, fieldFilters in *.
  rewrite (lp_watching P), (lp_created P), (lp_accepted P). exact H.
Qed.

Lemma startWatching_oneSet (w : World) :
  _valentineRegistry (self w) <> None ->
  oneSetOfFilters w ->
  exists w',
    _startWatchingContractForEvents w = (Ok tt, w') /\
    watching w' =
      [(nextFilter w, LogValentineRequestCreated); (S (nextFilter w), LogRequestAccepted)] /\
    oneSetOfFilters w'.
Proof.
  intros Hreg One.
  destruct w as [[err loaded wrapped net registry store created accepted]
                   nd installed nf ent ib jr].
  unfold oneSetOfFilters, fieldFilters in *. cbn [self watching] in *.
  cbn [_valentineRegistry] in Hreg.
  cbn [_logValentineRequestCreated _logRequestAccepted] in One. subst installed.
  destruct registry as [registry |]; [clear Hreg | congruence].
  destruct created as [c |], accepted as [a |];
    match goal with |- exists w', ?m = _ /\ _ => exists (snd m) end;
    (split; [cbv; reflexivity |]); simpl;
    rewrite ?Nat.eqb_refl; simpl;
    try (destruct (a =? c)%nat; simpl; rewrite ?Nat.eqb_refl; simpl);
    split; reflexivity.
Qed.

Lemma exec_onPageLoadInit (w : World) :
  exec _onPageLoadInitFireAndForgetAsync w =
  if windowWeb3 (node w) then
    exec _instantiateContractAsync
      (record (EListen "networkConnection")
         (withSelf (set_wrappedWeb3 true) (suspend PageLoad w)))
  else
    (Ok tt,
     loadedAndNotified
       (withSelf (set_err (Some "NO_WEB3_INSTANCE_FOUND")) (suspend PageLoad w))).
Proof.
  destruct (windowWeb3 (node w)) eqn:H; [| apply exec_onPageLoadInit_noTransport, H].
  unfold _onPageLoadInitFireAndForgetAsync.
  rewrite exec_bind, (exec_await PageLoad). cbn [answer].
  rewrite exec_bind, exec_lift. cbv beta iota.
  rewrite node_suspend, H. cbn [negb].
  rewrite exec_bind, exec_lift. unfold assign at 1. cbv beta iota.
  rewrite exec_bind, exec_lift. unfold note at 1. cbv beta iota.
  reflexivity.
Qed.

Section Lifetime.

Variable R : World -> World -> Prop.
Hypothesis R_refl : forall w, R w w.
Hypothesis R_trans : forall a b c, R a b -> R b c -> R a c.
Hypothesis R_suspend : forall c w, R w (suspend c w).
Hypothesis R_record : forall e w, R w (record e w).
Hypothesis R_err : forall kind w, R w (withSelf (set_err (Some kind)) w).
Hypothesis R_isLoaded : forall v w, R w (withSelf (set_isLoaded v) w).
Hypothesis R_networkId : forall v w, R w (withSelf (set_networkId v) w).
Hypothesis R_wrappedWeb3 : forall v w, R w (withSelf (set_wrappedWeb3 v) w).
Hypothesis R_tryBlock : forall w, R w (snd (exec tryBlock w)).

Lemma lifetime_loadedAndNotified (w : World) : R w (loadedAndNotified w).
Proof.
  unfold loadedAndNotified. eapply R_trans; [apply (R_isLoaded true) | apply R_record].
Qed.

Lemma lifetime_enteringTry (networkId : string) (w : World) : R w (enteringTry networkId w).
Proof.
  unfold enteringTry.
  eapply R_trans; [apply R_suspend |].
  eapply R_trans; [apply (R_networkId (Some networkId)) | apply R_suspend].
Qed.

Lemma lifetime_caught (e : string) (w : World) : R w (caught e w).
Proof.
  unfold caught. destruct (JS.includes e _).
  - apply R_err.
  - eapply R_trans; [apply R_record | apply R_err].
Qed.

Lemma lifetime_instantiateContractAsync (w : World) :
  R w (snd (exec _instantiateContractAsync w)).
Proof.
  rewrite exec_instantiateContractAsync.
  destruct (_wrappedWeb3 (self w)); [| apply R_refl].
  destruct (getNetworkIdIfExists (node w)) as [[networkId |] | e]; cbn [snd].
  - destruct (contractAbstraction (node w)) as [[] | e]; cbn [snd];
      [| apply lifetime_enteringTry].
    pose proof (R_tryBlock (enteringTry networkId w)) as T.
    destruct (exec tryBlock (enteringTry networkId w)) as [[[] | e] w4]; cbn [snd] in *.
    + eapply R_trans; [apply lifetime_enteringTry |].
      eapply R_trans; [exact T | apply lifetime_loadedAndNotified].
    + eapply R_trans; [apply lifetime_enteringTry |].
      eapply R_trans; [exact T |].
      eapply R_trans; [apply lifetime_caught | apply lifetime_loadedAndNotified].
  - eapply R_trans; [apply R_suspend |].
    eapply R_trans; [apply (R_networkId None) |].
    eapply R_trans; [apply R_err | apply lifetime_loadedAndNotified].
  - apply R_suspend.
Qed.

Lemma lifetime_networkConnectionChangedAsync (networkIdIfExists : option string) (w : World) :
  R w (snd (exec (_networkConnectionChangedAsync networkIdIfExists) w)).
Proof.
  rewrite exec_networkConnectionChangedAsync.
  destruct networkIdIfExists as [token |]; cbn [snd].
  - destruct (JS.strictNeq (_networkId (self w)) (Some token)).
    + pose proof (lifetime_instantiateContractAsync
                    (withSelf (set_err (Some EmptyString)) w)) as I.
      destruct (exec _instantiateContractAsync _) as [[[] | e] w1]; cbn [snd] in *.
      * eapply R_trans; [apply R_err |]. eapply R_trans; [exact I |].
        eapply R_trans; [apply R_networkId | apply R_record].
      * eapply R_trans; [apply R_err | exact I].
    + cbn [snd]. eapply R_trans; [apply R_networkId | apply R_record].
  - eapply R_trans; [apply R_err |].
    eapply R_trans; [apply R_networkId | apply R_record].
Qed.

Lemma lifetime_onPageLoadInit (w : World) :
  R w (snd (exec _onPageLoadInitFireAndForgetAsync w)).
Proof.
  rewrite exec_onPageLoadInit. destruct (windowWeb3 (node w)).
  - eapply R_trans; [apply R_suspend |].
    eapply R_trans; [apply (R_wrappedWeb3 true) |].
    eapply R_trans; [apply R_record | apply lifetime_instantiateContractAsync].
  - cbn [snd]. eapply R_trans; [apply R_suspend |].
    eapply R_trans; [apply R_err | apply lifetime_loadedAndNotified].
Qed.

Lemma lifetime_deliverAll (batch : list Delivery) (w : World) :
  (forall d w0, R w0 (deliver d w0)) -> R w (deliverAll batch w).
Proof.
  intros D. unfold deliverAll. revert w.
  induction batch as [| d batch IH]; intros w; simpl; [apply R_refl |].
  eapply R_trans; [apply D | apply IH].
Qed.

End Lifetime.

Lemma keepsOneSet_record (e : Effect) (w : World) : keepsOneSet w (record e w).
Proof. intros H. exact H. Qed.

Lemma keepsOneSet_assign (f : BlockchainState -> BlockchainState) (w : World) :
  _logValentineRequestCreated (f (self w)) = _logValentineRequestCreated (self w) ->
  _logRequestAccepted (f (self w)) = _logRequestAccepted (self w) ->
  keepsOneSet w (withSelf f w).
Proof. intros C A. apply loadPhase_keepsOneSet, loadPhase_assign; assumption. Qed.

Lemma keepsOneSet_tryBlock (w : World) : keepsOneSet w (snd (exec tryBlock w)).
Proof.
  pose proof (tryBlock_phases w) as T.
  destruct (exec tryBlock w) as [[[] | e] w4]; cbn [snd].
  - destruct T as (w3 & seg & E4 & P3 & _ & _ & _ & R3 & _).
    intros One. apply (loadPhase_keepsOneSet P3) in One.
    destruct (startWatching_oneSet R3 One) as (w4' & E4' & _ & One4).
    congruence.
  - apply loadPhase_keepsOneSet, T.
Qed.

Lemma keepsErrorSet_refl (w : World) : keepsErrorSet w w.
Proof. intros H; exact H. Qed.

Lemma keepsErrorSet_trans (a b c : World) :
  keepsErrorSet a b -> keepsErrorSet b c -> keepsErrorSet a c.
Proof. unfold keepsErrorSet. auto. Qed.

Lemma keepsErrorSet_same (w w' : World) :
  _err (self w') = _err (self w) -> keepsErrorSet w w'.
Proof. intros E H. rewrite E. exact H. Qed.

Lemma tryBlock_err (w : World) : _err (self (snd (exec tryBlock w))) = _err (self w).
Proof.
  rewrite exec_tryBlock.
  destruct (deployed (node w)) as [registry | e]; cbn [snd]; [| apply err_suspend].
  set (w1 := withSelf (set_valentineRegistry (Some registry)) (suspend Deployed w)).
  assert (E1 : _err (self w1) = _err (self w)) by (subst w1; simpl; apply err_suspend).
  pose proof (scalarsKept_getExistingRequestsAsync w1) as K12.
  destruct (exec _getExistingRequestsAsync w1) as [[[] | e] w2]; cbn [snd] in *;
    [| rewrite (sk_err K12); exact E1].
  pose proof (scalarsKept_createFakeRequests 10 w2) as K23.
  destruct (_createFakeRequests 10 w2) as [[[] | e] w3]; cbn [snd] in *;
    [| rewrite (sk_err K23), (sk_err K12); exact E1].
  assert (R3 : _valentineRegistry (self w3) <> None).
  { rewrite (sk_registry K23), (sk_registry K12). subst w1. simpl. discriminate. }
  destruct (startWatching_result w3 R3) as (w4 & E4 & _ & _ & _ & _ & _ & _ & _ & K34).
  rewrite E4. cbn [snd]. rewrite (sk_err K34), (sk_err K23), (sk_err K12). exact E1.
Qed.

Lemma keepsUniqueKeys_refl (w : World) : keepsUniqueKeys w w.
Proof. intros H; exact H. Qed.

Lemma keepsUniqueKeys_trans (a b c : World) :
  keepsUniqueKeys a b -> keepsUniqueKeys b c -> keepsUniqueKeys a c.
Proof. unfold keepsUniqueKeys. auto. Qed.

Lemma keepsUniqueKeys_same (w w' : World) :
  _valentineRequests (self w') = _valentineRequests (self w) -> keepsUniqueKeys w w'.
Proof. intros E H. rewrite E. exact H. Qed.

Lemma keepsUniqueKeys_suspend (c : Call) (w : World) : keepsUniqueKeys w (suspend c w).
Proof.
  intros U. unfold suspend. apply uniqueKeys_deliverAll. exact U.
Qed.

Lemma keepsUniqueKeys_requests_add (request : Request) :
  SyncKeeps keepsUniqueKeys (requests_add request).
Proof.
  intros w U. rewrite requests_add_eq.
  destruct (ValentineRequests.has _ _) eqn:H; cbn [snd]; [exact U |].
  cbn [touched self set_valentineRequests _valentineRequests].
  apply uniqueKeys_add; assumption.
Qed.

Lemma keepsUniqueKeys_clearAll : SyncKeeps keepsUniqueKeys requests_clearAll.
Proof.
  intros w _. rewrite requests_clearAll_eq. cbn. constructor.
Qed.

Lemma keepsUniqueKeys_loadFrom (remaining : nat) :
  forall i, AsyncKeeps keepsUniqueKeys (loadFrom i remaining).
Proof.
  induction remaining as [| remaining IH]; intros i.
  - apply (AsyncKeeps_ret keepsUniqueKeys keepsUniqueKeys_refl).
  - rewrite loadFrom_S.
    apply (AsyncKeeps_bind keepsUniqueKeys_trans).
    + apply (AsyncKeeps_registryCall keepsUniqueKeys keepsUniqueKeys_refl
               keepsUniqueKeys_trans keepsUniqueKeys_suspend (GetRequestByIndex i)).
    + intros requestArr. apply (AsyncKeeps_bind keepsUniqueKeys_trans).
      * apply AsyncKeeps_lift, keepsUniqueKeys_requests_add.
      * intros _. apply IH.
Qed.

Lemma keepsUniqueKeys_getExistingRequestsAsync :
  AsyncKeeps keepsUniqueKeys _getExistingRequestsAsync.
Proof.
  unfold _getExistingRequestsAsync.
  apply (AsyncKeeps_bind keepsUniqueKeys_trans).
  - apply AsyncKeeps_lift, keepsUniqueKeys_clearAll.
  - intros _. apply (AsyncKeeps_bind keepsUniqueKeys_trans).
    + apply (AsyncKeeps_registryCall keepsUniqueKeys keepsUniqueKeys_refl
               keepsUniqueKeys_trans keepsUniqueKeys_suspend NumRequesters).
    + intros n. apply keepsUniqueKeys_loadFrom.
Qed.

Lemma keepsUniqueKeys_createFakeRequests (num : nat) :
  SyncKeeps keepsUniqueKeys (_createFakeRequests num).
Proof.
  induction num as [| num IH].
  - apply (SyncKeeps_ret keepsUniqueKeys keepsUniqueKeys_refl).
  - cbn [_createFakeRequests]. apply (SyncKeeps_bind keepsUniqueKeys_trans).
    + intros w. destruct (createFakeRequest_spec w) as (r & _ & C). rewrite C.
      intros U. apply keepsUniqueKeys_requests_add. exact U.
    + intros _. exact IH.
Qed.

Lemma startWatching_store (w : World) :
  _valentineRequests (self (snd (_startWatchingContractForEvents w))) =
  _valentineRequests (self w).
Proof.
  destruct w as [[err loaded wrapped net registry store created accepted]
                   nd installed nf ent ib jr].
  destruct registry, created, accepted; reflexivity.
Qed.

Lemma keepsUniqueKeys_tryBlock (w : World) : keepsUniqueKeys w (snd (exec tryBlock w)).
Proof.
  rewrite exec_tryBlock.
  destruct (deployed (node w)) as [registry | e]; cbn [snd];
    [| apply keepsUniqueKeys_suspend].
  set (w1 := withSelf (set_valentineRegistry (Some registry)) (suspend Deployed w)).
  assert (K01 : keepsUniqueKeys w w1) by (subst w1; apply keepsUniqueKeys_suspend).
  pose proof (keepsUniqueKeys_getExistingRequestsAsync w1) as K12.
  destruct (exec _getExistingRequestsAsync w1) as [[[] | e] w2]; cbn [snd] in *;
    [| eapply keepsUniqueKeys_trans; eassumption].
  pose proof (keepsUniqueKeys_createFakeRequests 10 w2) as K23.
  destruct (_createFakeRequests 10 w2) as [[[] | e] w3]; cbn [snd] in *;
    [| eapply keepsUniqueKeys_trans; [eassumption | eapply keepsUniqueKeys_trans; eassumption]].
  eapply keepsUniqueKeys_trans; [exact K01 |].
  eapply keepsUniqueKeys_trans; [exact K12 |].
  eapply keepsUniqueKeys_trans; [exact K23 |].
  apply keepsUniqueKeys_same, startWatching_store.
Qed.

(** X6. When the filters installed on the node are the ones held in the
    two fields, [_startWatchingContractForEvents()] leaves exactly two
    filters installed, the two it creates, held in the two fields; an
    event pushed afterwards to a filter installed before changes
    nothing. *)
Theorem restart_replaces_filters (w : World) :
  _valentineRegistry (self w) <> None ->
  oneSetOfFilters w ->
  filtersNumbered w ->
  exists w',
    _startWatchingContractForEvents w = (Ok tt, w') /\
    watching w' =
      [(nextFilter w, LogValentineRequestCreated); (S (nextFilter w), LogRequestAccepted)] /\
    oneSetOfFilters w' /\
    filtersNumbered w' /\
    forall d : Delivery, kindOf (target d) (watching w) <> None -> deliver d w' = w'.
Proof.
  intros Reg One Num.
  destruct (startWatching_oneSet Reg One) as (w' & E & W & One').
  destruct (startWatching_result w Reg) as (w'' & E' & _ & _ & _ & _ & _ & NF & _).
  assert (w'' = w') by congruence. subst w''.
  exists w'. split; [exact E |]. split; [exact W |]. split; [exact One' |]. split.
  - intros f H. rewrite NF. rewrite W in H. cbn [kindOf] in H. revert H.
    destruct (Nat.eqb_spec (nextFilter w) f); [lia |].
    destruct (Nat.eqb_spec (S (nextFilter w)) f);
      [lia | intros H; exfalso; apply H; reflexivity].
  - intros d H. apply Num in H. unfold deliver. rewrite W. cbn [kindOf].
    destruct (Nat.eqb_spec (nextFilter w) (target d)); [lia |].
    destruct (Nat.eqb_spec (S (nextFilter w)) (target d)); [lia | reflexivity].
Qed.

(** X7. "Only ever listening to one set of events" is kept by every entry
    point: when the filters installed on the node are the ones held in
    the two fields, the same holds after the page-load boot, after a
    network-change notification with any token, and after any batch of
    events. *)
Theorem one_set_of_filters_kept (w : World) :
  oneSetOfFilters w ->
  oneSetOfFilters (snd (exec _onPageLoadInitFireAndForgetAsync w)) /\
  (forall token : option string,
      oneSetOfFilters (snd (exec (_networkConnectionChangedAsync token) w))) /\
  (forall batch : list Delivery, oneSetOfFilters (deliverAll batch w)).
Proof.
  intros One.
  assert (A : forall f w0,
             _logValentineRequestCreated (f (self w0)) = _logValentineRequestCreated (self w0) ->
             _logRequestAccepted (f (self w0)) = _logRequestAccepted (self w0) ->
             keepsOneSet w0 (withSelf f w0)) by (intros; apply keepsOneSet_assign; assumption).
  split; [| split].
  - apply (@lifetime_onPageLoadInit keepsOneSet keepsOneSet_refl keepsOneSet_trans
             (fun c w0 => loadPhase_keepsOneSet (loadPhase_suspend c w0))
             keepsOneSet_record
             (fun kind w0 => A (set_err (Some kind)) w0 eq_refl eq_refl)
             (fun v w0 => A (set_isLoaded v) w0 eq_refl eq_refl)
             (fun v w0 => A (set_networkId v) w0 eq_refl eq_refl)
             (fun v w0 => A (set_wrappedWeb3 v) w0 eq_refl eq_refl)
             keepsOneSet_tryBlock w One).
  - intros token.
    apply (@lifetime_networkConnectionChangedAsync keepsOneSet keepsOneSet_refl keepsOneSet_trans
             (fun c w0 => loadPhase_keepsOneSet (loadPhase_suspend c w0))
             keepsOneSet_record
             (fun kind w0 => A (set_err (Some kind)) w0 eq_refl eq_refl)
             (fun v w0 => A (set_isLoaded v) w0 eq_refl eq_refl)
             (fun v w0 => A (set_networkId v) w0 eq_refl eq_refl)
             keepsOneSet_tryBlock token w One).
  - intros batch. destruct (deliverAll_shape batch w) as (st & seg & H & _).
    rewrite H. exact One.
Qed.

(** X8. After a notification with a token, not null, that differs from the
    remembered one, [hasError()] is true whatever the reload did:
    the error is assigned the empty string first and nothing assigns
    [null] to it afterwards. *)
Theorem reload_always_reports_error (w : World) (token : string) :
  _networkId (self w) <> Some token ->
  hasError (self (snd (exec (_networkConnectionChangedAsync (Some token)) w))) = true.
Proof.
  intros N.
  assert (E : _err (self (snd (exec (_networkConnectionChangedAsync (Some token)) w))) <> None).
  { rewrite exec_networkConnectionChangedAsync, (strictNeq_true N).
    assert (S : forall f w0, _err (f (self w0)) = _err (self w0) ->
                             keepsErrorSet w0 (withSelf f w0))
      by (intros f w0 H; apply keepsErrorSet_same; exact H).
    pose proof (@lifetime_instantiateContractAsync keepsErrorSet keepsErrorSet_refl keepsErrorSet_trans
                  (fun c w0 => @keepsErrorSet_same w0 (suspend c w0) (err_suspend c w0))
                  (fun e w0 => @keepsErrorSet_same w0 (record e w0) eq_refl)
                  (fun kind w0 (_ : _err (self w0) <> None) =>
                     (fun H : _err (self (withSelf (set_err (Some kind)) w0)) = None =>
                        ltac:(discriminate H)))
                  (fun v w0 => S (set_isLoaded v) w0 eq_refl)
                  (fun v w0 => S (set_networkId v) w0 eq_refl)
                  (fun w0 => @keepsErrorSet_same w0 _ (tryBlock_err w0))
                  (withSelf (set_err (Some EmptyString)) w)) as I.
    assert (I0 : _err (self (withSelf (set_err (Some EmptyString)) w)) <> None)
      by (simpl; discriminate).
    apply I in I0.
    destruct (exec _instantiateContractAsync (withSelf (set_err (Some EmptyString)) w))
      as [[[] | e] w1]; cbn [snd] in *; exact I0. }
  unfold hasError. destruct (_err _); [reflexivity | congruence].
Qed.

(** X9. The requester addresses of the store stay pairwise distinct over
    the page-load boot, over every network-change notification and over
    [_instantiateContractAsync()], however the attempt ended: an add that
    would repeat an address throws before it changes the store. *)
Theorem unique_keys_kept (w : World) :
  ValentineRequests.uniqueKeys (_valentineRequests (self w)) ->
  ValentineRequests.uniqueKeys
    (_valentineRequests (self (snd (exec _onPageLoadInitFireAndForgetAsync w)))) /\
  (forall token : option string,
      ValentineRequests.uniqueKeys
        (_valentineRequests (self (snd (exec (_networkConnectionChangedAsync token) w))))) /\
  NoDup (map requesterAddress
           (getValentineRequests (self (snd (exec _instantiateContractAsync w))))).
Proof.
  intros U.
  assert (S : forall f w0, _valentineRequests (f (self w0)) = _valentineRequests (self w0) ->
                           keepsUniqueKeys w0 (withSelf f w0))
    by (intros f w0 H; apply keepsUniqueKeys_same; exact H).
  assert (Rec : forall e w0, keepsUniqueKeys w0 (record e w0))
    by (intros e w0; apply keepsUniqueKeys_same; reflexivity).
  split; [| split].
  - apply (@lifetime_onPageLoadInit keepsUniqueKeys keepsUniqueKeys_refl keepsUniqueKeys_trans
             keepsUniqueKeys_suspend Rec
             (fun kind w0 => S (set_err (Some kind)) w0 eq_refl)
             (fun v w0 => S (set_isLoaded v) w0 eq_refl)
             (fun v w0 => S (set_networkId v) w0 eq_refl)
             (fun v w0 => S (set_wrappedWeb3 v) w0 eq_refl)
             keepsUniqueKeys_tryBlock w U).
  - intros token.
    apply (@lifetime_networkConnectionChangedAsync keepsUniqueKeys keepsUniqueKeys_refl keepsUniqueKeys_trans
             keepsUniqueKeys_suspend Rec
             (fun kind w0 => S (set_err (Some kind)) w0 eq_refl)
             (fun v w0 => S (set_isLoaded v) w0 eq_refl)
             (fun v w0 => S (set_networkId v) w0 eq_refl)
             keepsUniqueKeys_tryBlock token w U).
  - apply (@lifetime_instantiateContractAsync keepsUniqueKeys keepsUniqueKeys_refl keepsUniqueKeys_trans
             keepsUniqueKeys_suspend Rec
             (fun kind w0 => S (set_err (Some kind)) w0 eq_refl)
             (fun v w0 => S (set_isLoaded v) w0 eq_refl)
             (fun v w0 => S (set_networkId v) w0 eq_refl)
             keepsUniqueKeys_tryBlock w U).
Qed.

(* ------------------------------------------------------------------ *)
(** * Boots: without a transport, the bulk load, the first boot *)

(** X10. On a page without [window.web3] the boot ends loaded with the
    error [NO_WEB3_INSTANCE_FOUND], registers no network-change
    listener, and leaves the wrapper [null]: afterwards
    [isValidAddress] and [getRequestIfExistsAsync] throw a [TypeError]
    for every address. *)
Theorem no_transport_disables_lookups (w : World) :
  windowWeb3 (node w) = false ->
  _wrappedWeb3 (self w) = false ->
  exists w',
    exec _onPageLoadInitFireAndForgetAsync w = (Ok tt, w') /\
    getError (self w') = Some "NO_WEB3_INSTANCE_FOUND" /\
    isLoaded (self w') = true /\
    ~ In (EListen "networkConnection") (skipn (length (journal w)) (journal w')) /\
    forall address : string,
      fst (isValidAddress address w') = Err "TypeError: Cannot read property 'call' of null" /\
      fst (exec (getRequestIfExistsAsync address) w') =
        Err "TypeError: Cannot read property 'call' of null".
Proof.
  intros H W.
  rewrite (exec_onPageLoadInit_noTransport w H).
  eexists. split; [reflexivity |].
  split; [reflexivity |]. split; [reflexivity |].
  destruct (suspend_shape PageLoad w) as (st & seg & S & F).
  split.
  - unfold loadedAndNotified. cbn [journal record withSelf]. rewrite S. cbn [journal].
    rewrite <- app_assoc, skipn_app, skipn_all, Nat.sub_diag. cbn [skipn app].
    intros [I0 | I0]; [discriminate |].
    apply in_app_or in I0. destruct I0 as [I0 | [I0 | []]]; [| discriminate].
    rewrite Forall_forall in F. apply F in I0. exact I0.
  - intros address.
    assert (W' : _wrappedWeb3
                   (self (loadedAndNotified
                            (withSelf (set_err (Some "NO_WEB3_INSTANCE_FOUND"))
                               (suspend PageLoad w)))) = false).
    { cbn [loadedAndNotified record withSelf self set_isLoaded set_err _wrappedWeb3].
      rewrite wrappedWeb3_suspend. exact W. }
    assert (V : forall w0, _wrappedWeb3 (self w0) = false ->
                isValidAddress address w0 =
                  (Err "TypeError: Cannot read property 'call' of null", w0)).
    { intros w0 W0. unfold isValidAddress. rewrite sync_bind. unfold read. rewrite W0.
      reflexivity. }
    split.
    + rewrite (V _ W'). reflexivity.
    + unfold getRequestIfExistsAsync. rewrite exec_bind, exec_lift, (V _ W'). reflexivity.
Qed.

Lemma loadFrom_quiet_any (remaining : nat) :
  forall (i : nat) (w w' : World) (o : Outcome unit),
    quiet w ->
    exec (loadFrom i remaining) w = (o, w') ->
    exists arrs,
      length arrs <= remaining /\
      map (getRequestByIndex (node w)) (seq i (length arrs)) = map Ok arrs /\
      _valentineRequests (self w') =
        _valentineRequests (self w) ++ map _convertRequestArrToObj arrs /\
      (o = Ok tt -> length arrs = remaining) /\
      (ValentineRequests.uniqueKeys (_valentineRequests (self w)) ->
       ValentineRequests.uniqueKeys (_valentineRequests (self w'))).
Proof.
  induction remaining as [| remaining IH]; intros i w w' o Q E.
  - simpl in E. injection E as <- <-. exists []. simpl. rewrite app_nil_r. auto.
  - rewrite loadFrom_S, exec_bind, (exec_registryCall (GetRequestByIndex i)) in E.
    destruct (_valentineRegistry (self w)).
    2:{ injection E as <- <-. exists []. simpl. rewrite app_nil_r.
        repeat split; auto; try lia; discriminate. }
    cbn [answer] in E. rewrite (quiet_suspend _ Q) in E.
    destruct (getRequestByIndex (node w) i) as [requestArr | e] eqn:G.
    2:{ injection E as <- <-. exists []. simpl. rewrite app_nil_r.
        repeat split; auto; try lia; discriminate. }
    rewrite exec_bind, exec_lift, requests_add_eq in E. cbn [resumed self] in E.
    destruct (ValentineRequests.has _ _) eqn:H.
    { injection E as <- <-. exists []. simpl. rewrite app_nil_r.
      repeat split; auto; try lia; discriminate. }
    apply IH in E; [| apply quiet_touched, quiet_resumed, Q].
    destruct E as (arrs & Len & M & S & O & U).
    exists (requestArr :: arrs). cbn [length seq map].
    split; [lia |]. split; [rewrite G; f_equal; exact M |]. split; [| split].
    + rewrite S. cbn [touched self set_valentineRequests _valentineRequests].
      rewrite <- app_assoc. reflexivity.
    + intros Ok0. rewrite (O Ok0). reflexivity.
    + intros U0. apply U. cbn [touched self set_valentineRequests _valentineRequests].
      apply uniqueKeys_add; assumption.
Qed.

(** X11. However [_getExistingRequestsAsync()] ends, with no callback of an
    earlier subscription running meanwhile, the store holds the decoded
    replies of the ledger for the indices from 0 up to some bound, in
    index order, with distinct requester addresses; the bound is the
    reported count when the load returns and never exceeds it. *)
Theorem bulk_load_leaves_a_prefix (w w' : World) (o : Outcome unit) :
  quiet w ->
  exec _getExistingRequestsAsync w = (o, w') ->
  exists arrs,
    getValentineRequests (self w') = map _convertRequestArrToObj arrs /\
    map (getRequestByIndex (node w)) (seq 0 (length arrs)) = map Ok arrs /\
    NoDup (map requesterAddress (getValentineRequests (self w'))) /\
    (o = Ok tt -> numRequesters (node w) = Ok (length arrs)) /\
    (forall count, numRequesters (node w) = Ok count -> length arrs <= count).
Proof.
  intros Q E. unfold _getExistingRequestsAsync in E.
  rewrite exec_bind, exec_lift, requests_clearAll_eq in E. cbv beta iota in E.
  set (w1 := touched [] [EClearAll; EEmit (Some "valentineRequestsUpdated")] w) in E.
  assert (Q1 : quiet w1) by (apply quiet_touched, Q).
  rewrite exec_bind, (exec_registryCall NumRequesters) in E.
  assert (Empty : forall w0, _valentineRequests (self w0) = [] -> (o, w') = (o, w0) ->
                  (o = Ok tt -> False) ->
                  exists arrs,
                    getValentineRequests (self w') = map _convertRequestArrToObj arrs /\
                    map (getRequestByIndex (node w)) (seq 0 (length arrs)) = map Ok arrs /\
                    NoDup (map requesterAddress (getValentineRequests (self w'))) /\
                    (o = Ok tt -> numRequesters (node w) = Ok (length arrs)) /\
                    (forall count, numRequesters (node w) = Ok count -> length arrs <= count)).
  { intros w0 S0 E0 N0. injection E0 as ->. exists [].
    unfold getValentineRequests, ValentineRequests.getAll. rewrite S0. simpl.
    repeat split; auto; try constructor; try (intros; lia). intros O0. destruct (N0 O0). }
  destruct (_valentineRegistry (self w1)).
  2:{ injection E as <- <-. apply (Empty w1); [reflexivity | reflexivity | discriminate]. }
  cbn [answer] in E. change (node w1) with (node w) in E.
  rewrite (quiet_suspend _ Q1) in E.
  destruct (numRequesters (node w)) as [count | e] eqn:NR.
  2:{ injection E as <- <-.
      apply (Empty (resumed NumRequesters w1)); [reflexivity | reflexivity | discriminate]. }
  apply loadFrom_quiet_any in E; [| apply quiet_resumed, Q1].
  destruct E as (arrs & Len & M & S & O & U).
  exists arrs. unfold getValentineRequests, ValentineRequests.getAll.
  split; [exact S |]. split; [exact M |]. split; [apply U; constructor |]. split.
  - intros O0. rewrite (O O0). reflexivity.
  - intros count0 C0. injection C0 as <-. exact Len.
Qed.

Lemma quiet_of_no_filters (w : World) : watching w = [] -> quiet w.
Proof.
  intros H. unfold quiet. rewrite H.
  apply Forall_forall. intros batch _. apply Forall_forall. intros d _. reflexivity.
Qed.

Lemma createFakeRequests_run (num : nat) (w w' : World) :
  _createFakeRequests num w = (Ok tt, w') ->
  exists fakes,
    _valentineRequests (self w') = _valentineRequests (self w) ++ fakes /\
    length fakes = num /\
    Forall isDemoRequest fakes.
Proof.
  intros E. destruct (createFakeRequests_outcome num w E) as (fakes & S & F & L & _).
  exists fakes. rewrite S. repeat split; assumption.
Qed.

(** X12. A first boot that ends with no error ran on a node that answered
    a network id, a deployed registry and every indexed request; the
    store then holds the decoded ledger in index order followed by ten
    demo requests, the object is loaded and remembers the network id and
    the registry, and exactly the two new filters are installed. *)
Theorem first_boot_result (w w' : World) :
  self w = constructed ->
  watching w = [] ->
  exec _onPageLoadInitFireAndForgetAsync w = (Ok tt, w') ->
  hasError (self w') = false ->
  exists networkId registry arrs fakes,
    getNetworkIdIfExists (node w) = Ok (Some networkId) /\
    deployed (node w) = Ok registry /\
    numRequesters (node w) = Ok (length arrs) /\
    map (getRequestByIndex (node w)) (seq 0 (length arrs)) = map Ok arrs /\
    getValentineRequests (self w') = map _convertRequestArrToObj arrs ++ fakes /\
    length fakes = 10 /\
    Forall isDemoRequest fakes /\
    isLoaded (self w') = true /\
    _networkId (self w') = Some networkId /\
    _valentineRegistry (self w') = Some registry /\
    watching w' =
      [(nextFilter w, LogValentineRequestCreated); (S (nextFilter w), LogRequestAccepted)].
Proof.
  intros Self NoFilters E NoErr.
  rewrite exec_onPageLoadInit in E.
  destruct (windowWeb3 (node w)).
  2:{ injection E as <-. discriminate NoErr. }
  set (w1 := record (EListen "networkConnection")
               (withSelf (set_wrappedWeb3 true) (suspend PageLoad w))) in E.
  assert (N1 : node w1 = node w) by (subst w1; simpl; apply node_suspend).
  assert (W1 : watching w1 = []) by (subst w1; simpl; rewrite watching_suspend; exact NoFilters).
  assert (F1 : nextFilter w1 = nextFilter w) by (subst w1; simpl; apply nextFilter_suspend).
  assert (S1 : fieldFilters (self w1) = []).
  { subst w1. unfold fieldFilters. cbn [record withSelf self set_wrappedWeb3
      _logValentineRequestCreated _logRequestAccepted].
    destruct (suspend_shape PageLoad w) as (st & seg & Sh & _). rewrite Sh, Self. reflexivity. }
  rewrite exec_instantiateContractAsync in E.
  assert (Wr : _wrappedWeb3 (self w1) = true) by reflexivity.
  rewrite Wr, N1 in E.
  destruct (getNetworkIdIfExists (node w)) as [[networkId |] | e]; [| | discriminate E].
  2:{ injection E as <-. discriminate NoErr. }
  destruct (contractAbstraction (node w)) as [[] | e]; [| discriminate E].
  set (w2 := enteringTry networkId w1) in E.
  pose proof (loadPhase_enteringTry networkId w1) as P12. fold w2 in P12.
  assert (Net2 : _networkId (self w2) = Some networkId).
  { subst w2. unfold enteringTry.
    destruct (suspend_shape ContractAbstraction
                (withSelf (set_networkId (Some networkId)) (suspend GetNetworkIdIfExists w1)))
      as (st & seg & Sh & _). rewrite Sh. reflexivity. }
  rewrite exec_tryBlock in E. rewrite (lp_node P12), N1 in E.
  destruct (deployed (node w)) as [registry | e].
  2:{ injection E as <-. rewrite hasError_loadedAndNotified, hasError_caught in NoErr.
      discriminate. }
  set (w3 := withSelf (set_valentineRegistry (Some registry)) (suspend Deployed w2)) in E.
  assert (P23 : loadPhase w2 w3).
  { subst w3. eapply loadPhase_trans; [apply loadPhase_suspend |].
    apply (loadPhase_assign (set_valentineRegistry (Some registry))); reflexivity. }
  assert (K23 : _networkId (self w3) = Some networkId /\
                _valentineRegistry (self w3) = Some registry).
  { subst w3. destruct (suspend_shape Deployed w2) as (st & seg & Sh & _). rewrite Sh.
    split; [exact Net2 | reflexivity]. }
  assert (Q3 : quiet w3).
  { apply quiet_of_no_filters. rewrite (lp_watching P23), (lp_watching P12). exact W1. }
  pose proof (loadPhase_getExistingRequestsAsync w3) as P35.
  pose proof (scalarsKept_getExistingRequestsAsync w3) as K35.
  destruct (exec _getExistingRequestsAsync w3) as [[[] | e] w5] eqn:E5.
  2:{ injection E as <-. rewrite hasError_loadedAndNotified, hasError_caught in NoErr.
      discriminate. }
  cbn [snd] in P35, K35.
  unfold _getExistingRequestsAsync in E5.
  rewrite exec_bind, exec_lift, requests_clearAll_eq in E5. cbv beta iota in E5.
  set (w3c := touched [] [EClearAll; EEmit (Some "valentineRequestsUpdated")] w3) in E5.
  assert (Q3c : quiet w3c) by (apply quiet_touched, Q3).
  rewrite exec_bind, (exec_registryCall NumRequesters) in E5.
  destruct (_valentineRegistry (self w3c)); [| discriminate E5].
  cbn [answer] in E5. change (node w3c) with (node w3) in E5.
  rewrite (quiet_suspend _ Q3c), (lp_node P23), (lp_node P12), N1 in E5.
  destruct (numRequesters (node w)) as [count | e]; [| discriminate E5].
  apply loadFrom_quiet_any in E5; [| apply quiet_resumed, Q3c].
  destruct E5 as (arrs & _ & M & S5 & O5 & _).
  specialize (O5 eq_refl). subst count.
  cbn [resumed node self] in M, S5.
  change (node w3c) with (node w3) in M. rewrite (lp_node P23), (lp_node P12), N1 in M.
  change (_valentineRequests (self w3c)) with (@nil Request) in S5. cbn [app] in S5.
  pose proof (loadPhase_createFakeRequests 10 w5) as P56.
  pose proof (scalarsKept_createFakeRequests 10 w5) as K56.
  destruct (_createFakeRequests 10 w5) as [[[] | e] w6] eqn:E6.
  2:{ injection E as <-. rewrite hasError_loadedAndNotified, hasError_caught in NoErr.
      discriminate. }
  cbn [snd] in P56, K56.
  destruct (createFakeRequests_run _ _ E6) as (fakes & S6 & L6 & D6).
  assert (P16 : loadPhase w1 w6).
  { eapply loadPhase_trans; [exact P12 |]. eapply loadPhase_trans; [exact P23 |].
    eapply loadPhase_trans; [exact P35 | exact P56]. }
  assert (One6 : oneSetOfFilters w6).
  { apply (loadPhase_keepsOneSet P16). unfold oneSetOfFilters. rewrite W1, S1. reflexivity. }
  assert (R6 : _valentineRegistry (self w6) <> None).
  { rewrite (sk_registry K56), (sk_registry K35), (proj2 K23). discriminate. }
  destruct (startWatching_oneSet R6 One6) as (w7 & E7 & W7 & _).
  destruct (startWatching_result w6 R6) as (w7' & E7' & _ & _ & _ & _ & _ & _ & S7 & K67).
  assert (w7' = w7) by congruence. subst w7'.
  rewrite E7 in E. injection E as <-.
  exists networkId, registry, arrs, fakes.
  repeat (split; [first [reflexivity | assumption] |]).
  unfold getValentineRequests, ValentineRequests.getAll, isLoaded.
  cbn [loadedAndNotified record withSelf self set_isLoaded _valentineRequests _isLoaded
       _networkId _valentineRegistry watching].
  split; [rewrite S7, S6, S5; reflexivity |].
  split; [exact L6 |]. split; [exact D6 |]. split; [reflexivity |].
  split; [rewrite (sk_networkId K67), (sk_networkId K56), (sk_networkId K35); exact (proj1 K23) |].
  split; [rewrite (sk_registry K67), (sk_registry K56), (sk_registry K35); exact (proj2 K23) |].
  rewrite W7, (lp_nextFilter P16), F1. reflexivity.
Qed.

(* ------------------------------------------------------------------ *)
(** * The methods that need an account *)

Lemma exec_getRequestIfExistsAsync_cases (address : string) (w : World) :
  exec (getRequestIfExistsAsync address) w =
  if _wrappedWeb3 (self w) then
    if isAddress (node w) (JS.toLowerCase address) then
      match _valentineRegistry (self w) with
      | None => (Err "TypeError: Cannot read property of null", w)
      | Some _ =>
          match getRequestByRequesterAddress (node w) address with
          | Ok requestArr =>
              (Ok (if _doesRequestExist (_convertRequestArrToObj requestArr)
                   then Some (_convertRequestArrToObj requestArr) else None),
               suspend (GetRequestByRequesterAddress address) w)
          | Err e => (Err e, suspend (GetRequestByRequesterAddress address) w)
          end
      end
    else (Err "address must be valid ethereum address", w)
  else (Err "TypeError: Cannot read property 'call' of null", w).
Proof.
  unfold getRequestIfExistsAsync.
  rewrite exec_bind, exec_lift.
  unfold isValidAddress. rewrite sync_bind. unfold read at 1. cbv beta iota.
  destruct (_wrappedWeb3 (self w)); [| reflexivity].
  cbv beta iota.
  destruct (isAddress (node w) (JS.toLowerCase address)).
  2:{ rewrite exec_bind, exec_lift. reflexivity. }
  rewrite exec_bind, exec_lift. cbn [assert ret Sync_Monad].
  rewrite exec_bind, (exec_registryCall (GetRequestByRequesterAddress address)).
  destruct (_valentineRegistry (self w)); [| reflexivity].
  cbn [answer].
  destruct (getRequestByRequesterAddress (node w) address) as [requestArr | e];
    [| reflexivity].
  destruct (_doesRequestExist (_convertRequestArrToObj requestArr)); reflexivity.
Qed.

Lemma isValidAddress_eq (address : string) (w : World) :
  isValidAddress address w =
  if _wrappedWeb3 (self w) then (Ok (isAddress (node w) (JS.toLowerCase address)), w)
  else (Err "TypeError: Cannot read property 'call' of null", w).
Proof.
  unfold isValidAddress. rewrite sync_bind. unfold read.
  destruct (_wrappedWeb3 (self w)); reflexivity.
Qed.

Lemma getFirstAccountIfExists_eq (web3 : Web3) (w : World) :
  getFirstAccountIfExists web3 w =
  if _wrappedWeb3 (self w) then (Ok (firstAccount web3), w)
  else (Err "TypeError: Cannot read property 'getFirstAccountIfExists' of null", w).
Proof.
  unfold getFirstAccountIfExists. rewrite sync_bind. unfold read.
  destruct (_wrappedWeb3 (self w)); reflexivity.
Qed.

Lemma sendTransaction_eq (tx : Transaction) (w : World) :
  sendTransaction tx w =
  match _valentineRegistry (self w) with
  | Some _ => (Ok tx, w)
  | None => (Err "TypeError: Cannot read property of null", w)
  end.
Proof.
  unfold sendTransaction. rewrite sync_bind. unfold read.
  destruct (_valentineRegistry (self w)); reflexivity.
Qed.

Lemma acceptValentineRequestAsync_eq (web3 : Web3) (requesterAddress : string) (w : World) :
  acceptValentineRequestAsync web3 requesterAddress w =
  (if _wrappedWeb3 (self w) then
     if isAddress (node w) (JS.toLowerCase requesterAddress) then
       match firstAccount web3 with
       | None => Err "valentineRequest must be available for a transaction to be sent."
       | Some from =>
           match _valentineRegistry (self w) with
           | Some _ => Ok (AcceptValentineRequest requesterAddress from)
           | None => Err "TypeError: Cannot read property of null"
           end
       end
     else Err "requesterAddress must be valid ethereum address"
   else Err "TypeError: Cannot read property 'call' of null", w).
Proof.
  unfold acceptValentineRequestAsync.
  rewrite sync_bind, isValidAddress_eq.
  destruct (_wrappedWeb3 (self w)) eqn:W; [| reflexivity].
  destruct (isAddress (node w) (JS.toLowerCase requesterAddress)); [| reflexivity].
  rewrite sync_bind. cbn [assert ret Sync_Monad].
  rewrite sync_bind, getFirstAccountIfExists_eq, W.
  destruct (firstAccount web3) as [from |]; [| reflexivity].
  rewrite sync_bind. cbn [assertNotNull ret Sync_Monad].
  rewrite sendTransaction_eq. destruct (_valentineRegistry (self w)); reflexivity.
Qed.

Lemma createValentineRequest_eq (web3 : Web3)
    (requesterName valentineName customMessage valentineAddress : string) (w : World) :
  createValentineRequestFireAndForgetAsync web3 requesterName valentineName customMessage
    valentineAddress w =
  (if _wrappedWeb3 (self w) then
     if isAddress (node w) (JS.toLowerCase valentineAddress) || isEmpty valentineAddress then
       match firstAccount web3 with
       | None => Err "requesterAddress must be available for a transaction to be sent."
       | Some from =>
           match _valentineRegistry (self w) with
           | Some _ =>
               Ok (if isEmpty valentineAddress
                   then CreateOpenValentineRequest requesterName valentineName
                          customMessage from (toWei web3 "0.1" "ether")
                   else CreateTargetedValentineRequest requesterName valentineName
                          customMessage valentineAddress from (toWei web3 "0.1" "ether"))
           | None => Err "TypeError: Cannot read property of null"
           end
       end
     else Err "valentineAddress         must either be a valid ethereum address or an empty string"
   else Err "TypeError: Cannot read property 'call' of null", w).
Proof.
  unfold createValentineRequestFireAndForgetAsync.
  rewrite sync_bind, isValidAddress_eq.
  destruct (_wrappedWeb3 (self w)) eqn:W; [| reflexivity].
  destruct (isAddress (node w) (JS.toLowerCase valentineAddress) || isEmpty valentineAddress);
    [| reflexivity].
  rewrite sync_bind. cbn [assert ret Sync_Monad].
  rewrite sync_bind, getFirstAccountIfExists_eq, W.
  destruct (firstAccount web3) as [from |]; [| reflexivity].
  rewrite sync_bind. cbn [assertNotNull ret Sync_Monad].
  destruct (isEmpty valentineAddress); rewrite sendTransaction_eq;
    destruct (_valentineRegistry (self w)); reflexivity.
Qed.

(** X13. [createValentineRequestFireAndForgetAsync] sends a transaction only
    from the first account, with the value of 0.1 ether: an open request
    when the valentine address is the empty string, and otherwise a
    targeted request whose address passed [isAddress] in lower case. The
    object is left as it was. *)
Theorem create_request_transaction (web3 : Web3)
    (requesterName valentineName customMessage valentineAddress : string)
    (w : World) (tx : Transaction) :
  fst (createValentineRequestFireAndForgetAsync web3 requesterName valentineName
         customMessage valentineAddress w) = Ok tx ->
  exists from,
    firstAccount web3 = Some from /\
    (valentineAddress = EmptyString /\
     tx = CreateOpenValentineRequest requesterName valentineName customMessage from
            (toWei web3 "0.1" "ether")
     \/
     valentineAddress <> EmptyString /\
     isAddress (node w) (JS.toLowerCase valentineAddress) = true /\
     tx = CreateTargetedValentineRequest requesterName valentineName customMessage
            valentineAddress from (toWei web3 "0.1" "ether")) /\
    snd (createValentineRequestFireAndForgetAsync web3 requesterName valentineName
           customMessage valentineAddress w) = w.
Proof.
  rewrite createValentineRequest_eq. cbn [fst snd].
  destruct (_wrappedWeb3 (self w)); [| discriminate].
  destruct (isAddress (node w) (JS.toLowerCase valentineAddress)) eqn:V;
    unfold isEmpty; destruct (String.eqb_spec valentineAddress EmptyString) as [E | E];
    cbn [orb]; try discriminate;
    (destruct (firstAccount web3) as [from |]; [| discriminate]);
    (destruct (_valentineRegistry (self w)); [| discriminate]);
    intros H; injection H as <-; exists from; (split; [reflexivity |]);
    (split; [| reflexivity]); auto.
Qed.

(** X14. [acceptValentineRequestAsync(requesterAddress)] sends a transaction
    only when the address passes [isAddress] in lower case and an account
    exists; the transaction carries the address as given and the first
    account as sender. The object is left as it was. *)
Theorem accept_request_transaction (web3 : Web3) (requesterAddress : string)
    (w : World) (tx : Transaction) :
  fst (acceptValentineRequestAsync web3 requesterAddress w) = Ok tx ->
  exists from,
    firstAccount web3 = Some from /\
    isAddress (node w) (JS.toLowerCase requesterAddress) = true /\
    tx = AcceptValentineRequest requesterAddress from /\
    snd (acceptValentineRequestAsync web3 requesterAddress w) = w.
Proof.
  rewrite acceptValentineRequestAsync_eq. cbn [fst snd].
  destruct (_wrappedWeb3 (self w)); [| discriminate].
  destruct (isAddress (node w) (JS.toLowerCase requesterAddress)); [| discriminate].
  destruct (firstAccount web3) as [from |]; [| discriminate].
  destruct (_valentineRegistry (self w)); [| discriminate].
  intros H. injection H as <-. exists from. repeat split.
Qed.

(** X15. When the first account is a valid address and the ledger replies,
    [didRequesterAlreadyRequestAsync()] resolves to false exactly when the
    decoded reply is the non-existent placeholder, and to true
    otherwise. *)
Theorem didRequesterAlreadyRequest_iff (web3 : Web3) (w : World)
    (account : string) (requestArr : RequestArr) :
  _wrappedWeb3 (self w) = true ->
  firstAccount web3 = Some account ->
  isAddress (node w) (JS.toLowerCase account) = true ->
  _valentineRegistry (self w) <> None ->
  getRequestByRequesterAddress (node w) account = Ok requestArr ->
  let answered := fst (exec (didRequesterAlreadyRequestAsync web3) w) in
  (answered = Ok false <-> _convertRequestArrToObj requestArr = placeholder) /\
  (answered = Ok true <-> _convertRequestArrToObj requestArr <> placeholder).
Proof.
  intros W A V R L answered.
  assert (E : answered = Ok (_doesRequestExist (_convertRequestArrToObj requestArr))).
  { subst answered. unfold didRequesterAlreadyRequestAsync.
    rewrite exec_bind, exec_lift, getFirstAccountIfExists_eq, W, A.
    rewrite exec_bind, exec_lift. cbn [assertNotNull ret Sync_Monad].
    rewrite exec_bind, exec_getRequestIfExistsAsync_cases, W, V.
    destruct (_valentineRegistry (self w)); [| congruence].
    rewrite L. destruct (_doesRequestExist _); reflexivity. }
  rewrite E.
  pose proof (doesRequestExist_false_iff (_convertRequestArrToObj requestArr)) as P.
  destruct (_doesRequestExist (_convertRequestArrToObj requestArr)).
  - assert (N : _convertRequestArrToObj requestArr <> placeholder)
      by (intros Q; apply P in Q; discriminate).
    split; split; try discriminate; auto. intros Q. contradiction.
  - assert (Q : _convertRequestArrToObj requestArr = placeholder) by (apply P; reflexivity).
    split; split; try discriminate; auto. intros N. contradiction.
Qed.

(* ------------------------------------------------------------------ *)
(** * The accept dialog *)

Lemma exec_started {A : Type} (m : Sync A) (w : World) :
  exec (started m) w = (Ok (fst (m w)), snd (m w)).
Proof. reflexivity. Qed.

Lemma isRequestTargetedAtUser_eq (web3 : Web3) (valentineAddress : string) (w : World) :
  isRequestTargetedAtUser web3 valentineAddress w =
  if _wrappedWeb3 (self w) then
    (Ok (match firstAccount web3 with
         | Some account => valentineAddress =? account
         | None => false
         end || (valentineAddress =? NULL_ADDRESS)), w)
  else (Err "TypeError: Cannot read property 'getFirstAccountIfExists' of null", w).
Proof.
  unfold isRequestTargetedAtUser. rewrite sync_bind, getFirstAccountIfExists_eq.
  destruct (_wrappedWeb3 (self w)); [| reflexivity].
  destruct (firstAccount web3) as [account |]; simpl; [| reflexivity].
  rewrite negb_involutive. reflexivity.
Qed.



(* ------------------------------------------------------------------ *)
(** * Instances of the properties above *)

Lemma restart_replaces_filters_witness :
  let w := Sample.ready in
  _valentineRegistry (self w) <> None /\
  oneSetOfFilters w /\
  filtersNumbered w /\
  exists w',
    _startWatchingContractForEvents w = (Ok tt, w') /\
    watching w' =
      [(nextFilter w, LogValentineRequestCreated); (S (nextFilter w), LogRequestAccepted)] /\
    oneSetOfFilters w' /\
    filtersNumbered w' /\
    forall d : Delivery, kindOf (target d) (watching w) <> None -> deliver d w' = w'.
Proof.
  intros w.
  assert (R : _valentineRegistry (self w) <> None) by (vm_compute; discriminate).
  assert (O : oneSetOfFilters w) by (vm_compute; reflexivity).
  assert (F : filtersNumbered w).
  { intros f H. vm_compute in H. change (f < 2).
    destruct f as [| [| f]]; [lia | lia | contradiction]. }
  split; [exact R |]. split; [exact O |]. split; [exact F |].
  exact (@restart_replaces_filters w R O F).
Defined.

Lemma one_set_of_filters_kept_witness :
  let w := Sample.ready in
  oneSetOfFilters w /\
  oneSetOfFilters (snd (exec _onPageLoadInitFireAndForgetAsync w)) /\
  (forall token : option string,
      oneSetOfFilters (snd (exec (_networkConnectionChangedAsync token) w))) /\
  (forall batch : list Delivery, oneSetOfFilters (deliverAll batch w)).
Proof.
  intros w.
  assert (O : oneSetOfFilters w) by (vm_compute; reflexivity).
  split; [exact O |].
  exact (@one_set_of_filters_kept w O).
Defined.

Lemma reload_always_reports_error_witness :
  let w := Sample.ready in
  _networkId (self w) <> Some "4" /\
  hasError (self (snd (exec (_networkConnectionChangedAsync (Some "4")) w))) = true.
Proof.
  intros w.
  assert (N : _networkId (self w) <> Some "4") by (vm_compute; discriminate).
  split; [exact N |].
  exact (@reload_always_reports_error w "4" N).
Defined.

Lemma unique_keys_kept_witness :
  let w := Sample.fresh (Sample.ledger [Sample.alice; Sample.carol]) in
  ValentineRequests.uniqueKeys (_valentineRequests (self w)) /\
  ValentineRequests.uniqueKeys
    (_valentineRequests (self (snd (exec _onPageLoadInitFireAndForgetAsync w)))) /\
  (forall token : option string,
      ValentineRequests.uniqueKeys
        (_valentineRequests (self (snd (exec (_networkConnectionChangedAsync token) w))))) /\
  NoDup (map requesterAddress
           (getValentineRequests (self (snd (exec _instantiateContractAsync w))))).
Proof.
  intros w.
  assert (U : ValentineRequests.uniqueKeys (_valentineRequests (self w))) by constructor.
  split; [exact U |].
  exact (@unique_keys_kept w U).
Defined.

Lemma no_transport_disables_lookups_witness :
  let w := Sample.fresh Visitor.bare in
  windowWeb3 (node w) = false /\
  _wrappedWeb3 (self w) = false /\
  exists w',
    exec _onPageLoadInitFireAndForgetAsync w = (Ok tt, w') /\
    getError (self w') = Some "NO_WEB3_INSTANCE_FOUND" /\
    isLoaded (self w') = true /\
    ~ In (EListen "networkConnection") (skipn (length (journal w)) (journal w')) /\
    forall address : string,
      fst (isValidAddress address w') = Err "TypeError: Cannot read property 'call' of null" /\
      fst (exec (getRequestIfExistsAsync address) w') =
        Err "TypeError: Cannot read property 'call' of null".
Proof.
  intros w.
  assert (H : windowWeb3 (node w) = false) by reflexivity.
  assert (W : _wrappedWeb3 (self w) = false) by reflexivity.
  split; [exact H |]. split; [exact W |].
  exact (@no_transport_disables_lookups w H W).
Defined.

Lemma bulk_load_leaves_a_prefix_witness :
  let w := Sample.resolved (Sample.ledger [Sample.alice; Sample.carol; Sample.alice]) in
  let o := fst (exec _getExistingRequestsAsync w) in
  let w' := snd (exec _getExistingRequestsAsync w) in
  quiet w /\
  exec _getExistingRequestsAsync w = (o, w') /\
  o = Err "DuplicateKey" /\
  exists arrs,
    getValentineRequests (self w') = map _convertRequestArrToObj arrs /\
    map (getRequestByIndex (node w)) (seq 0 (length arrs)) = map Ok arrs /\
    NoDup (map requesterAddress (getValentineRequests (self w'))) /\
    (o = Ok tt -> numRequesters (node w) = Ok (length arrs)) /\
    (forall count, numRequesters (node w) = Ok count -> length arrs <= count).
Proof.
  intros w o w'.
  assert (Q : quiet w) by (repeat constructor).
  assert (E : exec _getExistingRequestsAsync w = (o, w')) by (vm_compute; reflexivity).
  split; [exact Q |]. split; [exact E |]. split; [vm_compute; reflexivity |].
  exact (@bulk_load_leaves_a_prefix w w' o Q E).
Defined.

Lemma first_boot_result_witness :
  let w := Sample.fresh (Sample.ledger [Sample.alice; Sample.carol]) in
  let w' := Sample.ready in
  self w = constructed /\
  watching w = [] /\
  exec _onPageLoadInitFireAndForgetAsync w = (Ok tt, w') /\
  hasError (self w') = false /\
  exists networkId registry arrs fakes,
    getNetworkIdIfExists (node w) = Ok (Some networkId) /\
    deployed (node w) = Ok registry /\
    numRequesters (node w) = Ok (length arrs) /\
    map (getRequestByIndex (node w)) (seq 0 (length arrs)) = map Ok arrs /\
    getValentineRequests (self w') = map _convertRequestArrToObj arrs ++ fakes /\
    length fakes = 10 /\
    Forall isDemoRequest fakes /\
    isLoaded (self w') = true /\
    _networkId (self w') = Some networkId /\
    _valentineRegistry (self w') = Some registry /\
    watching w' =
      [(nextFilter w, LogValentineRequestCreated); (S (nextFilter w), LogRequestAccepted)].
Proof.
  intros w w'.
  assert (S0 : self w = constructed) by reflexivity.
  assert (W0 : watching w = []) by reflexivity.
  assert (E : exec _onPageLoadInitFireAndForgetAsync w = (Ok tt, w'))
    by (vm_compute; reflexivity).
  assert (H : hasError (self w') = false) by (vm_compute; reflexivity).
  split; [exact S0 |]. split; [exact W0 |]. split; [exact E |]. split; [exact H |].
  exact (@first_boot_result w w' S0 W0 E H).
Defined.

Lemma create_request_transaction_witness :
  let w := Sample.ready in
  let tx := CreateOpenValentineRequest "dave" "carol" "yes" 
              "0x00000000000000000000000000000000000000d4" "0.1 ether" in
  fst (createValentineRequestFireAndForgetAsync Visitor.dave "dave" "carol" "yes"
         EmptyString w) = Ok tx /\
  exists from,
    firstAccount Visitor.dave = Some from /\
    (EmptyString = EmptyString /\
     tx = CreateOpenValentineRequest "dave" "carol" "yes" from
            (toWei Visitor.dave "0.1" "ether")
     \/
     EmptyString <> EmptyString /\
     isAddress (node w) (JS.toLowerCase EmptyString) = true /\
     tx = CreateTargetedValentineRequest "dave" "carol" "yes" EmptyString from
            (toWei Visitor.dave "0.1" "ether")) /\
    snd (createValentineRequestFireAndForgetAsync Visitor.dave "dave" "carol" "yes"
           EmptyString w) = w.
Proof.
  intros w tx.
  assert (E : fst (createValentineRequestFireAndForgetAsync Visitor.dave "dave" "carol" "yes"
                     EmptyString w) = Ok tx) by (vm_compute; reflexivity).
  split; [exact E |].
  exact (@create_request_transaction Visitor.dave "dave" "carol" "yes" EmptyString w tx E).
Defined.

Lemma accept_request_transaction_witness :
  let w := Sample.ready in
  let requesterAddress := "0x00000000000000000000000000000000000000A1" in
  let tx := AcceptValentineRequest requesterAddress
              "0x00000000000000000000000000000000000000d4" in
  fst (acceptValentineRequestAsync Visitor.dave requesterAddress w) = Ok tx /\
  exists from,
    firstAccount Visitor.dave = Some from /\
    isAddress (node w) (JS.toLowerCase requesterAddress) = true /\
    tx = AcceptValentineRequest requesterAddress from /\
    snd (acceptValentineRequestAsync Visitor.dave requesterAddress w) = w.
Proof.
  intros w requesterAddress tx.
  assert (E : fst (acceptValentineRequestAsync Visitor.dave requesterAddress w) = Ok tx)
    by (vm_compute; reflexivity).
  split; [exact E |].
  exact (@accept_request_transaction Visitor.dave requesterAddress w tx E).
Defined.

Lemma didRequesterAlreadyRequest_iff_witness :
  let w := Sample.ready in
  let account := "0x00000000000000000000000000000000000000d4" in
  _wrappedWeb3 (self w) = true /\
  firstAccount Visitor.dave = Some account /\
  isAddress (node w) (JS.toLowerCase account) = true /\
  _valentineRegistry (self w) <> None /\
  getRequestByRequesterAddress (node w) account = Ok emptyRequestArr /\
  fst (exec (didRequesterAlreadyRequestAsync Visitor.dave) w) = Ok false.
Proof.
  intros w account.
  assert (W : _wrappedWeb3 (self w) = true) by (vm_compute; reflexivity).
  assert (A : firstAccount Visitor.dave = Some account) by reflexivity.
  assert (V : isAddress (node w) (JS.toLowerCase account) = true) by (vm_compute; reflexivity).
  assert (R : _valentineRegistry (self w) <> None) by (vm_compute; discriminate).
  assert (L : getRequestByRequesterAddress (node w) account = Ok emptyRequestArr)
    by (vm_compute; reflexivity).
  repeat (split; [assumption |]).
  destruct (@didRequesterAlreadyRequest_iff Visitor.dave w account emptyRequestArr W A V R L)
    as (I & _).
  apply I. reflexivity.
Defined.


